(** * Education pad pledge: schema, row-level security and dashboard handlers

    A shallow embedding of the relational schema, its constraints, triggers
    and row-level-security policies (supabase/migrations), together with the
    browser-side handlers of the Messages page, the institutions list and the
    analytics and report computations.

    Part I holds the definitions, one module per source unit.
    Part II holds the lemmas and theorems. *)

From Stdlib Require Import List Bool ZArith NArith QArith Qround Lia String Ascii.
From Stdlib Require Import DecimalString.
Import ListNotations.

Local Close Scope Q_scope.
Local Open Scope bool_scope.

(* ================================================================== *)
(** * Part I: definitions                                              *)
(* ================================================================== *)

(** ** The relational schema (supabase/migrations) *)

Module Sql.

(** A [uuid] is a 128-bit value; only equality on it is used. *)
Definition uuid := N.
Bind Scope N_scope with uuid.

(** [timestamp with time zone], as a count of microseconds. *)
Definition timestamptz := Z.
Bind Scope Z_scope with timestamptz.

(** SQL [numeric]: exact decimals, and the three special values.
    PostgreSQL orders them -Infinity < finite < Infinity < NaN. *)
Inductive numeric :=
| Num (q : Q)
| NumInfinity
| NumNegInfinity
| NumNaN.

Definition numeric_gt (a b : numeric) : bool :=
  match a, b with
  | NumNaN, NumNaN => false
  | NumNaN, _ => true
  | _, NumNaN => false
  | NumInfinity, NumInfinity => false
  | NumInfinity, _ => true
  | _, NumInfinity => false
  | NumNegInfinity, _ => false
  | Num _, NumNegInfinity => true
  | Num x, Num y => negb (Qle_bool x y)
  end.

(** [CREATE TYPE app_role AS ENUM ('admin', 'institution', 'investor')] *)
Inductive app_role := admin | institution_role | investor_role.

Definition app_role_eqb (a b : app_role) : bool :=
  match a, b with
  | admin, admin | institution_role, institution_role
  | investor_role, investor_role => true
  | _, _ => false
  end.

(** [_role::text] *)
Definition app_role_text (r : app_role) : string :=
  match r with
  | admin => "admin"
  | institution_role => "institution"
  | investor_role => "investor"
  end.

(** A comparison [a = b] between a nullable column and a value is TRUE only
    when the column is not NULL and holds that value. *)
Definition col_is (a : option uuid) (b : uuid) : bool :=
  match a with
  | Some x => N.eqb x b
  | None => false
  end.

(** [a = b] between two nullable columns: NULL never compares equal. *)
Definition col_eq (a b : option uuid) : bool :=
  match a, b with
  | Some x, Some y => N.eqb x y
  | _, _ => false
  end.

Definition not_null {A} (a : option A) : bool :=
  match a with
  | Some _ => true
  | None => false
  end.

(** *** Rows *)

Record profile := mkProfile {
  p_id : uuid;
  p_email : string;
  p_full_name : option string;
  p_user_type : string;
  p_verification_status : string;
  p_updated_at : timestamptz
}.

Record institution := mkInstitution {
  i_id : uuid;
  i_user_id : uuid;
  i_institution_name : string
}.

Record investor := mkInvestor {
  inv_id : uuid;
  inv_user_id : uuid;
  inv_investor_type : string;
  inv_company_name : option string
}.

Record conversation := mkConversation {
  c_id : uuid;
  c_institution_id : option uuid;
  c_investor_id : option uuid;
  c_created_at : timestamptz;
  c_updated_at : timestamptz
}.

Record message := mkMessage {
  m_id : uuid;
  m_conversation_id : uuid;
  m_sender_id : uuid;
  m_content : string;
  m_read : bool;
  m_created_at : timestamptz
}.

Record user_role := mkUserRole {
  ur_user_id : uuid;
  ur_role : app_role
}.

Record donation := mkDonation {
  d_id : uuid;
  d_investor_id : option uuid;
  d_institution_id : option uuid;
  d_amount : option numeric;
  d_currency : string;
  d_status : option string;
  d_message : option string;
  d_updated_at : timestamptz
}.

(** The database: one list of rows per table. *)
Record db := mkDb {
  profiles : list profile;
  institutions : list institution;
  investors : list investor;
  conversations : list conversation;
  messages : list message;
  user_roles : list user_role;
  donations : list donation
}.

Definition empty_db : db := mkDb [] [] [] [] [] [] [].

Definition set_profiles (d : db) (l : list profile) : db :=
  mkDb l (institutions d) (investors d) (conversations d) (messages d)
       (user_roles d) (donations d).

Definition set_institutions (d : db) (l : list institution) : db :=
  mkDb (profiles d) l (investors d) (conversations d) (messages d)
       (user_roles d) (donations d).

Definition set_investors (d : db) (l : list investor) : db :=
  mkDb (profiles d) (institutions d) l (conversations d) (messages d)
       (user_roles d) (donations d).

Definition set_conversations (d : db) (l : list conversation) : db :=
  mkDb (profiles d) (institutions d) (investors d) l (messages d)
       (user_roles d) (donations d).

Definition set_messages (d : db) (l : list message) : db :=
  mkDb (profiles d) (institutions d) (investors d) (conversations d) l
       (user_roles d) (donations d).

Definition set_user_roles (d : db) (l : list user_role) : db :=
  mkDb (profiles d) (institutions d) (investors d) (conversations d)
       (messages d) l (donations d).

Definition set_donations (d : db) (l : list donation) : db :=
  mkDb (profiles d) (institutions d) (investors d) (conversations d)
       (messages d) (user_roles d) l.

(** *** Constraints *)

Definition profile_exists (d : db) (id : uuid) : bool :=
  existsb (fun p => N.eqb (p_id p) id) (profiles d).

Definition institution_exists (d : db) (id : uuid) : bool :=
  existsb (fun i => N.eqb (i_id i) id) (institutions d).

Definition investor_exists (d : db) (id : uuid) : bool :=
  existsb (fun v => N.eqb (inv_id v) id) (investors d).

Definition conversation_exists (d : db) (id : uuid) : bool :=
  existsb (fun c => N.eqb (c_id c) id) (conversations d).

(** A foreign key on a nullable column accepts NULL (MATCH SIMPLE); the
    NOT NULL constraint is checked apart. *)
Definition references (exists_in : uuid -> bool) (a : option uuid) : bool :=
  match a with
  | Some x => exists_in x
  | None => true
  end.

(** [CHECK (user_type IN ('institution', 'investor', 'admin'))] *)
Definition check_user_type (s : string) : bool :=
  String.eqb s "institution" || String.eqb s "investor" || String.eqb s "admin".

(** [CHECK (verification_status IN ('pending', 'verified', 'rejected'))] *)
Definition check_verification_status (s : string) : bool :=
  String.eqb s "pending" || String.eqb s "verified" || String.eqb s "rejected".

(** [CHECK (investor_type IN ('individual', 'corporate', 'foundation', 'ngo'))] *)
Definition check_investor_type (s : string) : bool :=
  String.eqb s "individual" || String.eqb s "corporate"
  || String.eqb s "foundation" || String.eqb s "ngo".

(** [CHECK (amount > 0)]: a CHECK passes when its expression is TRUE or NULL. *)
Definition check_amount (a : option numeric) : bool :=
  match a with
  | Some v => numeric_gt v (Num 0%Q)
  | None => true
  end.

(** [CHECK (status IN ('pending', 'completed', 'cancelled', 'failed'))] *)
Definition check_status (s : option string) : bool :=
  match s with
  | Some v => String.eqb v "pending" || String.eqb v "completed"
              || String.eqb v "cancelled" || String.eqb v "failed"
  | None => true
  end.

(** [UNIQUE(institution_id, investor_id)]: some row other than those with
    primary key [self] holds the same pair. *)
Definition pair_taken (d : db) (self : option uuid)
    (inst inv : option uuid) : bool :=
  existsb (fun c => negb (col_is self (c_id c))
                    && col_eq (c_institution_id c) inst
                    && col_eq (c_investor_id c) inv)
          (conversations d).

(** Everything the [conversations] table demands of a row. *)
Definition conversation_row_ok (d : db) (self : option uuid)
    (inst inv : option uuid) : bool :=
  not_null inst && not_null inv
  && references (institution_exists d) inst
  && references (investor_exists d) inv
  && negb (pair_taken d self inst inv).

(** Everything the [donations] table demands of a row. *)
Definition donation_row_ok (d : db) (r : donation) : bool :=
  not_null (d_investor_id r) && not_null (d_institution_id r)
  && not_null (d_amount r) && not_null (d_status r)
  && check_amount (d_amount r) && check_status (d_status r)
  && references (investor_exists d) (d_investor_id r)
  && references (institution_exists d) (d_institution_id r).

(** *** Triggers *)

(** [update_conversation_timestamp]: AFTER INSERT ON messages FOR EACH ROW,
    [UPDATE conversations SET updated_at = NOW() WHERE id = NEW.conversation_id]. *)
Definition touch (now : timestamptz) (c : conversation) : conversation :=
  mkConversation (c_id c) (c_institution_id c) (c_investor_id c)
                 (c_created_at c) now.

Definition update_conversation_timestamp (now : timestamptz) (NEW : message)
    (d : db) : db :=
  set_conversations d
    (map (fun c => if N.eqb (c_id c) (m_conversation_id NEW)
                   then touch now c else c)
         (conversations d)).

(** [update_updated_at_column]: BEFORE UPDATE, [NEW.updated_at = NOW()]. *)
Definition stamp_profile (now : timestamptz) (p : profile) : profile :=
  mkProfile (p_id p) (p_email p) (p_full_name p) (p_user_type p)
            (p_verification_status p) now.

Definition stamp_donation (now : timestamptz) (r : donation) : donation :=
  mkDonation (d_id r) (d_investor_id r) (d_institution_id r) (d_amount r)
             (d_currency r) (d_status r) (d_message r) now.

(** *** Statements, as the engine runs them (constraints and triggers,
    before any row-level security) *)

Definition insert_profile (p : profile) (d : db) : option db :=
  if negb (profile_exists d (p_id p))
     && check_user_type (p_user_type p)
     && check_verification_status (p_verification_status p)
  then Some (set_profiles d (profiles d ++ [p]))
  else None.

Definition insert_institution (i : institution) (d : db) : option db :=
  if negb (institution_exists d (i_id i))
     && profile_exists d (i_user_id i)
     && negb (existsb (fun j => N.eqb (i_user_id j) (i_user_id i))
                      (institutions d))
  then Some (set_institutions d (institutions d ++ [i]))
  else None.

Definition insert_investor (v : investor) (d : db) : option db :=
  if negb (investor_exists d (inv_id v))
     && profile_exists d (inv_user_id v)
     && check_investor_type (inv_investor_type v)
     && negb (existsb (fun w => N.eqb (inv_user_id w) (inv_user_id v))
                      (investors d))
  then Some (set_investors d (investors d ++ [v]))
  else None.

Definition insert_conversation (c : conversation) (d : db) : option db :=
  if negb (conversation_exists d (c_id c))
     && conversation_row_ok d None (c_institution_id c) (c_investor_id c)
  then Some (set_conversations d (conversations d ++ [c]))
  else None.

Definition insert_message (now : timestamptz) (m : message) (d : db)
    : option db :=
  if negb (existsb (fun x => N.eqb (m_id x) (m_id m)) (messages d))
     && conversation_exists d (m_conversation_id m)
     && profile_exists d (m_sender_id m)
  then Some (update_conversation_timestamp now m
               (set_messages d (messages d ++ [m])))
  else None.

Definition insert_user_role (r : user_role) (d : db) : option db :=
  if negb (existsb (fun x => N.eqb (ur_user_id x) (ur_user_id r)
                             && app_role_eqb (ur_role x) (ur_role r))
                   (user_roles d))
  then Some (set_user_roles d (user_roles d ++ [r]))
  else None.

Definition insert_donation (r : donation) (d : db) : option db :=
  if negb (existsb (fun x => N.eqb (d_id x) (d_id r)) (donations d))
     && donation_row_ok d r
  then Some (set_donations d (donations d ++ [r]))
  else None.

(** [UPDATE conversations SET institution_id = .., investor_id = ..
     WHERE id = ..]: the new pair is checked against the other rows. *)
Definition repoint (id : uuid) (inst inv : option uuid) (c : conversation)
    : conversation :=
  if N.eqb (c_id c) id
  then mkConversation (c_id c) inst inv (c_created_at c) (c_updated_at c)
  else c.

Definition update_conversation (id : uuid) (inst inv : option uuid) (d : db)
    : option db :=
  if negb (conversation_exists d id) then Some d
  else if conversation_row_ok d (Some id) inst inv
  then Some (set_conversations d (map (repoint id inst inv) (conversations d)))
  else None.

(** [UPDATE donations SET (every column but id) WHERE id = ..]: the row keeps
    its key and takes the other columns from [r]; the BEFORE UPDATE trigger
    stamps [updated_at]. *)
Definition rekey_donation (id : uuid) (r : donation) : donation :=
  mkDonation id (d_investor_id r) (d_institution_id r) (d_amount r)
             (d_currency r) (d_status r) (d_message r) (d_updated_at r).

Definition update_donation (now : timestamptz) (id : uuid) (r : donation)
    (d : db) : option db :=
  if negb (existsb (fun x => N.eqb (d_id x) id) (donations d)) then Some d
  else if donation_row_ok d r
  then Some (set_donations d
         (map (fun x => if N.eqb (d_id x) id
                        then stamp_donation now (rekey_donation id r) else x)
              (donations d)))
  else None.

(** [UPDATE profiles SET (every column but id) WHERE id = ..]. *)
Definition rekey_profile (id : uuid) (p : profile) : profile :=
  mkProfile id (p_email p) (p_full_name p) (p_user_type p)
            (p_verification_status p) (p_updated_at p).

Definition update_profile (now : timestamptz) (id : uuid) (p : profile)
    (d : db) : option db :=
  if negb (profile_exists d id) then Some d
  else if check_user_type (p_user_type p)
          && check_verification_status (p_verification_status p)
  then Some (set_profiles d
         (map (fun x => if N.eqb (p_id x) id
                        then stamp_profile now (rekey_profile id p) else x)
              (profiles d)))
  else None.

(** *** Deletes, with their ON DELETE CASCADE chains *)

Definition mem_id (l : list uuid) (a : option uuid) : bool :=
  match a with
  | Some x => existsb (N.eqb x) l
  | None => false
  end.

(** Rows that go once the institutions [dead_inst] and the investors
    [dead_inv] are gone: their conversations and donations, and the messages
    of those conversations and of the profiles [dead_prof]. *)
Definition cascade (dead_prof dead_inst dead_inv : list uuid) (d : db) : db :=
  let dead_conv :=
    map c_id (filter (fun c => mem_id dead_inst (c_institution_id c)
                               || mem_id dead_inv (c_investor_id c))
                     (conversations d)) in
  mkDb (profiles d) (institutions d) (investors d)
       (filter (fun c => negb (mem_id dead_inst (c_institution_id c)
                               || mem_id dead_inv (c_investor_id c)))
               (conversations d))
       (filter (fun m => negb (existsb (N.eqb (m_conversation_id m)) dead_conv
                               || existsb (N.eqb (m_sender_id m)) dead_prof))
               (messages d))
       (user_roles d)
       (filter (fun r => negb (mem_id dead_inst (d_institution_id r)
                               || mem_id dead_inv (d_investor_id r)))
               (donations d)).

Definition delete_profile (id : uuid) (d : db) : db :=
  let dead_inst :=
    map i_id (filter (fun i => N.eqb (i_user_id i) id) (institutions d)) in
  let dead_inv :=
    map inv_id (filter (fun v => N.eqb (inv_user_id v) id) (investors d)) in
  let d1 := cascade [id] dead_inst dead_inv d in
  mkDb (filter (fun p => negb (N.eqb (p_id p) id)) (profiles d1))
       (filter (fun i => negb (N.eqb (i_user_id i) id)) (institutions d1))
       (filter (fun v => negb (N.eqb (inv_user_id v) id)) (investors d1))
       (conversations d1) (messages d1) (user_roles d1) (donations d1).

Definition delete_institution (id : uuid) (d : db) : db :=
  let d1 := cascade [] [id] [] d in
  set_institutions d1
    (filter (fun i => negb (N.eqb (i_id i) id)) (institutions d1)).

Definition delete_investor (id : uuid) (d : db) : db :=
  let d1 := cascade [] [] [id] d in
  set_investors d1
    (filter (fun v => negb (N.eqb (inv_id v) id)) (investors d1)).

Definition delete_conversation (id : uuid) (d : db) : db :=
  mkDb (profiles d) (institutions d) (investors d)
       (filter (fun c => negb (N.eqb (c_id c) id)) (conversations d))
       (filter (fun m => negb (N.eqb (m_conversation_id m) id)) (messages d))
       (user_roles d) (donations d).

Definition delete_message (id : uuid) (d : db) : db :=
  set_messages d (filter (fun m => negb (N.eqb (m_id m) id)) (messages d)).

Definition delete_donation (id : uuid) (d : db) : db :=
  set_donations d (filter (fun r => negb (N.eqb (d_id r) id)) (donations d)).

(** *** The statements as one type, and the states they reach *)

Inductive statement :=
| InsertProfile (p : profile)
| InsertInstitution (i : institution)
| InsertInvestor (v : investor)
| InsertConversation (c : conversation)
| InsertMessage (now : timestamptz) (m : message)
| InsertUserRole (r : user_role)
| InsertDonation (r : donation)
| UpdateProfile (now : timestamptz) (id : uuid) (p : profile)
| UpdateConversation (id : uuid) (inst inv : option uuid)
| UpdateDonation (now : timestamptz) (id : uuid) (r : donation)
| DeleteProfile (id : uuid)
| DeleteInstitution (id : uuid)
| DeleteInvestor (id : uuid)
| DeleteConversation (id : uuid)
| DeleteMessage (id : uuid)
| DeleteDonation (id : uuid).

(** [None]: the statement raises a constraint violation and changes nothing. *)
Definition execute (s : statement) (d : db) : option db :=
  match s with
  | InsertProfile p => insert_profile p d
  | InsertInstitution i => insert_institution i d
  | InsertInvestor v => insert_investor v d
  | InsertConversation c => insert_conversation c d
  | InsertMessage now m => insert_message now m d
  | InsertUserRole r => insert_user_role r d
  | InsertDonation r => insert_donation r d
  | UpdateProfile now id p => update_profile now id p d
  | UpdateConversation id inst inv => update_conversation id inst inv d
  | UpdateDonation now id r => update_donation now id r d
  | DeleteProfile id => Some (delete_profile id d)
  | DeleteInstitution id => Some (delete_institution id d)
  | DeleteInvestor id => Some (delete_investor id d)
  | DeleteConversation id => Some (delete_conversation id d)
  | DeleteMessage id => Some (delete_message id d)
  | DeleteDonation id => Some (delete_donation id d)
  end.

Inductive reachable : db -> Prop :=
| reachable_empty : reachable empty_db
| reachable_step : forall s d d',
    reachable d -> execute s d = Some d' -> reachable d'.

(** A script of statements, stopping at the first one that is refused. *)
Fixpoint run (ss : list statement) (d : db) : option db :=
  match ss with
  | [] => Some d
  | s :: rest =>
      match execute s d with
      | Some d' => run rest d'
      | None => None
      end
  end.

(** The pair that [UNIQUE(institution_id, investor_id)] is about. *)
Definition conversation_pair (c : conversation) : option uuid * option uuid :=
  (c_institution_id c, c_investor_id c).

(** What the declared constraints promise of a state. *)
Record consistent (d : db) : Prop := mkConsistent {
  profiles_pk : NoDup (map p_id (profiles d));
  institutions_pk : NoDup (map i_id (institutions d));
  investors_pk : NoDup (map inv_id (investors d));
  conversations_pk : NoDup (map c_id (conversations d));
  conversations_fk : forall c, In c (conversations d) ->
    exists i v, c_institution_id c = Some i /\ c_investor_id c = Some v
                /\ institution_exists d i = true
                /\ investor_exists d v = true;
  conversations_unique : NoDup (map conversation_pair (conversations d));
  donations_ok : forall r, In r (donations d) -> donation_row_ok d r = true
}.

(** What the [donations] table promises of a stored row. *)
Definition donation_valid (d : db) (r : donation) : Prop :=
  exists (a : numeric) (s : string) (v i : uuid),
    d_amount r = Some a /\ numeric_gt a (Num 0%Q) = true
    /\ d_status r = Some s
    /\ (s = "pending" \/ s = "completed" \/ s = "cancelled" \/ s = "failed")%string
    /\ d_investor_id r = Some v
    /\ (exists w, In w (investors d) /\ inv_id w = v)
    /\ d_institution_id r = Some i
    /\ (exists j, In j (institutions d) /\ i_id j = i).

(** A [numeric] that is a number strictly greater than zero. *)
Definition positive_amount (a : numeric) : Prop :=
  match a with
  | Num q => (0 < q)%Q
  | NumInfinity => True
  | NumNegInfinity => False
  | NumNaN => False
  end.

(** What the [donations] table lets through: [CHECK (amount > 0)] is true of
    the positive amounts and of NaN. *)
Definition donation_admissible (d : db) (r : donation) : Prop :=
  exists (a : numeric) (s : string) (v i : uuid),
    d_amount r = Some a /\ (positive_amount a \/ a = NumNaN)
    /\ d_status r = Some s
    /\ (s = "pending" \/ s = "completed" \/ s = "cancelled" \/ s = "failed")%string
    /\ d_investor_id r = Some v
    /\ (exists w, In w (investors d) /\ inv_id w = v)
    /\ d_institution_id r = Some i
    /\ (exists j, In j (institutions d) /\ i_id j = i).

(** A small population: a verified institution (profile 1), a verified
    investor (profile 2), a pending investor (profile 3), one conversation
    with one message, and one donation. *)
Definition demo_script : list statement :=
  [ InsertProfile (mkProfile 1 "school@example.org" None "institution" "verified" 0);
    InsertProfile (mkProfile 2 "donor@example.org" None "investor" "verified" 0);
    InsertProfile (mkProfile 3 "new@example.org" None "investor" "pending" 0);
    InsertInstitution (mkInstitution 10 1 "Hillside School");
    InsertInvestor (mkInvestor 20 2 "individual" None);
    InsertInvestor (mkInvestor 21 3 "corporate" (Some "Acme"%string));
    InsertConversation (mkConversation 100 (Some 10%N) (Some 20%N) 5 5);
    InsertMessage 9 (mkMessage 1000 100 2 "hello" false 9);
    InsertDonation (mkDonation 500 (Some 20%N) (Some 10%N)
                      (Some (Num (25 # 1))) "USD" (Some "pending"%string) None 7) ].

Definition demo_db : db :=
  mkDb [ mkProfile 1 "school@example.org" None "institution" "verified" 0;
         mkProfile 2 "donor@example.org" None "investor" "verified" 0;
         mkProfile 3 "new@example.org" None "investor" "pending" 0 ]
       [ mkInstitution 10 1 "Hillside School" ]
       [ mkInvestor 20 2 "individual" None;
         mkInvestor 21 3 "corporate" (Some "Acme"%string) ]
       [ mkConversation 100 (Some 10%N) (Some 20%N) 5 9 ]
       [ mkMessage 1000 100 2 "hello" false 9 ]
       []
       [ mkDonation 500 (Some 20%N) (Some 10%N) (Some (Num (25 # 1))) "USD"
                    (Some "pending"%string) None 7 ].

(** The demo population after investor 20 has recorded a donation whose
    amount is NaN. *)
Definition nan_donation : donation :=
  mkDonation 501 (Some 20%N) (Some 10%N) (Some NumNaN) "USD"
             (Some "pending"%string) None 8.

Definition nan_db : db :=
  set_donations demo_db (donations demo_db ++ [nan_donation]).

(** The demo population before institution 10 and investor 20 have a
    conversation. *)
Definition strangers_db : db := delete_conversation 100 demo_db.

(** What the foreign keys of [institutions], [investors] and [messages], the
    two [UNIQUE(user_id)] constraints and the CHECK constraints of [profiles]
    and [investors] promise of a state. *)
Record owned (d : db) : Prop := mkOwned {
  institutions_owner : forall i, In i (institutions d) ->
    profile_exists d (i_user_id i) = true;
  institutions_one : NoDup (map i_user_id (institutions d));
  investors_owner : forall v, In v (investors d) ->
    profile_exists d (inv_user_id v) = true;
  investors_one : NoDup (map inv_user_id (investors d));
  messages_conversation : forall m, In m (messages d) ->
    conversation_exists d (m_conversation_id m) = true;
  messages_sender : forall m, In m (messages d) ->
    profile_exists d (m_sender_id m) = true;
  profiles_checked : forall p, In p (profiles d) ->
    check_user_type (p_user_type p) = true
    /\ check_verification_status (p_verification_status p) = true;
  investors_checked : forall v, In v (investors d) ->
    check_investor_type (inv_investor_type v) = true
}.

End Sql.

(** ** Row-level security (the policies of supabase/migrations) *)

Module Rls.
Import Sql.

(** [auth.uid()]: the caller, NULL when the request is anonymous. *)
Definition caller := option uuid.

Definition verified (p : profile) : bool :=
  String.eqb (p_verification_status p) "verified".

(** [has_role], as first created (migration 20251029042542). *)
Definition has_role_v1 (d : db) (_user_id : caller) (_role : app_role) : bool :=
  existsb (fun r => col_is _user_id (ur_user_id r)
                    && app_role_eqb (ur_role r) _role)
          (user_roles d).

(** [has_role], as replaced by migration 20251110121000: membership in
    [user_roles], or a profile whose [user_type] is the role's name. *)
Definition has_role (d : db) (_user_id : caller) (_role : app_role) : bool :=
  existsb (fun r => col_is _user_id (ur_user_id r)
                    && app_role_eqb (ur_role r) _role)
          (user_roles d)
  || existsb (fun p => col_is _user_id (p_id p)
                       && String.eqb (p_user_type p) (app_role_text _role))
             (profiles d).

(** "Users can update their own profile": [USING (auth.uid() = id)]. *)
Definition users_can_update_their_own_profile (uid : caller) (row : profile)
    : bool :=
  col_is uid (p_id row).

(** "Admins can update all profiles": [USING (has_role(auth.uid(), 'admin'))]. *)
Definition admins_can_update_all_profiles (d : db) (uid : caller)
    (row : profile) : bool :=
  has_role d uid admin.

(** Permissive policies of one command are OR-ed. *)
Definition profiles_update_policy (d : db) (uid : caller) (row : profile)
    : bool :=
  users_can_update_their_own_profile uid row
  || admins_can_update_all_profiles d uid row.

Definition is_institution_in_conversation (d : db) (uid : caller)
    (conv_id : uuid) : bool :=
  existsb (fun c =>
    existsb (fun i =>
      existsb (fun p =>
        col_is (c_institution_id c) (i_id i)
        && N.eqb (i_user_id i) (p_id p)
        && N.eqb (c_id c) conv_id
        && col_is uid (p_id p)
        && verified p)
      (profiles d))
    (institutions d))
  (conversations d).

Definition is_investor_in_conversation (d : db) (uid : caller)
    (conv_id : uuid) : bool :=
  existsb (fun c =>
    existsb (fun inv =>
      existsb (fun p =>
        col_is (c_investor_id c) (inv_id inv)
        && N.eqb (inv_user_id inv) (p_id p)
        && N.eqb (c_id c) conv_id
        && col_is uid (p_id p)
        && verified p)
      (profiles d))
    (investors d))
  (conversations d).

(** "Verified users can view their conversations" (SELECT on conversations). *)
Definition conversations_select_policy (d : db) (uid : caller)
    (row : conversation) : bool :=
  is_institution_in_conversation d uid (c_id row)
  || is_investor_in_conversation d uid (c_id row).

(** *** The directory tables: who may see institutions and investors *)

(** The EXISTS of "Verified investors can view institutions" and of
    "Verified institutions can view investors": the caller's profile has the
    given [user_type] and is verified. *)
Definition verified_as (d : db) (uid : caller) (user_type : string) : bool :=
  existsb (fun p => col_is uid (p_id p)
                    && String.eqb (p_user_type p) user_type
                    && verified p)
          (profiles d).

(** SELECT on [institutions]: own row, verified investor, or admin. *)
Definition institutions_select_policy (d : db) (uid : caller)
    (row : institution) : bool :=
  col_is uid (i_user_id row)
  || verified_as d uid "investor"
  || has_role d uid admin.

(** SELECT on [investors]: own row, verified institution, or admin. *)
Definition investors_select_policy (d : db) (uid : caller)
    (row : investor) : bool :=
  col_is uid (inv_user_id row)
  || verified_as d uid "institution"
  || has_role d uid admin.

(** SELECT on [profiles]: "Users can view their own profile" or "Admins can
    view all profiles". *)
Definition profiles_select_policy (d : db) (uid : caller) (row : profile)
    : bool :=
  col_is uid (p_id row) || has_role d uid admin.

(** The rows a query of the caller reads from each table. A sub-select
    written inside a policy runs as the caller, so it reads these; the
    helper functions above are SECURITY DEFINER and read every row. *)
Definition visible_profiles (d : db) (uid : caller) : list profile :=
  filter (profiles_select_policy d uid) (profiles d).

Definition visible_institutions (d : db) (uid : caller) : list institution :=
  filter (institutions_select_policy d uid) (institutions d).

Definition visible_investors (d : db) (uid : caller) : list investor :=
  filter (investors_select_policy d uid) (investors d).

(** "Verified users can create conversations" (INSERT WITH CHECK): the
    EXISTS is written in the policy itself, so its four joined tables are
    the rows the caller may select. *)
Definition conversations_insert_policy (d : db) (uid : caller)
    (institution_id investor_id : option uuid) : bool :=
  existsb (fun p1 =>
    existsb (fun i =>
      existsb (fun p2 =>
        existsb (fun inv =>
          N.eqb (p_id p1) (i_user_id i)
          && N.eqb (p_id p2) (inv_user_id inv)
          && col_is institution_id (i_id i)
          && col_is investor_id (inv_id inv)
          && verified p1
          && verified p2
          && (col_is uid (p_id p1) || col_is uid (p_id p2)))
        (visible_investors d uid))
      (visible_profiles d uid))
    (visible_institutions d uid))
  (visible_profiles d uid).

(** "Verified users can send messages in their conversations". *)
Definition messages_insert_policy (d : db) (uid : caller) (row : message)
    : bool :=
  col_is uid (m_sender_id row)
  && (is_institution_in_conversation d uid (m_conversation_id row)
      || is_investor_in_conversation d uid (m_conversation_id row)).

(** *** Statements as a caller issues them *)

Definition rls_insert_conversation (uid : caller) (c : conversation) (d : db)
    : option db :=
  if conversations_insert_policy d uid (c_institution_id c) (c_investor_id c)
  then insert_conversation c d
  else None.

Definition rls_insert_message (uid : caller) (now : timestamptz) (m : message)
    (d : db) : option db :=
  if messages_insert_policy d uid m
  then insert_message now m d
  else None.

Definition rls_select_conversations (uid : caller) (d : db)
    : list conversation :=
  filter (conversations_select_policy d uid) (conversations d).

(** [UPDATE profiles SET verification_status = status WHERE id = target], the
    statement behind [handleVerification]. Rows the USING clause hides are
    skipped; with no WITH CHECK clause the USING expression is also applied
    to each new row, and a new row it refuses fails the statement. *)
Definition set_verification_status (status : string) (p : profile) : profile :=
  mkProfile (p_id p) (p_email p) (p_full_name p) (p_user_type p) status
            (p_updated_at p).

Definition rls_update_verification_status (uid : caller) (now : timestamptz)
    (target : uuid) (status : string) (d : db) : option db :=
  let hit x := N.eqb (p_id x) target && profiles_update_policy d uid x in
  let NEW x := stamp_profile now (set_verification_status status x) in
  if forallb (fun x => negb (hit x)
                       || (profiles_update_policy d uid (NEW x)
                           && check_user_type (p_user_type (NEW x))
                           && check_verification_status status))
             (profiles d)
  then Some (set_profiles d (map (fun x => if hit x then NEW x else x)
                                 (profiles d)))
  else None.

(** The verification status of the profile [id], if there is one. *)
Definition status_of (d : db) (id : uuid) : option string :=
  match find (fun p => N.eqb (p_id p) id) (profiles d) with
  | Some p => Some (p_verification_status p)
  | None => None
  end.

(** *** Donations *)

(** "Investors can view their own donations" and the WITH CHECK of
    "Investors can create donations": the row's investor is the caller's. *)
Definition own_investor_donation (d : db) (uid : caller) (row : donation)
    : bool :=
  existsb (fun inv => col_is (d_investor_id row) (inv_id inv)
                      && col_is uid (inv_user_id inv))
          (investors d).

(** "Institutions can view their donations". *)
Definition own_institution_donation (d : db) (uid : caller) (row : donation)
    : bool :=
  existsb (fun inst => col_is (d_institution_id row) (i_id inst)
                       && col_is uid (i_user_id inst))
          (institutions d).

Definition donations_select_policy (d : db) (uid : caller) (row : donation)
    : bool :=
  has_role d uid admin
  || own_investor_donation d uid row
  || own_institution_donation d uid row.

Definition donations_insert_policy (d : db) (uid : caller) (row : donation)
    : bool :=
  has_role d uid admin || own_investor_donation d uid row.

Definition rls_insert_donation (uid : caller) (r : donation) (d : db)
    : option db :=
  if donations_insert_policy d uid r then insert_donation r d else None.

(** *** Profiles: an update of any columns *)

(** [UPDATE profiles SET (every column but id) WHERE id = target], as a
    caller issues it: the rows the USING clause shows take the columns of
    [p]; each new row must pass the same expression and the CHECKs. *)
Definition rls_update_profile (uid : caller) (now : timestamptz)
    (target : uuid) (p : profile) (d : db) : option db :=
  let hit x := N.eqb (p_id x) target && profiles_update_policy d uid x in
  let NEW x := stamp_profile now (rekey_profile (p_id x) p) in
  if forallb (fun x => negb (hit x)
                       || (profiles_update_policy d uid (NEW x)
                           && check_user_type (p_user_type p)
                           && check_verification_status
                                (p_verification_status p)))
             (profiles d)
  then Some (set_profiles d (map (fun x => if hit x then NEW x else x)
                                 (profiles d)))
  else None.

End Rls.

(** ** JavaScript values, strings and numbers, as the components use them *)

Module Js.

Inductive value :=
| VUndefined
| VNull
| VBool (b : bool)
| VStr (s : string).

(** An object literal: its own properties, in order. *)
Definition object := list (string * value).

(** [o.k]: a property the object does not have reads as [undefined]. *)
Fixpoint get (o : object) (k : string) : value :=
  match o with
  | [] => VUndefined
  | (k', v) :: rest => if String.eqb k' k then v else get rest k
  end.

(** [a === b] *)
Definition strict_equal (a b : value) : bool :=
  match a, b with
  | VUndefined, VUndefined => true
  | VNull, VNull => true
  | VBool x, VBool y => Bool.eqb x y
  | VStr x, VStr y => String.eqb x y
  | _, _ => false
  end.

(** Strings are sequences of 8-bit code units; these are the white space and
    line terminators below U+0100 that [trim] strips. *)
Definition is_white_space (c : ascii) : bool :=
  let n := N_of_ascii c in
  (N.leb 9 n && N.leb n 13) || N.eqb n 32 || N.eqb n 160.

Fixpoint trim_start (s : string) : string :=
  match s with
  | EmptyString => EmptyString
  | String c rest => if is_white_space c then trim_start rest else s
  end.

Fixpoint trim_end (s : string) : string :=
  match s with
  | EmptyString => EmptyString
  | String c rest =>
      match trim_end rest with
      | EmptyString => if is_white_space c then EmptyString
                       else String c EmptyString
      | kept => String c kept
      end
  end.

Definition trim (s : string) : string := trim_end (trim_start s).

(** Truthiness of a string, and of a string that may be [null]. *)
Definition truthy (s : string) : bool := negb (String.eqb s "").

Definition truthy_opt (s : option string) : bool :=
  match s with
  | Some x => truthy x
  | None => false
  end.

(** [a || b] on strings that may be [null]. *)
Definition or_else (a : option string) (b : string) : string :=
  match a with
  | Some x => if truthy x then x else b
  | None => b
  end.

(** Numbers: the finite ones as exact rationals (rounding to the nearest
    double and the sign of zero are left out), and the three special values. *)
Inductive number :=
| Fin (q : Q)
| PosInf
| NegInf
| NaN.

Definition of_nat (n : nat) : number := Fin (inject_Z (Z.of_nat n)).

Definition is_zero (q : Q) : bool := Qeq_bool q 0.
Definition is_pos (q : Q) : bool := negb (Qle_bool q 0).

Definition neg (a : number) : number :=
  match a with
  | Fin q => Fin (- q)
  | PosInf => NegInf
  | NegInf => PosInf
  | NaN => NaN
  end.

Definition add (a b : number) : number :=
  match a, b with
  | NaN, _ | _, NaN => NaN
  | PosInf, NegInf | NegInf, PosInf => NaN
  | PosInf, _ | _, PosInf => PosInf
  | NegInf, _ | _, NegInf => NegInf
  | Fin x, Fin y => Fin (x + y)
  end.

Definition sub (a b : number) : number := add a (neg b).

(** An infinity scaled by a finite factor. *)
Definition scale_inf (positive : bool) (q : Q) : number :=
  if is_zero q then NaN
  else if Bool.eqb positive (is_pos q) then PosInf else NegInf.

Definition mul (a b : number) : number :=
  match a, b with
  | NaN, _ | _, NaN => NaN
  | Fin x, Fin y => Fin (x * y)
  | PosInf, Fin q | Fin q, PosInf => scale_inf true q
  | NegInf, Fin q | Fin q, NegInf => scale_inf false q
  | PosInf, PosInf | NegInf, NegInf => PosInf
  | PosInf, NegInf | NegInf, PosInf => NegInf
  end.

(** [a / b]: a zero divisor gives [NaN] or an infinity, never an exception. *)
Definition div (a b : number) : number :=
  match a, b with
  | NaN, _ | _, NaN => NaN
  | Fin x, Fin y =>
      if is_zero y
      then (if is_zero x then NaN else if is_pos x then PosInf else NegInf)
      else Fin (x / y)
  | Fin _, _ => Fin 0
  | PosInf, Fin y => if is_zero y || is_pos y then PosInf else NegInf
  | NegInf, Fin y => if is_zero y || is_pos y then NegInf else PosInf
  | _, _ => NaN
  end.

(** [Math.round]: the nearest integer, halves going up. *)
Definition round (a : number) : number :=
  match a with
  | Fin q => Fin (inject_Z (Qfloor (q + (1 # 2))))
  | other => other
  end.

(** [Math.min(a, b)] and [Math.max(a, b)]: [NaN] if either is. *)
Definition min (a b : number) : number :=
  match a, b with
  | NaN, _ | _, NaN => NaN
  | NegInf, _ | _, NegInf => NegInf
  | PosInf, x | x, PosInf => x
  | Fin x, Fin y => if Qle_bool x y then Fin x else Fin y
  end.

Definition max (a b : number) : number :=
  match a, b with
  | NaN, _ | _, NaN => NaN
  | PosInf, _ | _, PosInf => PosInf
  | NegInf, x | x, NegInf => x
  | Fin x, Fin y => if Qle_bool x y then Fin y else Fin x
  end.

(** Truthiness of a number: zero and [NaN] are falsy. *)
Definition truthy_number (a : number) : bool :=
  match a with
  | Fin q => negb (is_zero q)
  | NaN => false
  | _ => true
  end.

End Js.

(** ** Handlers as state transformers over a world of component state,
       raised toasts, issued backend requests and the backend itself *)

Module Ui.

Record toast := mkToast {
  title : string;
  description : string;
  variant : option string
}.

Definition destructive : option string := Some "destructive"%string.

(** What supabase-js hands back: [{ data, error }]. *)
Record pg_error := mkError { message : string }.

Record response (A : Type) := mkResponse {
  data : option A;
  error : option pg_error
}.
Arguments mkResponse {A} _ _.
Arguments data {A} _.
Arguments error {A} _.

Record world (S R B : Type) := mkWorld {
  ui : S;
  toasts : list toast;
  requests : list R;
  location : option string;
  backend : B
}.
Arguments mkWorld {S R B} _ _ _ _ _.
Arguments ui {S R B} _.
Arguments toasts {S R B} _.
Arguments requests {S R B} _.
Arguments location {S R B} _.
Arguments backend {S R B} _.

Definition M (W A : Type) : Type := W -> A * W.

Definition ret {W A} (a : A) : M W A := fun w => (a, w).

Definition bind {W A C} (c : M W A) (k : A -> M W C) : M W C :=
  fun w => let (a, w') := c w in k a w'.

Declare Scope ui_scope.
Delimit Scope ui_scope with ui.
Notation "x <- c ;; k" := (bind c (fun x => k))
  (at level 61, c at next level, right associativity) : ui_scope.
Notation "c ;; k" := (bind c (fun _ => k))
  (at level 61, right associativity) : ui_scope.

Section Primitives.
Context {S R B : Type}.
Let W : Type := world S R B.

(** The state the handler closed over. *)
Definition read : M W S := fun w => (ui w, w).

(** A [useState] setter. *)
Definition update (f : S -> S) : M W unit :=
  fun w => (tt, mkWorld (f (ui w)) (toasts w) (requests w) (location w)
                        (backend w)).

(** [toast({ ... })] *)
Definition raise_toast (t : toast) : M W unit :=
  fun w => (tt, mkWorld (ui w) (toasts w ++ [t]) (requests w) (location w)
                        (backend w)).

(** [window.location.href = url] *)
Definition navigate (url : string) : M W unit :=
  fun w => (tt, mkWorld (ui w) (toasts w) (requests w) (Some url)
                        (backend w)).

(** One awaited round trip: the request is logged and the backend answers. *)
Definition call {A} (r : R) (serve : B -> B * A) : M W A :=
  fun w => let (b', a) := serve (backend w) in
           (a, mkWorld (ui w) (toasts w) (requests w ++ [r]) (location w) b').
End Primitives.

End Ui.

(** ** The Messages page (Messages component) *)

Module Messages.
Import Js Ui.
Local Open Scope ui_scope.

(** Rows of the [conversations] select, with the two embedded rows. *)
Record institution_ref := mkInstitutionRef {
  inst_id : string;
  institution_name : string;
  inst_user_id : string
}.

Record investor_ref := mkInvestorRef {
  invr_id : string;
  company_name : option string;
  investor_type : string;
  invr_user_id : string
}.

Record conversation_row := mkConversationRow {
  id : string;
  updated_at : string;
  institutions : institution_ref;
  investors : investor_ref
}.

Inductive user_type := investor | institution.

(** The [useState] cells of the component. *)
Record state := mkState {
  currentUserId : option string;
  userType : option user_type;
  isVerified : bool;
  conversations : list object;
  selectedConversationId : option string;
  messages : list object;
  newMessage : string;
  searchQuery : string;
  loading : bool;
  availablePartners : list object;
  showNewConversation : bool;
  selectedPartner : string
}.

Definition setConversations (l : list object) (s : state) : state :=
  mkState (currentUserId s) (userType s) (isVerified s) l
          (selectedConversationId s) (messages s) (newMessage s)
          (searchQuery s) (loading s) (availablePartners s)
          (showNewConversation s) (selectedPartner s).

Definition setSelectedConversationId (c : option string) (s : state) : state :=
  mkState (currentUserId s) (userType s) (isVerified s) (conversations s)
          c (messages s) (newMessage s)
          (searchQuery s) (loading s) (availablePartners s)
          (showNewConversation s) (selectedPartner s).

Definition setNewMessage (m : string) (s : state) : state :=
  mkState (currentUserId s) (userType s) (isVerified s) (conversations s)
          (selectedConversationId s) (messages s) m
          (searchQuery s) (loading s) (availablePartners s)
          (showNewConversation s) (selectedPartner s).

Definition setShowNewConversation (b : bool) (s : state) : state :=
  mkState (currentUserId s) (userType s) (isVerified s) (conversations s)
          (selectedConversationId s) (messages s) (newMessage s)
          (searchQuery s) (loading s) (availablePartners s)
          b (selectedPartner s).

Definition setSelectedPartner (p : string) (s : state) : state :=
  mkState (currentUserId s) (userType s) (isVerified s) (conversations s)
          (selectedConversationId s) (messages s) (newMessage s)
          (searchQuery s) (loading s) (availablePartners s)
          (showNewConversation s) p.

(** The requests the three handlers send. *)
Inductive request :=
| SelectConversations
| InsertMessage (conversation_id sender_id content : string)
| SelectInvestorOf (user_id : string)
| SelectInstitutionOf (user_id : string)
| InsertConversation (investor_id institution_id : string).

(** The hosted backend, as far as these handlers see it. *)
Class Backend (B : Type) := {
  select_conversations : B -> B * response (list conversation_row);
  insert_message : string -> string -> string -> B -> B * response unit;
  select_investor_of : string -> B -> B * response string;
  select_institution_of : string -> B -> B * response string;
  insert_conversation : string -> string -> B -> B * response string
}.

Section Handlers.
Context {B : Type} `{Backend B}.
Let W : Type := world state request B.

(** The object each conversation row is mapped to. *)
Definition format (currentUserId : option string) (conv : conversation_row)
    : object :=
  let isInstitution :=
    strict_equal (VStr (inst_user_id (institutions conv)))
                 (match currentUserId with
                  | Some u => VStr u
                  | None => VNull
                  end) in
  [ ("id", VStr (id conv));
    ("other_party_name",
      VStr (if isInstitution
            then or_else (company_name (investors conv)) "Investor"
            else institution_name (institutions conv)));
    ("other_party_type",
      VStr (if isInstitution then "investor" else "institution"));
    ("updated_at", VStr (updated_at conv));
    ("is_online", VBool false) ]%string.

Definition loadConversations : M W unit :=
  s <- read ;;
  r <- call SelectConversations select_conversations ;;
  match error r with
  | Some e =>
      raise_toast (mkToast "Error loading conversations" (message e)
                           destructive)
  | None =>
      let formatted :=
        match data r with
        | Some rows => map (format (currentUserId s)) rows
        | None => []
        end in
      update (setConversations formatted)
  end.

Definition handleSendMessage : M W unit :=
  s <- read ;;
  if negb (truthy (trim (newMessage s)))
     || negb (truthy_opt (selectedConversationId s))
     || negb (truthy_opt (currentUserId s))
  then ret tt
  else
    let conversation_id := or_else (selectedConversationId s) "" in
    let sender_id := or_else (currentUserId s) "" in
    r <- call (InsertMessage conversation_id sender_id (trim (newMessage s)))
              (insert_message conversation_id sender_id
                              (trim (newMessage s))) ;;
    match error r with
    | Some e =>
        raise_toast (mkToast "Error sending message" (message e) destructive)
    | None =>
        update (setNewMessage "") ;;
        loadConversations
    end.

(** The test of [conversations.find] in [handleCreateConversation]. *)
Definition same_partner (t : user_type) (selectedPartner : string)
    (conv : object) : bool :=
  match t with
  | investor => strict_equal (get conv "institution_id") (VStr selectedPartner)
  | institution => strict_equal (get conv "investor_id") (VStr selectedPartner)
  end.

(** The catch block. *)
Definition caught (msg : string) : M W unit :=
  raise_toast (mkToast "Error" msg destructive).

Definition handleCreateConversation : M W unit :=
  s <- read ;;
  match userType s with
  | Some t =>
      if negb (truthy (selectedPartner s))
         || negb (truthy_opt (currentUserId s))
      then ret tt
      else
        let user := or_else (currentUserId s) "" in
        match find (same_partner t (selectedPartner s)) (conversations s) with
        | Some existingConv =>
            update (setSelectedConversationId
                      (match get existingConv "id" with
                       | VStr c => Some c
                       | _ => None
                       end)) ;;
            update (setShowNewConversation false) ;;
            update (setSelectedPartner "") ;;
            raise_toast (mkToast "Conversation exists"
                                 "Opening existing conversation" None)
        | None =>
            ids <- match t with
                   | investor =>
                       r <- call (SelectInvestorOf user)
                                 (select_investor_of user) ;;
                       ret (or_else (data r) "", selectedPartner s)
                   | institution =>
                       r <- call (SelectInstitutionOf user)
                                 (select_institution_of user) ;;
                       ret (selectedPartner s, or_else (data r) "")
                   end ;;
            let investorId := fst ids in
            let institutionId := snd ids in
            r <- call (InsertConversation investorId institutionId)
                      (insert_conversation investorId institutionId) ;;
            match error r with
            | Some e => caught (message e)
            | None =>
                raise_toast (mkToast "Success"
                               "Conversation created successfully" None) ;;
                update (setShowNewConversation false) ;;
                update (setSelectedPartner "") ;;
                loadConversations ;;
                match data r with
                | Some newId => update (setSelectedConversationId (Some newId))
                | None =>
                    caught "Cannot read properties of null (reading 'id')"
                end
            end
        end
  | None => ret tt
  end.
End Handlers.

(** A backend that holds one conversation, between institution "10" (user
    "1") and investor "20" (user "2"), and refuses a second one for the pair
    as the unique constraint does. *)
Definition one_conversation : Backend unit := {|
  select_conversations := fun b =>
    (b, mkResponse
          (Some [ mkConversationRow "100" "2025-11-07T14:17:02Z"
                    (mkInstitutionRef "10" "Hillside School" "1")
                    (mkInvestorRef "20" None "individual" "2") ])
          None);
  insert_message := fun _ _ _ b => (b, mkResponse (Some tt) None);
  select_investor_of := fun u b =>
    (b, if String.eqb u "2" then mkResponse (Some "20"%string) None
        else mkResponse None (Some (mkError "no rows")));
  select_institution_of := fun u b =>
    (b, if String.eqb u "1" then mkResponse (Some "10"%string) None
        else mkResponse None (Some (mkError "no rows")));
  insert_conversation := fun v i b =>
    (b, if String.eqb v "20" && String.eqb i "10"
        then mkResponse None
               (Some (mkError "duplicate key value violates unique constraint"))
        else mkResponse (Some "101"%string) None)
|}.

(** A backend whose every call fails. *)
Definition failing : Backend unit := {|
  select_conversations := fun b =>
    (b, mkResponse None (Some (mkError "permission denied")));
  insert_message := fun _ _ _ b =>
    (b, mkResponse None (Some (mkError "permission denied")));
  select_investor_of := fun _ b =>
    (b, mkResponse None (Some (mkError "permission denied")));
  select_institution_of := fun _ b =>
    (b, mkResponse None (Some (mkError "permission denied")));
  insert_conversation := fun _ _ b =>
    (b, mkResponse None (Some (mkError "permission denied")))
|}.

(** The verified investor of user "2", with a conversation selected or not,
    a partner picked in the dialog and a draft typed. *)
Definition investor_session (selected : option string) (partner draft : string)
    : world state request unit :=
  mkWorld (mkState (Some "2"%string) (Some investor) true [] selected
                   [] draft "" false [] true partner)
          [] [] None tt.

(** The state of the page once that investor has loaded its one
    conversation, the one with institution "10", and picked that same
    institution in the dialog. *)
Definition loaded_session : world state request unit :=
  snd (@loadConversations unit one_conversation
         (investor_session None "10" "")).

End Messages.

(** ** The institutions list of the investor dashboard (InstitutionsList) *)

Module InstitutionsList.
Import Js Ui.
Local Open Scope ui_scope.

Inductive request :=
| GetUser
| SelectInvestorOf (user_id : string)
| SelectConversation (investor_id institution_id : string)
| InsertConversation (investor_id institution_id : string).

Class Backend (B : Type) := {
  get_user : B -> B * option string;
  select_investor_of : string -> B -> B * response string;
  select_conversation : string -> string -> B -> B * response string;
  insert_conversation : string -> string -> B -> B * response string
}.

Section Handlers.
Context {B : Type} `{Backend B}.
Let W : Type := world unit request B.

Definition caught (msg : string) : M W unit :=
  raise_toast (mkToast "Error" msg destructive).

Definition open_conversation (c : string) : M W unit :=
  navigate ("/messages?conversation=" ++ c)%string.

Definition handleContactInstitution (institutionId : string) : M W unit :=
  user <- call GetUser get_user ;;
  match user with
  | None => caught "Not authenticated"
  | Some u =>
      r <- call (SelectInvestorOf u) (select_investor_of u) ;;
      match error r, data r with
      | None, Some investor =>
          e <- call (SelectConversation investor institutionId)
                    (select_conversation investor institutionId) ;;
          match data e with
          | Some existingConv => open_conversation existingConv
          | None =>
              n <- call (InsertConversation investor institutionId)
                        (insert_conversation investor institutionId) ;;
              match error n with
              | Some err => caught (message err)
              | None =>
                  match data n with
                  | Some newConv => open_conversation newConv
                  | None =>
                      caught "Cannot read properties of null (reading 'id')"
                  end
              end
          end
      | _, _ =>
          raise_toast (mkToast "Profile required"
                         "Please complete your investor profile first."
                         destructive)
      end
  end.
End Handlers.

(** A backend where user "2" is signed in, owns investor "20", and already
    has conversation "100" with institution "10". *)
Definition known_pair : Backend unit := {|
  get_user := fun b => (b, Some "2"%string);
  select_investor_of := fun u b =>
    (b, if String.eqb u "2" then mkResponse (Some "20"%string) None
        else mkResponse None None);
  select_conversation := fun v i b =>
    (b, if String.eqb v "20" && String.eqb i "10"
        then mkResponse (Some "100"%string) None
        else mkResponse None (Some (mkError "no rows")));
  insert_conversation := fun _ _ b => (b, mkResponse (Some "101"%string) None)
|}.

End InstitutionsList.

(** ** The analytics of the institution dashboard (InstitutionAnalytics) *)

Module InstitutionAnalytics.
Import Js.

Record Conversation := mkConversation {
  id : string;
  investor_id : option string;
  institution_id : string;
  created_at : string
}.

Record Message := mkMessage {
  m_id : string;
  conversation_id : string;
  m_created_at : string;
  read : bool
}.

(** The numbers of the memoised [metrics]; the three monthly series, which
    read the clock, and the one-decimal display value of the average are not
    part of this model. *)
Record Metrics := mkMetrics {
  totalConversations : nat;
  activeInvestors : nat;
  totalMessages : nat;
  unreadMessages : nat;
  engagementScore : number
}.

(** [new Set(xs).size] *)
Definition set_size (xs : list string) : nat :=
  List.length (nodup string_dec xs).

(** [.filter(Boolean)] on ids that may be [null]. *)
Fixpoint present (xs : list (option string)) : list string :=
  match xs with
  | [] => []
  | Some x :: rest => if truthy x then x :: present rest else present rest
  | None :: rest => present rest
  end.

Definition metrics (conversations : list Conversation)
    (messages : list Message) : Metrics :=
  let totalConversations := List.length conversations in
  let activeInvestors := set_size (present (map investor_id conversations)) in
  let totalMessages := List.length messages in
  let unreadMessages :=
    List.length (filter (fun m => negb (read m)) messages) in
  let avgMessagesPerConversation :=
    if truthy_number (of_nat totalConversations)
    then div (of_nat totalMessages) (of_nat totalConversations)
    else Fin 0 in
  let engagementScore :=
    min (Fin (100 # 1))
        (round (sub (add (add (mul (of_nat activeInvestors) (Fin (5 # 1)))
                              (mul avgMessagesPerConversation (Fin (10 # 1))))
                         (mul (of_nat totalConversations) (Fin (2 # 1))))
                    (of_nat unreadMessages))) in
  mkMetrics totalConversations activeInvestors totalMessages unreadMessages
            (max (Fin 0) engagementScore).

End InstitutionAnalytics.

(** ** The reports of the institution dashboard (InstitutionReports) *)

Module InstitutionReports.
Import Js.

(** A row of the [donations] select, as far as the report reads it. The rows
    carry no [donor_id]: that property reads as [undefined] on each of them. *)
Record donation_row := mkDonationRow {
  amount : number;
  created_at : string
}.

Record ReportData := mkReportData {
  totalDonations : nat;
  totalAmount : number;
  averageDonation : number;
  activeDonors : nat;
  conversionRate : number
}.

(** [d.amount || 0] *)
Definition amount_or_zero (d : donation_row) : number :=
  if truthy_number (amount d) then amount d else Fin 0.

(** [new Set(donations.map(d => d.donor_id)).size]: every element is
    [undefined]. *)
Definition undefined_set_size {A} (rows : list A) : nat :=
  match rows with
  | [] => 0
  | _ :: _ => 1
  end.

(** The five figures of [processReportData]; the monthly trend, the donor
    type split and the placeholder campaign table are not part of this
    model. *)
Definition processReportData {C M : Type} (donations : list donation_row)
    (conversations : list C) (messages : list M) : ReportData :=
  let totalDonations := List.length donations in
  let totalAmount :=
    fold_left (fun sum d => add sum (amount_or_zero d)) donations (Fin 0) in
  let averageDonation :=
    if Nat.ltb 0 totalDonations
    then div totalAmount (of_nat totalDonations)
    else Fin 0 in
  let activeDonors := undefined_set_size donations in
  let conversionRate :=
    if Nat.ltb 0 (List.length conversations)
    then mul (div (of_nat totalDonations) (of_nat (List.length conversations)))
             (Fin (100 # 1))
    else Fin 0 in
  mkReportData totalDonations totalAmount averageDonation activeDonors
               conversionRate.

End InstitutionReports.

(** ** Text and whole numbers, as the views print and compare them *)

Module Text.
Import Js.

(** [toLowerCase] on one 8-bit code unit: A-Z, and the capital letters of
    U+00C0..U+00DE but the multiplication sign. *)
Definition lower_unit (c : ascii) : ascii :=
  let n := N_of_ascii c in
  if (N.leb 65 n && N.leb n 90)
     || (N.leb 192 n && N.leb n 222 && negb (N.eqb n 215))
  then ascii_of_N (n + 32)
  else c.

Fixpoint toLowerCase (s : string) : string :=
  match s with
  | EmptyString => EmptyString
  | String c rest => String (lower_unit c) (toLowerCase rest)
  end.

(** [s.includes(q)] *)
Fixpoint includes (s q : string) : bool :=
  String.prefix q s
  || match s with
     | EmptyString => false
     | String _ rest => includes rest q
     end.

(** [a?.f()] where the result only counts as a truth value. *)
Definition on_present {A} (a : option A) (f : A -> bool) : bool :=
  match a with
  | Some x => f x
  | None => false
  end.

(** [Math.floor] *)
Definition floor (a : number) : number :=
  match a with
  | Fin q => Fin (inject_Z (Qfloor q))
  | other => other
  end.

(** [a < b] *)
Definition lt (a b : number) : bool :=
  match a, b with
  | NaN, _ | _, NaN => false
  | Fin x, Fin y => negb (Qle_bool y x)
  | NegInf, NegInf => false
  | NegInf, _ => true
  | _, NegInf => false
  | PosInf, _ => false
  | Fin _, PosInf => true
  end.

Definition show_integer (z : Z) : string :=
  NilZero.string_of_int (Z.to_int z).

(** A whole number inside a template literal. *)
Definition template (a : number) : string :=
  match a with
  | Fin q => show_integer (Qfloor q)
  | PosInf => "Infinity"
  | NegInf => "-Infinity"
  | NaN => "NaN"
  end.


End Text.

(** ** The Messages page: what the list and the chat show *)

Module MessagesView.
Import Js Text Ui Messages.
Local Open Scope ui_scope.

(** [getTimeAgo], given the two time values in milliseconds: that of
    [new Date()] and that of [new Date(timestamp)], which is [NaN] for a
    timestamp that does not parse. *)
Definition getTimeAgo (now then_ : number) : string :=
  let diffMs := sub now then_ in
  let diffMins := floor (div diffMs (Fin (60000 # 1))) in
  let diffHours := floor (div diffMins (Fin (60 # 1))) in
  let diffDays := floor (div diffHours (Fin (24 # 1))) in
  if lt diffMins (Fin 1) then "Just now"
  else if lt diffMins (Fin (60 # 1)) then (template diffMins ++ "m ago")%string
  else if lt diffHours (Fin (24 # 1)) then (template diffHours ++ "h ago")%string
  else (template diffDays ++ "d ago")%string.

(** The test of [filteredConversations]; [None] when [other_party_name] is
    not a string and [toLowerCase] throws. *)
Definition matches_search (searchQuery : string) (conv : object) : option bool :=
  match get conv "other_party_name" with
  | VStr name => Some (includes (toLowerCase name) (toLowerCase searchQuery))
  | _ => None
  end.

Fixpoint filteredConversations (searchQuery : string) (convs : list object)
    : option (list object) :=
  match convs with
  | [] => Some []
  | conv :: rest =>
      match matches_search searchQuery conv with
      | None => None
      | Some keep =>
          match filteredConversations searchQuery rest with
          | None => None
          | Some kept => Some (if keep then conv :: kept else kept)
          end
      end
  end.

(** Rows of the [messages] select, with the embedded sender profile. *)
Record sender_ref := mkSenderRef { full_name : option string }.

Record message_row := mkMessageRow {
  msg_id : string;
  content : string;
  sender_id : string;
  created_at : string;
  read : option bool;
  profiles : option sender_ref
}.

Definition setMessages (l : list object) (s : state) : state :=
  mkState (currentUserId s) (userType s) (isVerified s) (conversations s)
          (selectedConversationId s) l (newMessage s)
          (searchQuery s) (loading s) (availablePartners s)
          (showNewConversation s) (selectedPartner s).

Inductive request :=
| SelectMessages (conversation_id : string)
| SelectMessage (id : string).

Class Feed (B : Type) := {
  select_messages : string -> B -> B * response (list message_row);
  select_message : string -> B -> B * response message_row
}.

(** The object each message row is mapped to. *)
Definition format_message (msg : message_row) : object :=
  [ ("id", VStr (msg_id msg));
    ("content", VStr (content msg));
    ("sender_id", VStr (sender_id msg));
    ("created_at", VStr (created_at msg));
    ("read", VBool (match read msg with Some b => b | None => false end));
    ("sender_name",
      match profiles msg with
      | Some p => match full_name p with
                  | Some n => VStr n
                  | None => VNull
                  end
      | None => VUndefined
      end) ]%string.

Section Handlers.
Context {B : Type} `{Feed B}.

Definition loadMessages (conversationId : string)
    : M (world state request B) unit :=
  r <- call (SelectMessages conversationId) (select_messages conversationId) ;;
  match error r with
  | Some e =>
      raise_toast (mkToast "Error loading messages" (message e) destructive)
  | None =>
      let formatted :=
        match data r with
        | Some rows => map format_message rows
        | None => []
        end in
      update (setMessages formatted)
  end.

(** The callback of the realtime subscription, for the inserted row's id. *)
Definition on_insert (id : string) : M (world state request B) unit :=
  r <- call (SelectMessage id) (select_message id) ;;
  match data r with
  | Some newMessage =>
      update (fun s => setMessages (messages s ++ [format_message newMessage]) s)
  | None => ret tt
  end.
End Handlers.

(** A feed that holds two messages of conversation "100". *)
Definition two_messages : Feed unit := {|
  select_messages := fun c b =>
    (b, if String.eqb c "100"
        then mkResponse
               (Some [ mkMessageRow "m1" "hello" "2" "2025-11-07T14:17:02Z"
                         (Some true) (Some (mkSenderRef (Some "Dana"%string)));
                       mkMessageRow "m2" "welcome" "1" "2025-11-07T14:18:30Z"
                         None None ])
               None
        else mkResponse None (Some (mkError "permission denied")));
  select_message := fun _ b => (b, mkResponse None (Some (mkError "no rows")))
|}.

Definition chat_session (selected : option string)
    : world state request unit :=
  mkWorld (mkState (Some "2"%string) (Some investor) true [] selected
                   [ [("id", VStr "old")]%string ] "" "" false [] false "")
          [] [] None tt.

End MessagesView.

(** ** The admin tables (InvestorsManagement) *)

Module InvestorsManagement.
Import Js Text Ui.
Local Open Scope ui_scope.

Record profile_ref := mkProfileRef {
  email : string;
  full_name : option string;
  phone : option string;
  verification_status : string
}.

Record InvestorWithProfile := mkInvestor {
  id : string;
  investor_type : string;
  company_name : option string;
  certificate_url : option string;
  created_at : string;
  user_id : string;
  profiles : option profile_ref
}.

Inductive status_filter := all | pending | verified | rejected.

Definition filter_text (f : status_filter) : string :=
  match f with
  | all => "all"
  | pending => "pending"
  | verified => "verified"
  | rejected => "rejected"
  end.

(** [(inv.profiles?.verification_status || '').toLowerCase()] *)
Definition status_of (inv : InvestorWithProfile) : string :=
  toLowerCase (match profiles inv with
               | Some p => if truthy (verification_status p)
                           then verification_status p else ""
               | None => ""
               end).

Definition matchesSearch (searchTerm : string) (inv : InvestorWithProfile)
    : bool :=
  let q := toLowerCase searchTerm in
  on_present (profiles inv) (fun p => includes (toLowerCase (email p)) q)
  || on_present (profiles inv)
       (fun p => on_present (full_name p) (fun n => includes (toLowerCase n) q))
  || on_present (company_name inv) (fun c => includes (toLowerCase c) q)
  || includes (toLowerCase (investor_type inv)) q.

Definition shown (searchTerm : string) (statusFilter : status_filter)
    (pendingOnly : bool) (inv : InvestorWithProfile) : bool :=
  let matchesStatus :=
    match statusFilter with
    | all => true
    | other => String.eqb (status_of inv) (filter_text other)
    end in
  let matchesPendingToggle :=
    negb pendingOnly || String.eqb (status_of inv) "pending" in
  matchesSearch searchTerm inv && matchesStatus && matchesPendingToggle.

Definition filteredInvestors (investors : list InvestorWithProfile)
    (searchTerm : string) (statusFilter : status_filter) (pendingOnly : bool)
    : list InvestorWithProfile :=
  filter (shown searchTerm statusFilter pendingOnly) investors.

(** The state cells the two handlers touch. *)
Record state := mkState {
  investors : list InvestorWithProfile;
  searchTerm : string;
  statusFilter : status_filter;
  pendingOnly : bool
}.

Definition setInvestors (l : list InvestorWithProfile) (s : state) : state :=
  mkState l (searchTerm s) (statusFilter s) (pendingOnly s).

(** The two values [handleVerification] is called with. *)
Inductive decision := verify | reject.

Definition decision_text (x : decision) : string :=
  match x with
  | verify => "verified"
  | reject => "rejected"
  end.

Inductive request :=
| UpdateVerificationStatus (userId status : string)
| SelectInvestors.

Class Backend (B : Type) := {
  update_verification_status : string -> string -> B -> B * response unit;
  select_investors : B -> B * response (list InvestorWithProfile)
}.

Section Handlers.
Context {B : Type} `{Backend B}.

Definition fetchInvestors : M (world state request B) unit :=
  r <- call SelectInvestors select_investors ;;
  match error r with
  | Some _ => raise_toast (mkToast "Error" "Failed to load investors" destructive)
  | None =>
      update (setInvestors (match data r with
                            | Some rows => rows
                            | None => []
                            end))
  end.

Definition handleVerification (userId : string) (status : decision)
    : M (world state request B) unit :=
  r <- call (UpdateVerificationStatus userId (decision_text status))
            (update_verification_status userId (decision_text status)) ;;
  match error r with
  | Some _ =>
      raise_toast (mkToast "Error" "Failed to update verification status"
                           destructive)
  | None =>
      raise_toast (mkToast "Success"
                     ("Investor " ++ decision_text status ++ " successfully")
                     None) ;;
      fetchInvestors
  end.
End Handlers.

(** The hosted database as this screen's backend: the update runs under the
    profile policies for the signed-in caller; [uuid_of] reads a uuid from
    its text and [listing] is the investors select. *)
Definition hosted (uid : Rls.caller) (now : Sql.timestamptz)
    (uuid_of : string -> Sql.uuid)
    (listing : Sql.db -> list InvestorWithProfile) : Backend Sql.db := {|
  update_verification_status := fun userId status d =>
    match Rls.rls_update_verification_status uid now (uuid_of userId) status d with
    | Some d' => (d', mkResponse None None)
    | None =>
        (d, mkResponse None
              (Some (mkError "new row violates a constraint or policy")))
    end;
  select_investors := fun d => (d, mkResponse (Some (listing d)) None)
|}.

(** Reading "1", "2", "3" as the demo profiles' ids. *)
Definition demo_uuid_of (s : string) : Sql.uuid :=
  if String.eqb s "1" then 1%N
  else if String.eqb s "2" then 2%N
  else if String.eqb s "3" then 3%N
  else 0%N.

End InvestorsManagement.

(** ** The donations screen of the institution dashboard (InstitutionDonations) *)

Module InstitutionDonations.
Import Js.

Record DbDonation := mkDbDonation {
  amount : number;
  status : string
}.

Record DonationStats := mkDonationStats {
  total : nat;
  pending : nat;
  completed : nat;
  totalPads : number
}.

(** [x || 0] on a number. *)
Definition number_or_zero (x : number) : number :=
  if truthy_number x then x else Fin 0.

(** The figures [fetchData] computes from the donations select, whose data
    may be [null]. *)
Definition stats_of (donationsData : option (list DbDonation)) : DonationStats :=
  match donationsData with
  | None => mkDonationStats 0 0 0 (Fin 0)
  | Some rows =>
      mkDonationStats
        (List.length rows)
        (List.length (filter (fun d => String.eqb (status d) "pending") rows))
        (List.length (filter (fun d => String.eqb (status d) "completed") rows))
        (number_or_zero
           (fold_left (fun sum d => add sum (amount d)) rows (Fin 0)))
  end.

End InstitutionDonations.

(** ** The donor split of the reports (InstitutionReports) *)

Module DonorAnalytics.
Import Js.

Record share := mkShare {
  type : string;
  count : nat;
  percentage : number
}.

(** The [types] table after the [forEach]: every conversation is counted as
    an individual investor. *)
Definition counted {C} (conversations : list C) : list (string * nat) :=
  [ ("Individual Investor",
      fold_left (fun n _ => (if Nat.eqb n 0 then 0 else n) + 1)%nat
                conversations 0%nat);
    ("Corporate Investor", 0%nat);
    ("Foundation", 0%nat);
    ("Other", 0%nat) ]%string.

Definition generateDonorAnalytics {C} (conversations : list C) : list share :=
  let total := if Nat.eqb (List.length conversations) 0 then 1%nat
               else List.length conversations in
  map (fun e => mkShare (fst e) (snd e)
                 (mul (div (of_nat (snd e)) (of_nat total)) (Fin (100 # 1))))
      (filter (fun e => Nat.ltb 0 (snd e)) (counted conversations)).

End DonorAnalytics.

(* ================================================================== *)
(** * Part II: lemmas and theorems                                     *)
(* ================================================================== *)

(** ** Lists of rows *)

Section RowLists.
Context {A : Type}.

Lemma existsb_key (key : A -> N) (id : N) (l : list A) :
  existsb (fun x => N.eqb (key x) id) l = true <-> In id (map key l).
Proof.
  rewrite existsb_exists, in_map_iff.
  split; intros [x [H1 H2]]; exists x.
  - apply N.eqb_eq in H2. auto.
  - split; [assumption | now apply N.eqb_eq].
Qed.

Lemma existsb_key_false (key : A -> N) (id : N) (l : list A) :
  existsb (fun x => N.eqb (key x) id) l = false <-> ~ In id (map key l).
Proof.
  rewrite <- existsb_key.
  destruct (existsb _ l); split; intros; congruence.
Qed.

Lemma NoDup_snoc {B} (f : A -> B) (l : list A) (x : A) :
  NoDup (map f l) -> ~ In (f x) (map f l) -> NoDup (map f (l ++ [x])).
Proof.
  intros Hl Hx. rewrite map_app. simpl.
  induction (map f l) as [|b bs IH]; simpl.
  - constructor; [intros [] | constructor].
  - inversion Hl; subst. constructor.
    + rewrite in_app_iff. simpl. intros [Hin | [Heq | []]].
      * contradiction.
      * apply Hx. left. congruence.
    + apply IH; [assumption |]. intro Hin. apply Hx. now right.
Qed.

Lemma NoDup_map_filter {B} (f : A -> B) (g : A -> bool) (l : list A) :
  NoDup (map f l) -> NoDup (map f (filter g l)).
Proof.
  induction l as [|a l IH]; simpl; intros H; [constructor |].
  inversion H; subst.
  destruct (g a); simpl; [constructor |]; auto.
  intros Hin. apply H2.
  apply in_map_iff in Hin. destruct Hin as [y [Hy Hin]].
  apply filter_In in Hin. apply in_map_iff. exists y. tauto.
Qed.

Lemma map_key_stable {B} (f : A -> B) (g : A -> A) (l : list A) :
  (forall x, f (g x) = f x) -> map f (map g l) = map f l.
Proof.
  intros H. rewrite map_map. apply map_ext. exact H.
Qed.

(** In a table whose key is unique, two rows with one key are one row. *)
Lemma key_unique {B} (f : A -> B) (l : list A) (x y : A) :
  NoDup (map f l) -> In x l -> In y l -> f x = f y -> x = y.
Proof.
  induction l as [|a l IH]; simpl; intros Hn Hx Hy Hf; [contradiction |].
  inversion Hn; subst.
  destruct Hx as [-> | Hx], Hy as [-> | Hy]; auto.
  - exfalso. apply H1. rewrite Hf. now apply in_map.
  - exfalso. apply H1. rewrite <- Hf. now apply in_map.
Qed.
End RowLists.

(** ** The schema keeps its constraints *)

Section SchemaInvariants.
Import Sql.

Lemma references_mono (e e' : uuid -> bool) (a : option uuid) :
  (forall x, a = Some x -> e x = true -> e' x = true) ->
  references e a = true -> references e' a = true.
Proof. destruct a; simpl; auto. Qed.

Lemma donation_row_ok_mono (d d' : db) (r : donation) :
  (forall x, d_investor_id r = Some x ->
             investor_exists d x = true -> investor_exists d' x = true) ->
  (forall x, d_institution_id r = Some x ->
             institution_exists d x = true -> institution_exists d' x = true) ->
  donation_row_ok d r = true -> donation_row_ok d' r = true.
Proof.
  unfold donation_row_ok. intros Hv Hi H.
  repeat (apply andb_true_iff in H; destruct H as [H ?]).
  repeat (apply andb_true_iff; split); auto;
    eapply references_mono; eauto.
Qed.

Lemma exists_snoc {A} (key : A -> uuid) (l : list A) (a : A) (x : uuid) :
  existsb (fun r => N.eqb (key r) x) l = true ->
  existsb (fun r => N.eqb (key r) x) (l ++ [a]) = true.
Proof. intros H. rewrite existsb_app, H. reflexivity. Qed.

Lemma exists_filter {A} (key : A -> uuid) (g : A -> bool) (l : list A)
    (x : uuid) :
  (forall r, In r l -> key r = x -> g r = true) ->
  existsb (fun r => N.eqb (key r) x) l = true ->
  existsb (fun r => N.eqb (key r) x) (filter g l) = true.
Proof.
  intros Hg H. apply existsb_exists in H. destruct H as [r [Hin Hr]].
  apply existsb_exists. exists r. split; [| assumption].
  apply filter_In. split; [assumption |].
  apply Hg; [assumption | now apply N.eqb_eq].
Qed.

Lemma consistent_empty : consistent empty_db.
Proof.
  constructor; simpl; try constructor; intros ? [].
Qed.

(** Rows of a table that were only re-stamped keep the facts that hold of
    their key columns. *)
Lemma In_map_cases {A} (f : A -> A) (test : A -> bool) (l : list A) (y : A) :
  In y (map (fun x => if test x then f x else x) l) ->
  exists x, In x l /\ (y = x \/ (test x = true /\ y = f x)).
Proof.
  intros H. apply in_map_iff in H. destruct H as [x [Hx Hin]].
  exists x. split; [assumption |].
  destruct (test x) eqn:E; subst; auto.
Qed.

Lemma pair_free (d : db) (i v : uuid) :
  pair_taken d None (Some i) (Some v) = false ->
  ~ In (Some i, Some v) (map conversation_pair (conversations d)).
Proof.
  unfold pair_taken. intros H Hin.
  apply in_map_iff in Hin. destruct Hin as [c [Hc Hin]].
  assert (E : existsb (fun c => negb (col_is None (c_id c))
              && col_eq (c_institution_id c) (Some i)
              && col_eq (c_investor_id c) (Some v)) (conversations d) = true).
  { apply existsb_exists. exists c. split; [assumption |].
    unfold conversation_pair in Hc. inversion Hc as [[H1 H2]].
    rewrite H1, H2. simpl. now rewrite !N.eqb_refl. }
  congruence.
Qed.

Lemma insert_conversation_consistent (c : conversation) (d d' : db) :
  consistent d -> insert_conversation c d = Some d' -> consistent d'.
Proof.
  intros [Hp Hi Hv Hc Hfk Hu Hd]. unfold insert_conversation.
  destruct (negb (conversation_exists d (c_id c))) eqn:Epk; simpl; [| discriminate].
  destruct (conversation_row_ok d None (c_institution_id c) (c_investor_id c))
    eqn:Eok; [| discriminate].
  intros E. inversion E; subst; clear E.
  unfold conversation_row_ok in Eok.
  repeat (apply andb_true_iff in Eok; destruct Eok as [Eok ?]).
  destruct (c_institution_id c) as [i|] eqn:Ei; [| discriminate].
  destruct (c_investor_id c) as [v|] eqn:Ev; [| discriminate].
  simpl in *.
  constructor; simpl; auto.
  - apply NoDup_snoc; [assumption |].
    apply existsb_key_false. apply negb_true_iff in Epk. exact Epk.
  - intros c0 Hin. apply in_app_iff in Hin. destruct Hin as [Hin | [<- | []]].
    + apply Hfk. assumption.
    + exists i, v. auto.
  - apply NoDup_snoc; [assumption |].
    unfold conversation_pair at 1. rewrite Ei, Ev.
    apply pair_free. now apply negb_true_iff.
Qed.

(** A state whose conversations and donations all come from a consistent
    state, with the rows they point to still present, is consistent. *)
Lemma consistent_shrink (d d' : db) :
  consistent d ->
  NoDup (map p_id (profiles d')) ->
  NoDup (map i_id (institutions d')) ->
  NoDup (map inv_id (investors d')) ->
  NoDup (map c_id (conversations d')) ->
  NoDup (map conversation_pair (conversations d')) ->
  (forall c', In c' (conversations d') ->
     exists c, In c (conversations d)
               /\ conversation_pair c' = conversation_pair c) ->
  (forall c' i, In c' (conversations d') -> c_institution_id c' = Some i ->
     institution_exists d i = true -> institution_exists d' i = true) ->
  (forall c' v, In c' (conversations d') -> c_investor_id c' = Some v ->
     investor_exists d v = true -> investor_exists d' v = true) ->
  (forall r, In r (donations d') -> In r (donations d)) ->
  (forall r i, In r (donations d') -> d_institution_id r = Some i ->
     institution_exists d i = true -> institution_exists d' i = true) ->
  (forall r v, In r (donations d') -> d_investor_id r = Some v ->
     investor_exists d v = true -> investor_exists d' v = true) ->
  consistent d'.
Proof.
  intros [Hp Hi Hv Hc Hfk Hu Hd] Np Ni Nv Nc Nu Hsrc Hci Hcv Hdon Hdi Hdv.
  constructor; auto.
  - intros c' Hin. destruct (Hsrc c' Hin) as [c [Hc0 Hpair]].
    destruct (Hfk c Hc0) as [i [v [Ei [Ev [Xi Xv]]]]].
    unfold conversation_pair in Hpair. inversion Hpair as [[P1 P2]].
    exists i, v. rewrite P1, P2. repeat split; auto.
    + apply (Hci c'); congruence.
    + apply (Hcv c'); congruence.
  - intros r Hin. apply (donation_row_ok_mono d d'); eauto.
Qed.

Ltac same_rows :=
  let x := fresh "x" in
  let Hx := fresh "Hx" in
  match goal with
  | |- forall c', In c' _ -> exists c, In c _ /\ _ =>
      intros x Hx; exists x; split; [exact Hx | reflexivity]
  | |- forall r, In r _ -> In r _ => intros x Hx; exact Hx
  | |- forall _ _, In _ _ -> _ = Some _ -> _ = true -> _ = true =>
      intros ? ? _ _ Hx; exact Hx
  end.

Lemma insert_profile_consistent (p : profile) (d d' : db) :
  consistent d -> insert_profile p d = Some d' -> consistent d'.
Proof.
  intros H. unfold insert_profile.
  destruct (negb (profile_exists d (p_id p))) eqn:Epk; simpl; [| discriminate].
  destruct (_ && _); [| discriminate]. intros E; inversion E; subst; clear E.
  apply (consistent_shrink d); simpl; try apply H; try same_rows.
  apply NoDup_snoc; [apply H |].
  apply existsb_key_false. now apply negb_true_iff.
Qed.

Lemma insert_institution_consistent (i : institution) (d d' : db) :
  consistent d -> insert_institution i d = Some d' -> consistent d'.
Proof.
  intros H. unfold insert_institution.
  destruct (negb (institution_exists d (i_id i))) eqn:Epk; simpl; [| discriminate].
  destruct (_ && _); [| discriminate]. intros E; inversion E; subst; clear E.
  apply (consistent_shrink d); simpl; try apply H; try same_rows.
  - apply NoDup_snoc; [apply H |].
    apply existsb_key_false. now apply negb_true_iff.
  - intros ? ? _ _. apply exists_snoc.
  - intros ? ? _ _. apply exists_snoc.
Qed.

Lemma insert_investor_consistent (v : investor) (d d' : db) :
  consistent d -> insert_investor v d = Some d' -> consistent d'.
Proof.
  intros H. unfold insert_investor.
  destruct (negb (investor_exists d (inv_id v))) eqn:Epk; simpl; [| discriminate].
  destruct (_ && _); [| discriminate]. intros E; inversion E; subst; clear E.
  apply (consistent_shrink d); simpl; try apply H; try same_rows.
  - apply NoDup_snoc; [apply H |].
    apply existsb_key_false. now apply negb_true_iff.
  - intros ? ? _ _. apply exists_snoc.
  - intros ? ? _ _. apply exists_snoc.
Qed.

Lemma insert_user_role_consistent (r : user_role) (d d' : db) :
  consistent d -> insert_user_role r d = Some d' -> consistent d'.
Proof.
  intros H. unfold insert_user_role.
  destruct (negb _); [| discriminate]. intros E; inversion E; subst; clear E.
  apply (consistent_shrink d); simpl; try apply H; try same_rows.
Qed.

(** The trigger of [messages] rewrites [updated_at] and nothing else. *)
Lemma touch_rows (now : timestamptz) (id : uuid) (l : list conversation) :
  map c_id (map (fun c => if N.eqb (c_id c) id then touch now c else c) l)
    = map c_id l
  /\ map conversation_pair
         (map (fun c => if N.eqb (c_id c) id then touch now c else c) l)
    = map conversation_pair l.
Proof.
  split; apply map_key_stable; intros x; destruct (N.eqb (c_id x) id);
    reflexivity.
Qed.

Lemma update_conversation_timestamp_consistent now (m : message) (d : db) :
  consistent d -> consistent (update_conversation_timestamp now m d).
Proof.
  intros H. unfold update_conversation_timestamp.
  destruct (touch_rows now (m_conversation_id m) (conversations d)) as [T1 T2].
  apply (consistent_shrink d); simpl; try apply H; try same_rows.
  - rewrite T1. apply H.
  - rewrite T2. apply H.
  - intros c' Hin. apply In_map_cases in Hin.
    destruct Hin as [c [Hc [-> | [_ ->]]]]; exists c; auto.
Qed.

Lemma insert_message_consistent now (m : message) (d d' : db) :
  consistent d -> insert_message now m d = Some d' -> consistent d'.
Proof.
  intros H. unfold insert_message.
  destruct (_ && _); [| discriminate]. intros E; inversion E; subst; clear E.
  apply update_conversation_timestamp_consistent.
  apply (consistent_shrink d); simpl; try apply H; try same_rows.
Qed.

Lemma insert_donation_consistent (r : donation) (d d' : db) :
  consistent d -> insert_donation r d = Some d' -> consistent d'.
Proof.
  intros [Hp Hi Hv Hc Hfk Hu Hd]. unfold insert_donation.
  destruct (negb _); simpl; [| discriminate].
  destruct (donation_row_ok d r) eqn:Eok; [| discriminate].
  intros E; inversion E; subst; clear E.
  constructor; simpl; auto.
  intros r0 Hin. apply in_app_iff in Hin.
  destruct Hin as [Hin | [<- | []]].
  - apply (donation_row_ok_mono d); auto.
  - apply (donation_row_ok_mono d); auto.
Qed.

Lemma update_donation_consistent now (id : uuid) (r : donation) (d d' : db) :
  consistent d -> update_donation now id r d = Some d' -> consistent d'.
Proof.
  intros H. unfold update_donation.
  destruct (negb _); [intros E; inversion E; subst; exact H |].
  destruct (donation_row_ok d r) eqn:Eok; [| discriminate].
  intros E; inversion E; subst; clear E.
  destruct H as [Hp Hi Hv Hc Hfk Hu Hd].
  constructor; simpl; auto.
  intros r0 Hin. apply In_map_cases in Hin.
  destruct Hin as [x [Hx [-> | [_ ->]]]].
  - apply (donation_row_ok_mono d); auto.
  - exact Eok.
Qed.

Lemma update_profile_consistent now (id : uuid) (p : profile) (d d' : db) :
  consistent d -> update_profile now id p d = Some d' -> consistent d'.
Proof.
  intros H. unfold update_profile.
  destruct (negb _); [intros E; inversion E; subst; exact H |].
  destruct (_ && _); [| discriminate].
  intros E; inversion E; subst; clear E.
  apply (consistent_shrink d); simpl; try apply H; try same_rows.
  rewrite map_key_stable; [apply H |].
  intros x. destruct (N.eqb (p_id x) id) eqn:E; [| reflexivity].
  simpl. apply N.eqb_eq in E. congruence.
Qed.

Lemma mem_id_spec (l : list uuid) (x : uuid) :
  mem_id l (Some x) = true <-> In x l.
Proof.
  simpl. rewrite existsb_exists. split.
  - intros [y [Hy E]]. apply N.eqb_eq in E. now subst.
  - intros H. exists x. split; [assumption | apply N.eqb_refl].
Qed.

Lemma filter_all {A} (l : list A) : filter (fun _ => true) l = l.
Proof. induction l; simpl; congruence. Qed.

(** Deleting parent rows after their children went with the cascade. *)
Lemma cascade_consistent (dead_prof dead_inst dead_inv : list uuid)
    (gp : profile -> bool) (gi : institution -> bool) (gv : investor -> bool)
    (d : db) :
  consistent d ->
  (forall r, In r (institutions d) -> gi r = false -> In (i_id r) dead_inst) ->
  (forall r, In r (investors d) -> gv r = false -> In (inv_id r) dead_inv) ->
  let d1 := cascade dead_prof dead_inst dead_inv d in
  consistent (mkDb (filter gp (profiles d1)) (filter gi (institutions d1))
                   (filter gv (investors d1)) (conversations d1)
                   (messages d1) (user_roles d1) (donations d1)).
Proof.
  intros H Hgi Hgv d1.
  assert (Ki : forall a b i, negb (mem_id dead_inst a || mem_id dead_inv b) = true ->
               a = Some i -> institution_exists d i = true ->
               existsb (fun r => N.eqb (i_id r) i) (filter gi (institutions d)) = true).
  { intros a b i Hk -> Hex. apply exists_filter; [| exact Hex].
    intros r Hr Hid. destruct (gi r) eqn:G; [reflexivity | exfalso].
    apply negb_true_iff, orb_false_iff in Hk. destruct Hk as [Hk _].
    assert (X : mem_id dead_inst (Some i) = true).
    { apply mem_id_spec. rewrite <- Hid. now apply Hgi. }
    congruence. }
  assert (Kv : forall a b v, negb (mem_id dead_inst a || mem_id dead_inv b) = true ->
               b = Some v -> investor_exists d v = true ->
               existsb (fun r => N.eqb (inv_id r) v) (filter gv (investors d)) = true).
  { intros a b v Hk -> Hex. apply exists_filter; [| exact Hex].
    intros r Hr Hid. destruct (gv r) eqn:G; [reflexivity | exfalso].
    apply negb_true_iff, orb_false_iff in Hk. destruct Hk as [_ Hk].
    assert (X : mem_id dead_inv (Some v) = true).
    { apply mem_id_spec. rewrite <- Hid. now apply Hgv. }
    congruence. }
  apply (consistent_shrink d); subst d1; simpl;
    try exact H; try (apply NoDup_map_filter; apply H).
  - intros c' Hin. apply filter_In in Hin. exists c'. tauto.
  - intros c' i Hin Ei Hex. apply filter_In in Hin.
    apply (Ki _ (c_investor_id c') i (proj2 Hin) Ei Hex).
  - intros c' v Hin Ev Hex. apply filter_In in Hin.
    apply (Kv (c_institution_id c') _ v (proj2 Hin) Ev Hex).
  - intros r Hin. apply filter_In in Hin. tauto.
  - intros r i Hin Ei Hex. apply filter_In in Hin.
    apply (Ki _ (d_investor_id r) i (proj2 Hin) Ei Hex).
  - intros r v Hin Ev Hex. apply filter_In in Hin.
    apply (Kv (d_institution_id r) _ v (proj2 Hin) Ev Hex).
Qed.

Lemma delete_profile_consistent (id : uuid) (d : db) :
  consistent d -> consistent (delete_profile id d).
Proof.
  intros H. unfold delete_profile. apply cascade_consistent; [exact H | |].
  - intros r Hr G. apply negb_false_iff in G.
    apply in_map. apply filter_In. auto.
  - intros r Hr G. apply negb_false_iff in G.
    apply in_map. apply filter_In. auto.
Qed.

Lemma delete_institution_consistent (id : uuid) (d : db) :
  consistent d -> consistent (delete_institution id d).
Proof.
  intros H.
  pose proof (cascade_consistent [] [id] [] (fun _ => true)
                (fun i => negb (N.eqb (i_id i) id)) (fun _ => true) d H) as K.
  simpl in K. rewrite !filter_all in K. apply K.
  - intros r _ G. apply negb_false_iff, N.eqb_eq in G. now left.
  - intros r _ G. discriminate.
Qed.

Lemma delete_investor_consistent (id : uuid) (d : db) :
  consistent d -> consistent (delete_investor id d).
Proof.
  intros H.
  pose proof (cascade_consistent [] [] [id] (fun _ => true) (fun _ => true)
                (fun v => negb (N.eqb (inv_id v) id)) d H) as K.
  simpl in K. rewrite !filter_all in K. apply K.
  - intros r _ G. discriminate.
  - intros r _ G. apply negb_false_iff, N.eqb_eq in G. now left.
Qed.

Lemma delete_conversation_consistent (id : uuid) (d : db) :
  consistent d -> consistent (delete_conversation id d).
Proof.
  intros H. apply (consistent_shrink d); simpl;
    try apply H; try same_rows; try (apply NoDup_map_filter; apply H).
  intros c' Hin. apply filter_In in Hin. exists c'. tauto.
Qed.

Lemma delete_message_consistent (id : uuid) (d : db) :
  consistent d -> consistent (delete_message id d).
Proof.
  intros H. apply (consistent_shrink d); simpl; try apply H; try same_rows.
Qed.

Lemma delete_donation_consistent (id : uuid) (d : db) :
  consistent d -> consistent (delete_donation id d).
Proof.
  intros H. apply (consistent_shrink d); simpl; try apply H; try same_rows.
  intros r Hin. apply filter_In in Hin. tauto.
Qed.

(** Pointing one conversation at another pair keeps pairs unique when no
    other row holds the new pair. *)
Lemma repoint_absent id inst inv (l : list conversation) :
  ~ In id (map c_id l) -> map (repoint id inst inv) l = l.
Proof.
  induction l as [|c l IH]; simpl; intros H; [reflexivity |].
  unfold repoint at 1. destruct (N.eqb (c_id c) id) eqn:E.
  - apply N.eqb_eq in E. exfalso. apply H. now left.
  - rewrite IH; [reflexivity |]. intro. apply H. now right.
Qed.

Lemma repoint_pairs id inst inv (l : list conversation) :
  NoDup (map c_id l) ->
  NoDup (map conversation_pair l) ->
  (forall c, In c l -> c_id c <> id -> conversation_pair c <> (inst, inv)) ->
  NoDup (map conversation_pair (map (repoint id inst inv) l)).
Proof.
  induction l as [|c l IH]; simpl; intros Hid Hp Hfree; [constructor |].
  inversion Hid as [| ? ? Hid1 Hid2]; subst.
  inversion Hp as [| ? ? Hp1 Hp2]; subst.
  unfold repoint at 1. destruct (N.eqb (c_id c) id) eqn:E.
  - apply N.eqb_eq in E. subst id.
    rewrite repoint_absent by assumption.
    constructor; [| assumption]. simpl.
    intros Hin. apply in_map_iff in Hin. destruct Hin as [c' [Hc' Hin]].
    apply (Hfree c'); [now right | | exact Hc'].
    intros Heq. apply Hid1. rewrite <- Heq. now apply in_map.
  - apply N.eqb_neq in E. constructor.
    + intros Hin. rewrite map_map in Hin.
      apply in_map_iff in Hin. destruct Hin as [c' [Hc' Hin]].
      unfold repoint in Hc'. destruct (N.eqb (c_id c') id).
      * apply (Hfree c); [now left | assumption | now rewrite <- Hc'].
      * apply Hp1. rewrite <- Hc'. now apply in_map.
    + apply IH; auto.
Qed.

Lemma update_conversation_consistent id inst inv (d d' : db) :
  consistent d -> update_conversation id inst inv d = Some d' -> consistent d'.
Proof.
  intros H. unfold update_conversation.
  destruct (negb _); [intros E; inversion E; subst; exact H |].
  destruct (conversation_row_ok d (Some id) inst inv) eqn:Eok; [| discriminate].
  intros E; inversion E; subst; clear E.
  unfold conversation_row_ok in Eok.
  repeat (apply andb_true_iff in Eok; destruct Eok as [Eok ?]).
  destruct inst as [i|]; [| discriminate].
  destruct inv as [v|]; [| discriminate].
  simpl in *.
  destruct H as [Hp Hi Hv Hc Hfk Hu Hd].
  constructor; simpl; auto.
  - rewrite map_key_stable; [assumption |].
    intros x. unfold repoint. destruct (N.eqb (c_id x) id); reflexivity.
  - intros c Hin. apply in_map_iff in Hin. destruct Hin as [x [<- Hx]].
    unfold repoint. destruct (N.eqb (c_id x) id); [| now apply Hfk].
    exists i, v. simpl. auto.
  - apply (repoint_pairs id (Some i) (Some v)); auto.
    intros c Hin Hne Hpair.
    match goal with
    | K : negb (pair_taken _ _ _ _) = true |- _ =>
        apply negb_true_iff in K; unfold pair_taken in K;
        assert (X : existsb (fun c0 => negb (col_is (Some id) (c_id c0))
                   && col_eq (c_institution_id c0) (Some i)
                   && col_eq (c_investor_id c0) (Some v)) (conversations d) = true);
        [| congruence]
    end.
    apply existsb_exists. exists c. split; [assumption |].
    unfold conversation_pair in Hpair. inversion Hpair as [[P1 P2]].
    rewrite P1, P2. simpl. rewrite !N.eqb_refl.
    destruct (N.eqb id (c_id c)) eqn:E; [| reflexivity].
    apply N.eqb_eq in E. congruence.
Qed.

Lemma execute_consistent (s : statement) (d d' : db) :
  consistent d -> execute s d = Some d' -> consistent d'.
Proof.
  intros H. destruct s; simpl; intros E;
    try (inversion E; subst; clear E).
  - eapply insert_profile_consistent; eauto.
  - eapply insert_institution_consistent; eauto.
  - eapply insert_investor_consistent; eauto.
  - eapply insert_conversation_consistent; eauto.
  - eapply insert_message_consistent; eauto.
  - eapply insert_user_role_consistent; eauto.
  - eapply insert_donation_consistent; eauto.
  - eapply update_profile_consistent; eauto.
  - eapply update_conversation_consistent; eauto.
  - eapply update_donation_consistent; eauto.
  - now apply delete_profile_consistent.
  - now apply delete_institution_consistent.
  - now apply delete_investor_consistent.
  - now apply delete_conversation_consistent.
  - now apply delete_message_consistent.
  - now apply delete_donation_consistent.
Qed.

Lemma reachable_consistent (d : db) : reachable d -> consistent d.
Proof.
  induction 1 as [| s d d' _ IH E].
  - apply consistent_empty.
  - exact (execute_consistent s d d' IH E).
Qed.

Lemma run_reachable (ss : list statement) (d d' : db) :
  reachable d -> run ss d = Some d' -> reachable d'.
Proof.
  revert d. induction ss as [|s ss IH]; simpl; intros d Hd E.
  - inversion E; subst. exact Hd.
  - destruct (execute s d) as [d1|] eqn:E1; [| discriminate].
    apply (IH d1); [| exact E].
    exact (reachable_step s d d1 Hd E1).
Qed.

End SchemaInvariants.

(** ** What the schema guarantees *)

Section SchemaGuarantees.
Import Sql.

Lemma demo_run : run demo_script empty_db = Some demo_db.
Proof. vm_compute. reflexivity. Qed.

Lemma demo_reachable : reachable demo_db.
Proof. exact (run_reachable demo_script empty_db demo_db reachable_empty demo_run). Qed.

Lemma exists_row {A} (key : A -> uuid) (l : list A) (x : uuid) :
  existsb (fun r => N.eqb (key r) x) l = true ->
  exists r, In r l /\ key r = x.
Proof.
  intros H. apply existsb_exists in H. destruct H as [r [Hin E]].
  exists r. split; [assumption | now apply N.eqb_eq].
Qed.

Lemma row_exists {A} (key : A -> uuid) (l : list A) (r : A) :
  In r l -> existsb (fun y => N.eqb (key y) (key r)) l = true.
Proof.
  intros H. apply existsb_exists. exists r. split; [assumption | apply N.eqb_refl].
Qed.

(** C2. In every reachable state no two conversation rows hold the same
    (institution_id, investor_id) pair, and every conversation row has a
    non-null institution_id and investor_id, each naming exactly one
    existing row of its table. *)
Theorem conversation_pairing_unique (d : db) :
  reachable d ->
  (forall n1 n2 c1 c2,
      nth_error (conversations d) n1 = Some c1 ->
      nth_error (conversations d) n2 = Some c2 ->
      c_institution_id c1 = c_institution_id c2 ->
      c_investor_id c1 = c_investor_id c2 ->
      n1 = n2)
  /\ (forall c, In c (conversations d) ->
        exists i v,
          c_institution_id c = Some (i_id i)
          /\ c_investor_id c = Some (inv_id v)
          /\ In i (institutions d)
          /\ (forall i', In i' (institutions d) -> i_id i' = i_id i -> i' = i)
          /\ In v (investors d)
          /\ (forall v', In v' (investors d) -> inv_id v' = inv_id v -> v' = v)).
Proof.
  intros Hr. apply reachable_consistent in Hr.
  destruct Hr as [Hp Hi Hv Hc Hfk Hu Hd]. split.
  - intros n1 n2 c1 c2 H1 H2 Ei Ev.
    pose proof (proj1 (NoDup_nth_error _) Hu) as K.
    apply K.
    + rewrite length_map. apply nth_error_Some. congruence.
    + rewrite !nth_error_map, H1, H2. simpl.
      unfold conversation_pair. congruence.
  - intros c Hin. destruct (Hfk c Hin) as [i [v [Ei [Ev [Xi Xv]]]]].
    apply exists_row in Xi. destruct Xi as [ri [Hri Eri]].
    apply exists_row in Xv. destruct Xv as [rv [Hrv Erv]].
    exists ri, rv. subst i v. repeat split; auto.
    + intros i' Hi' E. exact (key_unique i_id _ i' ri Hi Hi' Hri E).
    + intros v' Hv' E. exact (key_unique inv_id _ v' rv Hv Hv' Hrv E).
Qed.

Lemma conversation_pairing_unique_witness :
  reachable demo_db
  /\ forall c, In c (conversations demo_db) ->
       exists i v,
         c_institution_id c = Some (i_id i)
         /\ c_investor_id c = Some (inv_id v)
         /\ In i (institutions demo_db)
         /\ (forall i', In i' (institutions demo_db) -> i_id i' = i_id i -> i' = i)
         /\ In v (investors demo_db)
         /\ (forall v', In v' (investors demo_db) -> inv_id v' = inv_id v -> v' = v).
Proof.
  split; [exact demo_reachable |].
  exact (proj2 (conversation_pairing_unique demo_db demo_reachable)).
Defined.

Lemma numeric_gt_zero (q : Q) :
  numeric_gt (Num q) (Num 0%Q) = true <-> (0 < q)%Q.
Proof.
  simpl. rewrite negb_true_iff. split.
  - intros H. apply Qnot_le_lt. intros L.
    apply Qle_bool_iff in L. congruence.
  - intros H. destruct (Qle_bool q 0) eqn:E; [| reflexivity].
    apply Qle_bool_iff in E. exfalso. exact (Qlt_not_le _ _ H E).
Qed.

Lemma status_listed (s : string) :
  check_status (Some s) = true <->
  (s = "pending" \/ s = "completed" \/ s = "cancelled" \/ s = "failed")%string.
Proof.
  simpl. rewrite !orb_true_iff, !String.eqb_eq. tauto.
Qed.

Lemma donation_row_ok_valid (d : db) (r : donation) :
  donation_row_ok d r = true <-> donation_valid d r.
Proof.
  unfold donation_row_ok, donation_valid. split.
  - intros H. repeat (apply andb_true_iff in H; destruct H as [H ?]).
    destruct (d_investor_id r) as [v|]; [| discriminate].
    destruct (d_institution_id r) as [i|]; [| discriminate].
    destruct (d_amount r) as [a|]; [| discriminate].
    destruct (d_status r) as [s|]; [| discriminate].
    simpl in *. exists a, s, v, i. repeat split; auto.
    + now apply status_listed.
    + now apply exists_row.
    + now apply exists_row.
  - intros [a [s [v [i [Ea [Ha [Es [Hs [Ev [[w [Hw Ew]] [Ei [j [Hj Ej]]]]]]]]]]]]].
    rewrite Ea, Es, Ev, Ei. simpl.
    apply status_listed in Hs. simpl in Hs.
    simpl in Ha. rewrite Ha, Hs. simpl.
    subst v i. unfold investor_exists, institution_exists.
    rewrite (row_exists inv_id _ w Hw), (row_exists i_id _ j Hj). reflexivity.
Qed.

Lemma numeric_gt_admits (a : numeric) :
  numeric_gt a (Num 0%Q) = true <-> positive_amount a \/ a = NumNaN.
Proof.
  destruct a as [q | | |].
  - rewrite numeric_gt_zero. simpl. split; [auto |].
    intros [H | H]; [exact H | discriminate].
  - simpl. split; auto.
  - simpl. split; [discriminate |]. intros [[] | H]; discriminate.
  - simpl. split; auto.
Qed.

Lemma donation_row_ok_admissible (d : db) (r : donation) :
  donation_row_ok d r = true <-> donation_admissible d r.
Proof.
  rewrite donation_row_ok_valid. unfold donation_valid, donation_admissible.
  split; intros [a [s [v [i [Ea [Ha H]]]]]]; exists a, s, v, i;
    (split; [exact Ea |]); (split; [| exact H]); now apply numeric_gt_admits.
Qed.

Lemma nan_db_reachable : reachable nan_db.
Proof.
  apply (reachable_step (InsertDonation nan_donation) demo_db);
    [exact demo_reachable | vm_compute; reflexivity].
Qed.

(** C8 as stated fails: the donation with amount NaN is accepted by
    [CHECK (amount > 0)], since NaN compares greater than every number, and
    is a stored row whose amount is no number greater than 0. *)
Lemma nan_amount_is_stored :
  reachable nan_db
  /\ In nan_donation (donations nan_db)
  /\ d_amount nan_donation = Some NumNaN
  /\ (forall a, d_amount nan_donation = Some a -> ~ positive_amount a).
Proof.
  split; [exact nan_db_reachable |].
  split; [simpl; auto |]. split; [reflexivity |].
  intros a E. inversion E. simpl. tauto.
Qed.

(** C8, amended. Every donation row of a reachable state has an amount that
    is NaN or strictly greater than 0, a status among 'pending', 'completed',
    'cancelled' and 'failed', and an investor and an institution that exist;
    an insert of a row that fails any of these is refused, and so is an
    update to such a row whenever it matches a stored row. *)
Theorem donation_rows_admissible (d : db) :
  reachable d ->
  (forall r, In r (donations d) -> donation_admissible d r)
  /\ (forall r, ~ donation_admissible d r -> insert_donation r d = None)
  /\ (forall now id r, ~ donation_admissible d r ->
        In id (map d_id (donations d)) ->
        update_donation now id r d = None).
Proof.
  intros Hr. apply reachable_consistent in Hr.
  destruct Hr as [Hp Hi Hv Hc Hfk Hu Hd]. split; [| split].
  - intros r Hin. apply donation_row_ok_admissible. now apply Hd.
  - intros r Hbad. unfold insert_donation.
    destruct (donation_row_ok d r) eqn:E.
    + exfalso. apply Hbad. now apply donation_row_ok_admissible.
    + now rewrite andb_false_r.
  - intros now id r Hbad Hid. unfold update_donation.
    apply existsb_key in Hid. rewrite Hid. simpl.
    destruct (donation_row_ok d r) eqn:E; [| reflexivity].
    exfalso. apply Hbad. now apply donation_row_ok_admissible.
Qed.

Lemma donation_rows_admissible_witness :
  reachable nan_db
  /\ forall r, In r (donations nan_db) -> donation_admissible nan_db r.
Proof.
  split; [exact nan_db_reachable |].
  exact (proj1 (donation_rows_admissible nan_db nan_db_reachable)).
Defined.

(** The trigger on its own: row by row, only [updated_at] of the rows with
    the message's conversation id moves; the other tables are untouched. *)
Lemma update_conversation_timestamp_frame now (m : message) (d : db) :
  let d' := update_conversation_timestamp now m d in
  (forall n c, nth_error (conversations d) n = Some c ->
     exists c', nth_error (conversations d') n = Some c'
       /\ c_id c' = c_id c
       /\ c_institution_id c' = c_institution_id c
       /\ c_investor_id c' = c_investor_id c
       /\ c_created_at c' = c_created_at c
       /\ (c_id c = m_conversation_id m -> c_updated_at c' = now)
       /\ (c_id c <> m_conversation_id m -> c' = c))
  /\ List.length (conversations d') = List.length (conversations d)
  /\ profiles d' = profiles d /\ institutions d' = institutions d
  /\ investors d' = investors d /\ messages d' = messages d
  /\ user_roles d' = user_roles d /\ donations d' = donations d.
Proof.
  simpl. split; [| rewrite length_map; repeat split; reflexivity].
  intros n c Hn. rewrite nth_error_map, Hn. simpl.
  destruct (N.eqb (c_id c) (m_conversation_id m)) eqn:E.
  - exists (touch now c). apply N.eqb_eq in E.
    repeat split; auto. intros Hne. contradiction.
  - exists c. apply N.eqb_neq in E.
    repeat split; auto. intros He. contradiction.
Qed.

(** C5. A message insert that goes through fires the trigger once: exactly
    one conversation row has the new message's conversation_id, its
    updated_at becomes the current time and its other columns stay; every
    other conversation row and every other table is as before, the new
    message apart. *)
Theorem message_insert_bumps_one_conversation now (m : message) (d d' : db) :
  reachable d ->
  insert_message now m d = Some d' ->
  (exists c, In c (conversations d)
             /\ c_id c = m_conversation_id m
             /\ forall c0, In c0 (conversations d) ->
                           c_id c0 = m_conversation_id m -> c0 = c)
  /\ (forall n c, nth_error (conversations d) n = Some c ->
        exists c', nth_error (conversations d') n = Some c'
          /\ c_id c' = c_id c
          /\ c_institution_id c' = c_institution_id c
          /\ c_investor_id c' = c_investor_id c
          /\ c_created_at c' = c_created_at c
          /\ (c_id c = m_conversation_id m -> c_updated_at c' = now)
          /\ (c_id c <> m_conversation_id m -> c' = c))
  /\ List.length (conversations d') = List.length (conversations d)
  /\ messages d' = messages d ++ [m]
  /\ profiles d' = profiles d /\ institutions d' = institutions d
  /\ investors d' = investors d
  /\ user_roles d' = user_roles d /\ donations d' = donations d.
Proof.
  intros Hr. apply reachable_consistent in Hr.
  unfold insert_message.
  destruct (_ && _) eqn:E; [| discriminate].
  intros X; inversion X; subst; clear X.
  apply andb_true_iff in E. destruct E as [E _].
  apply andb_true_iff in E. destruct E as [_ E].
  split.
  - apply exists_row in E. destruct E as [c [Hc Ec]].
    exists c. repeat split; auto.
    intros c0 Hc0 E0.
    apply (key_unique c_id (conversations d)); auto; [apply Hr | congruence].
  - pose proof (update_conversation_timestamp_frame now m
                  (set_messages d (messages d ++ [m]))) as F.
    simpl in F. simpl.
    destruct F as (F1 & F2 & F3 & F4 & F5 & F6 & F7 & F8).
    split; [exact F1 |]. split; [exact F2 |]. split; [reflexivity |].
    split; [exact F3 |]. split; [exact F4 |]. split; [exact F5 |].
    split; [exact F7 | exact F8].
Qed.

Lemma message_insert_bumps_one_conversation_witness :
  exists d',
    insert_message 42 (mkMessage 1001 100 1 "thanks" false 42) demo_db = Some d'
    /\ map c_updated_at (conversations d') = [42%Z]
    /\ List.length (conversations d') = List.length (conversations demo_db).
Proof.
  eexists. split; [vm_compute; reflexivity |].
  split; [reflexivity |].
  refine (proj1 (proj2 (proj2
    (message_insert_bumps_one_conversation 42
       (mkMessage 1001 100 1 "thanks" false 42) demo_db _ demo_reachable _)))).
  vm_compute. reflexivity.
Defined.

End SchemaGuarantees.

(** ** Row-level security: who may read and write what *)

Section AccessControl.
Import Sql Rls.

Lemma col_is_spec (a : option uuid) (x : uuid) :
  col_is a x = true <-> a = Some x.
Proof.
  destruct a as [y|]; simpl; [| split; discriminate].
  rewrite N.eqb_eq. split; congruence.
Qed.

(** The join of [is_institution_in_conversation], row by row. *)
Lemma is_institution_in_conversation_rows d uid conv_id :
  is_institution_in_conversation d uid conv_id = true <->
  exists c i p,
    In c (conversations d) /\ In i (institutions d) /\ In p (profiles d)
    /\ c_institution_id c = Some (i_id i) /\ i_user_id i = p_id p
    /\ c_id c = conv_id /\ uid = Some (p_id p) /\ verified p = true.
Proof.
  unfold is_institution_in_conversation. split.
  - intros H.
    apply existsb_exists in H. destruct H as [c [Hc H]].
    apply existsb_exists in H. destruct H as [i [Hi H]].
    apply existsb_exists in H. destruct H as [p [Hp H]].
    repeat (apply andb_true_iff in H; destruct H as [H ?]).
    exists c, i, p. rewrite col_is_spec, ?N.eqb_eq in *. auto 10.
  - intros [c [i [p [Hc [Hi [Hp [E1 [E2 [E3 [E4 E5]]]]]]]]]].
    apply existsb_exists. exists c. split; [assumption |].
    apply existsb_exists. exists i. split; [assumption |].
    apply existsb_exists. exists p. split; [assumption |].
    rewrite E1, E2, E3, E4, E5. simpl. now rewrite !N.eqb_refl.
Qed.

Lemma is_investor_in_conversation_rows d uid conv_id :
  is_investor_in_conversation d uid conv_id = true <->
  exists c v p,
    In c (conversations d) /\ In v (investors d) /\ In p (profiles d)
    /\ c_investor_id c = Some (inv_id v) /\ inv_user_id v = p_id p
    /\ c_id c = conv_id /\ uid = Some (p_id p) /\ verified p = true.
Proof.
  unfold is_investor_in_conversation. split.
  - intros H.
    apply existsb_exists in H. destruct H as [c [Hc H]].
    apply existsb_exists in H. destruct H as [v [Hv H]].
    apply existsb_exists in H. destruct H as [p [Hp H]].
    repeat (apply andb_true_iff in H; destruct H as [H ?]).
    exists c, v, p. rewrite col_is_spec, ?N.eqb_eq in *. auto 10.
  - intros [c [v [p [Hc [Hv [Hp [E1 [E2 [E3 [E4 E5]]]]]]]]]].
    apply existsb_exists. exists c. split; [assumption |].
    apply existsb_exists. exists v. split; [assumption |].
    apply existsb_exists. exists p. split; [assumption |].
    rewrite E1, E2, E3, E4, E5. simpl. now rewrite !N.eqb_refl.
Qed.

(** The join of the conversation INSERT policy, row by row: every joined
    row is one the caller may select. *)
Lemma conversations_insert_policy_rows d uid inst inv :
  conversations_insert_policy d uid inst inv = true <->
  exists p1 i p2 v,
    (In p1 (profiles d) /\ profiles_select_policy d uid p1 = true)
    /\ (In i (institutions d) /\ institutions_select_policy d uid i = true)
    /\ (In p2 (profiles d) /\ profiles_select_policy d uid p2 = true)
    /\ (In v (investors d) /\ investors_select_policy d uid v = true)
    /\ p_id p1 = i_user_id i /\ p_id p2 = inv_user_id v
    /\ inst = Some (i_id i) /\ inv = Some (inv_id v)
    /\ verified p1 = true /\ verified p2 = true
    /\ (uid = Some (p_id p1) \/ uid = Some (p_id p2)).
Proof.
  unfold conversations_insert_policy, visible_profiles, visible_institutions,
    visible_investors. split.
  - intros H.
    apply existsb_exists in H. destruct H as [p1 [Hp1 H]].
    apply existsb_exists in H. destruct H as [i [Hi H]].
    apply existsb_exists in H. destruct H as [p2 [Hp2 H]].
    apply existsb_exists in H. destruct H as [v [Hv H]].
    apply filter_In in Hp1, Hi, Hp2, Hv.
    repeat (apply andb_true_iff in H; destruct H as [H ?]).
    exists p1, i, p2, v.
    rewrite orb_true_iff in *. rewrite !col_is_spec, ?N.eqb_eq in *.
    repeat (split; [assumption |]). assumption.
  - intros [p1 [i [p2 [v [Hp1 [Hi [Hp2 [Hv [E1 [E2 [E3 [E4 [E5 [E6 E7]]]]]]]]]]]]]].
    apply existsb_exists. exists p1. split; [now apply filter_In |].
    apply existsb_exists. exists i. split; [now apply filter_In |].
    apply existsb_exists. exists p2. split; [now apply filter_In |].
    apply existsb_exists. exists v. split; [now apply filter_In |].
    rewrite <- E1, <- E2, E3, E4, E5, E6. simpl. rewrite !N.eqb_refl. simpl.
    apply orb_true_iff. rewrite !col_is_spec. exact E7.
Qed.

Lemma not_verified (p : profile) :
  p_verification_status p <> "verified"%string -> verified p = false.
Proof. intros H. unfold verified. now apply String.eqb_neq. Qed.

Lemma policy_off {A} (b : bool) (x : option A) :
  b = false -> (if b then x else None) = None.
Proof. intros ->. reflexivity. Qed.

(** C3 fails for the conversation INSERT policy: with institution 10 owned
    by the verified profile 1, investor 20 owned by the verified profile 2
    and no conversation between them, the policy is false for caller 2 and
    for caller 1, neither of whom holds the admin role, and the insert is
    refused although the table's constraints accept the row. The EXISTS of
    the policy runs as the caller, who may select no profile but its own. *)
Theorem verified_participants_cannot_open_a_conversation :
  reachable strangers_db
  /\ status_of strangers_db 1 = Some "verified"%string
  /\ status_of strangers_db 2 = Some "verified"%string
  /\ has_role strangers_db (Some 1%N) admin = false
  /\ has_role strangers_db (Some 2%N) admin = false
  /\ conversations_insert_policy strangers_db (Some 2%N) (Some 10%N) (Some 20%N)
     = false
  /\ conversations_insert_policy strangers_db (Some 1%N) (Some 10%N) (Some 20%N)
     = false
  /\ rls_insert_conversation (Some 2%N)
       (mkConversation 102 (Some 10%N) (Some 20%N) 6 6) strangers_db = None
  /\ rls_insert_conversation (Some 1%N)
       (mkConversation 102 (Some 10%N) (Some 20%N) 6 6) strangers_db = None
  /\ insert_conversation
       (mkConversation 102 (Some 10%N) (Some 20%N) 6 6) strangers_db
     = Some (set_conversations strangers_db
               [mkConversation 102 (Some 10%N) (Some 20%N) 6 6]).
Proof.
  split.
  - apply (reachable_step (DeleteConversation 100) demo_db);
      [exact demo_reachable | reflexivity].
  - vm_compute. repeat split.
Qed.

(** The conversation INSERT policy as it runs. For a caller without the
    admin role it holds exactly when one verified profile, the caller's own,
    owns both the institution and the investor of the pair; for a caller
    with the admin role it holds exactly when the institution's owner and
    the investor's owner are both verified and the caller is one of them.
    An insert whose policy does not hold is refused. *)
Theorem conversation_insert_policy_reads_visible_rows (d : db) (uid : caller)
    (inst inv : option uuid) :
  (has_role d uid admin = false ->
   (conversations_insert_policy d uid inst inv = true <->
    exists p i v,
      In p (profiles d) /\ In i (institutions d) /\ In v (investors d)
      /\ uid = Some (p_id p)
      /\ i_user_id i = p_id p /\ inv_user_id v = p_id p
      /\ inst = Some (i_id i) /\ inv = Some (inv_id v)
      /\ verified p = true))
  /\ (has_role d uid admin = true ->
      (conversations_insert_policy d uid inst inv = true <->
       exists p1 i p2 v,
         In p1 (profiles d) /\ In i (institutions d)
         /\ In p2 (profiles d) /\ In v (investors d)
         /\ p_id p1 = i_user_id i /\ p_id p2 = inv_user_id v
         /\ inst = Some (i_id i) /\ inv = Some (inv_id v)
         /\ verified p1 = true /\ verified p2 = true
         /\ (uid = Some (p_id p1) \/ uid = Some (p_id p2))))
  /\ (forall c, c_institution_id c = inst -> c_investor_id c = inv ->
        conversations_insert_policy d uid inst inv = false ->
        rls_insert_conversation uid c d = None).
Proof.
  split; [| split].
  - intros Ha. rewrite conversations_insert_policy_rows. split.
    + intros [p1 [i [p2 [v [[I1 S1] [[Ii _] [[I2 S2] [[Iv _]
                [E1 [E2 [E3 [E4 [V1 [V2 _]]]]]]]]]]]]]].
      unfold profiles_select_policy in S1, S2. rewrite Ha, orb_false_r in S1, S2.
      apply col_is_spec in S1, S2.
      assert (K : p_id p2 = p_id p1) by congruence.
      exists p1, i, v. repeat split; auto; congruence.
    + intros [p [i [v [Ip [Ii [Iv [U [O1 [O2 [E3 [E4 V]]]]]]]]]]].
      exists p, i, p, v.
      assert (Sp : profiles_select_policy d uid p = true).
      { unfold profiles_select_policy. apply orb_true_iff. left.
        now apply col_is_spec. }
      assert (Si : institutions_select_policy d uid i = true).
      { unfold institutions_select_policy.
        apply orb_true_iff. left. apply orb_true_iff. left.
        apply col_is_spec. congruence. }
      assert (Sv : investors_select_policy d uid v = true).
      { unfold investors_select_policy.
        apply orb_true_iff. left. apply orb_true_iff. left.
        apply col_is_spec. congruence. }
      split; [split; assumption |]. split; [split; assumption |].
      split; [split; assumption |]. split; [split; assumption |].
      split; [congruence |]. split; [congruence |].
      split; [assumption |]. split; [assumption |].
      split; [assumption |]. split; [assumption |]. now left.
  - intros Ha. rewrite conversations_insert_policy_rows.
    assert (Sp : forall p, profiles_select_policy d uid p = true).
    { intros p. unfold profiles_select_policy. rewrite Ha. apply orb_true_r. }
    assert (Si : forall i, institutions_select_policy d uid i = true).
    { intros i. unfold institutions_select_policy. rewrite Ha. apply orb_true_r. }
    assert (Sv : forall v, investors_select_policy d uid v = true).
    { intros v. unfold investors_select_policy. rewrite Ha. apply orb_true_r. }
    split.
    + intros [p1 [i [p2 [v [[I1 _] [[Ii _] [[I2 _] [[Iv _] H]]]]]]]].
      exists p1, i, p2, v. tauto.
    + intros [p1 [i [p2 [v [I1 [Ii [I2 [Iv H]]]]]]]].
      exists p1, i, p2, v.
      split; [split; [exact I1 | apply Sp] |].
      split; [split; [exact Ii | apply Si] |].
      split; [split; [exact I2 | apply Sp] |].
      split; [split; [exact Iv | apply Sv] |].
      exact H.
  - intros c <- <- P. unfold rls_insert_conversation. now rewrite P.
Qed.

Lemma conversation_insert_policy_reads_visible_rows_witness :
  has_role strangers_db (Some 2%N) admin = false
  /\ (conversations_insert_policy strangers_db (Some 2%N) (Some 10%N) (Some 20%N)
      = true
      <-> exists p i v,
            In p (profiles strangers_db) /\ In i (institutions strangers_db)
            /\ In v (investors strangers_db)
            /\ Some 2%N = Some (p_id p)
            /\ i_user_id i = p_id p /\ inv_user_id v = p_id p
            /\ Some 10%N = Some (i_id i) /\ Some 20%N = Some (inv_id v)
            /\ verified p = true).
Proof.
  split; [reflexivity |].
  exact (proj1 (conversation_insert_policy_reads_visible_rows strangers_db
                  (Some 2%N) (Some 10%N) (Some 20%N)) eq_refl).
Defined.

(** The message INSERT policy: in a reachable state, for a message whose
    conversation has institution [i] owned by profile [p1] and investor [v]
    owned by profile [p2], the policy holds exactly when the caller is the
    message's sender_id and is [p1] or [p2] with a verified profile; an
    insert whose policy does not hold is refused. *)
Theorem message_insert_policy_admits_verified_participants (d : db)
    (uid : caller) :
  reachable d ->
  (forall m c i v p1 p2,
      In c (conversations d) -> c_id c = m_conversation_id m ->
      In i (institutions d) -> c_institution_id c = Some (i_id i) ->
      In v (investors d) -> c_investor_id c = Some (inv_id v) ->
      In p1 (profiles d) -> p_id p1 = i_user_id i ->
      In p2 (profiles d) -> p_id p2 = inv_user_id v ->
      (messages_insert_policy d uid m = true
       <-> uid = Some (m_sender_id m)
           /\ ((uid = Some (p_id p1) /\ verified p1 = true)
               \/ (uid = Some (p_id p2) /\ verified p2 = true))))
  /\ (forall now m,
        messages_insert_policy d uid m = false ->
        rls_insert_message uid now m d = None).
Proof.
  intros Hr. apply reachable_consistent in Hr.
  destruct Hr as [Hp Hi Hv Hc Hfk Hu Hd].
  split.
  - intros m c i v p1 p2 Ic Ec Ii Ei Iv Ev I1 O1 I2 O2.
    unfold messages_insert_policy.
    rewrite andb_true_iff, orb_true_iff, col_is_spec,
      is_institution_in_conversation_rows, is_investor_in_conversation_rows.
    split.
    + intros [Hs [H | H]]; (split; [exact Hs |]).
      * destruct H as [c0 [j [q [J1 [J2 [J3 [E1 [E2 [E3 [E4 E5]]]]]]]]]].
        assert (c0 = c) by (apply (key_unique c_id (conversations d)); auto; congruence).
        subst c0. rewrite Ei in E1. inversion E1 as [K1].
        assert (j = i) by (apply (key_unique i_id (institutions d)); auto).
        subst j.
        assert (q = p1) by (apply (key_unique p_id (profiles d)); auto; congruence).
        subst q. left. auto.
      * destruct H as [c0 [w [q [J1 [J2 [J3 [E1 [E2 [E3 [E4 E5]]]]]]]]]].
        assert (c0 = c) by (apply (key_unique c_id (conversations d)); auto; congruence).
        subst c0. rewrite Ev in E1. inversion E1 as [K1].
        assert (w = v) by (apply (key_unique inv_id (investors d)); auto).
        subst w.
        assert (q = p2) by (apply (key_unique p_id (profiles d)); auto; congruence).
        subst q. right. auto.
    + intros [Hs [[U V] | [U V]]]; (split; [exact Hs |]).
      * left. exists c, i, p1. auto 10.
      * right. exists c, v, p2. auto 10.
  - intros now m H. unfold rls_insert_message. now apply policy_off.
Qed.

Lemma message_insert_policy_admits_verified_participants_witness :
  reachable demo_db
  /\ (messages_insert_policy demo_db (Some 2%N)
        (mkMessage 1001 100 2 "thanks" false 42) = true
      <-> Some 2%N = Some 2%N
          /\ ((Some 2%N = Some 1%N /\ verified
                 (mkProfile 1 "school@example.org" None "institution" "verified" 0)
                 = true)
              \/ (Some 2%N = Some 2%N /\ verified
                    (mkProfile 2 "donor@example.org" None "investor" "verified" 0)
                    = true))).
Proof.
  split; [exact demo_reachable |].
  apply (proj1 (message_insert_policy_admits_verified_participants demo_db
                  (Some 2%N) demo_reachable)
           (mkMessage 1001 100 2 "thanks" false 42)
           (mkConversation 100 (Some 10%N) (Some 20%N) 5 9)
           (mkInstitution 10 1 "Hillside School")
           (mkInvestor 20 2 "individual" None)
           (mkProfile 1 "school@example.org" None "institution" "verified" 0)
           (mkProfile 2 "donor@example.org" None "investor" "verified" 0));
    simpl; auto.
Defined.

(** C4. A caller whose profile is not 'verified' passes the conversation
    SELECT policy on no row at all, so a select returns nothing. *)
Theorem unverified_caller_reads_no_conversation (d : db) (u : uuid)
    (p : profile) :
  reachable d ->
  In p (profiles d) -> p_id p = u ->
  p_verification_status p <> "verified"%string ->
  (forall conv_id, is_institution_in_conversation d (Some u) conv_id = false)
  /\ (forall conv_id, is_investor_in_conversation d (Some u) conv_id = false)
  /\ (forall row, conversations_select_policy d (Some u) row = false)
  /\ rls_select_conversations (Some u) d = [].
Proof.
  intros Hr Hin Hid Hst. apply reachable_consistent in Hr.
  assert (Own : forall q, In q (profiles d) -> Some u = Some (p_id q) ->
                           verified q = true -> False).
  { intros q Hq E V. inversion E as [K].
    assert (q = p) by (apply (key_unique p_id (profiles d)); auto;
                       [apply Hr | congruence]).
    subst q. rewrite (not_verified p Hst) in V. discriminate. }
  assert (A : forall conv_id, is_institution_in_conversation d (Some u) conv_id = false).
  { intros conv_id.
    destruct (is_institution_in_conversation d (Some u) conv_id) eqn:E;
      [exfalso | reflexivity].
    apply is_institution_in_conversation_rows in E.
    destruct E as [c [i [q [_ [_ [Hq [_ [_ [_ [E V]]]]]]]]]]. eauto. }
  assert (B : forall conv_id, is_investor_in_conversation d (Some u) conv_id = false).
  { intros conv_id.
    destruct (is_investor_in_conversation d (Some u) conv_id) eqn:E;
      [exfalso | reflexivity].
    apply is_investor_in_conversation_rows in E.
    destruct E as [c [i [q [_ [_ [Hq [_ [_ [_ [E V]]]]]]]]]]. eauto. }
  assert (C : forall row, conversations_select_policy d (Some u) row = false).
  { intros row. unfold conversations_select_policy. now rewrite A, B. }
  repeat split; auto.
  unfold rls_select_conversations.
  induction (conversations d) as [|c l IH]; simpl; [reflexivity |].
  now rewrite C.
Qed.

Lemma unverified_caller_reads_no_conversation_witness :
  rls_select_conversations (Some 3%N) demo_db = []
  /\ rls_select_conversations (Some 2%N) demo_db = conversations demo_db.
Proof.
  split; [| reflexivity].
  apply (unverified_caller_reads_no_conversation demo_db 3
           (mkProfile 3 "new@example.org" None "investor" "pending" 0)
           demo_reachable).
  - simpl. auto.
  - reflexivity.
  - simpl. discriminate.
Defined.

(** The admin policy does guard the rows of others: a caller without the
    admin role who targets another profile updates no row. *)
Lemma non_admin_update_of_other_profile_hits_nothing (d : db) (uid : caller)
    (now : timestamptz) (target : uuid) (status : string) :
  has_role d uid admin = false ->
  uid <> Some target ->
  rls_update_verification_status uid now target status d = Some d.
Proof.
  intros Hadm Hother. unfold rls_update_verification_status.
  assert (Miss : forall x, N.eqb (p_id x) target
                           && profiles_update_policy d uid x = false).
  { intros x. unfold profiles_update_policy,
      users_can_update_their_own_profile, admins_can_update_all_profiles.
    rewrite Hadm, orb_false_r.
    destruct (N.eqb (p_id x) target) eqn:E; [| reflexivity].
    apply N.eqb_eq in E. simpl.
    destruct (col_is uid (p_id x)) eqn:K; [| reflexivity].
    apply col_is_spec in K. congruence. }
  assert (Hall : forallb (fun x => negb (N.eqb (p_id x) target
                                         && profiles_update_policy d uid x)
       || (profiles_update_policy d uid
             (stamp_profile now (set_verification_status status x))
           && check_user_type
                (p_user_type (stamp_profile now (set_verification_status status x)))
           && check_verification_status status)) (profiles d) = true).
  { apply forallb_forall. intros x _. now rewrite Miss. }
  rewrite Hall. f_equal.
  assert (Hmap : map (fun x => if N.eqb (p_id x) target
                                  && profiles_update_policy d uid x
                               then stamp_profile now
                                      (set_verification_status status x)
                               else x) (profiles d) = profiles d).
  { rewrite <- (map_id (profiles d)) at 2.
    apply map_ext. intros x. now rewrite Miss. }
  rewrite Hmap. destruct d; reflexivity.
Qed.

(** Its own row, though, every caller may rewrite: the statement goes
    through for any allowed status and leaves the caller's profile with it. *)
Lemma own_profile_update_goes_through (d : db) (u : uuid)
    (now : timestamptz) (status : string) :
  check_verification_status status = true ->
  (forall p, In p (profiles d) -> check_user_type (p_user_type p) = true) ->
  exists d',
    rls_update_verification_status (Some u) now u status d = Some d'
    /\ forall p', In p' (profiles d') -> p_id p' = u ->
                  p_verification_status p' = status.
Proof.
  intros Hst Hty. unfold rls_update_verification_status.
  assert (Own : forall x, N.eqb (p_id x) u = true ->
                          profiles_update_policy d (Some u) x = true).
  { intros x E. unfold profiles_update_policy,
      users_can_update_their_own_profile. simpl.
    rewrite N.eqb_sym, E. reflexivity. }
  match goal with
  | |- context [forallb ?f (profiles d)] =>
      assert (Hall : forallb f (profiles d) = true)
  end.
  { apply forallb_forall. intros x Hx.
    destruct (N.eqb (p_id x) u) eqn:E; simpl; [| reflexivity].
    rewrite (Own x E). simpl.
    unfold profiles_update_policy, users_can_update_their_own_profile. simpl.
    rewrite N.eqb_sym, E. simpl. now rewrite (Hty x Hx), Hst. }
  rewrite Hall. eexists. split; [reflexivity |].
  simpl. intros p' Hin Hid. apply in_map_iff in Hin.
  destruct Hin as [x [Hx Hin]].
  destruct (N.eqb (p_id x) u) eqn:E; simpl in Hx.
  - rewrite (Own x E) in Hx. subst p'. reflexivity.
  - subst p'. apply N.eqb_neq in E. contradiction.
Qed.

(** C1 fails on the policies as written: the own-profile UPDATE policy
    checks the row's id and nothing else, so the pending investor of
    profile 3, who holds no admin role before or after, sets its own
    verification_status to 'verified'. *)
Theorem pending_user_verifies_own_profile :
  has_role demo_db (Some 3%N) admin = false
  /\ has_role_v1 demo_db (Some 3%N) admin = false
  /\ status_of demo_db 3 = Some "pending"%string
  /\ exists d',
       rls_update_verification_status (Some 3%N) 11 3 "verified" demo_db = Some d'
       /\ status_of d' 3 = Some "verified"%string
       /\ has_role d' (Some 3%N) admin = false.
Proof.
  split; [reflexivity |]. split; [reflexivity |]. split; [reflexivity |].
  eexists. split; [vm_compute; reflexivity |].
  split; reflexivity.
Qed.

End AccessControl.

(** ** The Messages page: errors and first contact *)

Section MessagesPage.
Import Js Ui Messages.
Context {B : Type} `{Backend B}.

(** C6. When the backend answers [loadConversations] or the insert of
    [handleSendMessage] with an error, the handler sends that one request
    and no other, raises one destructive toast and leaves every state cell
    as it was, the conversations and the draft included; and a run of
    [handleSendMessage] that changes the draft is one whose insert came
    back without error. *)
Theorem backend_error_toasts_once (w : world state request B) :
  (forall b' r e,
      select_conversations (backend w) = (b', r) ->
      error r = Some e ->
      loadConversations w
      = (tt, mkWorld (ui w)
               (toasts w ++ [mkToast "Error loading conversations"
                                     (message e) destructive])
               (requests w ++ [SelectConversations])
               (location w) b'))
  /\ (forall b' r e,
        let content := trim (newMessage (ui w)) in
        let conversation_id := or_else (selectedConversationId (ui w)) "" in
        let sender_id := or_else (currentUserId (ui w)) "" in
        truthy content = true ->
        truthy_opt (selectedConversationId (ui w)) = true ->
        truthy_opt (currentUserId (ui w)) = true ->
        insert_message conversation_id sender_id content (backend w) = (b', r) ->
        error r = Some e ->
        handleSendMessage w
        = (tt, mkWorld (ui w)
                 (toasts w ++ [mkToast "Error sending message"
                                       (message e) destructive])
                 (requests w ++ [InsertMessage conversation_id sender_id content])
                 (location w) b'))
  /\ (newMessage (ui (snd (handleSendMessage w))) <> newMessage (ui w) ->
      exists b' r,
        insert_message (or_else (selectedConversationId (ui w)) "")
                       (or_else (currentUserId (ui w)) "")
                       (trim (newMessage (ui w))) (backend w) = (b', r)
        /\ error r = None).
Proof.
  split; [| split].
  - intros b' r e Hs He. unfold loadConversations, bind, read, call.
    rewrite Hs, He. reflexivity.
  - intros b' r e content conversation_id sender_id G1 G2 G3 Hs He.
    unfold handleSendMessage, bind, read, call.
    fold content. rewrite G1, G2, G3. simpl.
    fold conversation_id sender_id. rewrite Hs, He. reflexivity.
  - unfold handleSendMessage, bind, read, call.
    destruct (negb (truthy (trim (newMessage (ui w))))
              || negb (truthy_opt (selectedConversationId (ui w)))
              || negb (truthy_opt (currentUserId (ui w)))).
    + simpl. intros X. now elim X.
    + destruct (insert_message _ _ _ (backend w)) as [b' r] eqn:Hs.
      destruct (error r) as [e|] eqn:He.
      * simpl. intros X. now elim X.
      * intros _. exists b', r. auto.
Qed.

(** No object built by [format] has an [institution_id] or an
    [investor_id], so the search of [handleCreateConversation] through
    the loaded list finds nothing. *)
Lemma loaded_list_has_no_partner_ids (t : user_type) (partner : string)
    (user : option string) (rows : list conversation_row) :
  find (same_partner t partner) (map (format user) rows) = None.
Proof.
  induction rows as [|r rows IH]; simpl; [reflexivity |].
  destruct t; simpl; exact IH.
Qed.

(** With a loaded list, a partner picked and a user signed in, the handler
    always goes on to send the conversation insert. *)
Lemma handleCreateConversation_always_inserts (w : world state request B)
    (t : user_type) (rows : list conversation_row) :
  userType (ui w) = Some t ->
  truthy (selectedPartner (ui w)) = true ->
  truthy_opt (currentUserId (ui w)) = true ->
  conversations (ui w) = map (format (currentUserId (ui w))) rows ->
  exists v i, In (InsertConversation v i)
                 (requests (snd (handleCreateConversation w))).
Proof.
  intros Ht Gp Gu Hl. unfold handleCreateConversation, bind, read.
  rewrite Ht, Gp, Gu, Hl, loaded_list_has_no_partner_ids. simpl.
  destruct t; unfold call, ret; simpl.
  - destruct (select_investor_of _ (backend w)) as [b1 r1]. simpl.
    destruct (insert_conversation _ _ b1) as [b2 r2] eqn:E2.
    exists (or_else (data r1) ""), (selectedPartner (ui w)).
    destruct (error r2); simpl.
    + apply in_or_app. right. now left.
    + unfold loadConversations, bind, read, call. simpl.
      destruct (select_conversations b2) as [b3 r3].
      destruct (error r3), (data r2); simpl;
        rewrite ?in_app_iff; simpl; auto.
  - destruct (select_institution_of _ (backend w)) as [b1 r1]. simpl.
    destruct (insert_conversation _ _ b1) as [b2 r2] eqn:E2.
    exists (selectedPartner (ui w)), (or_else (data r1) "").
    destruct (error r2); simpl.
    + apply in_or_app. right. now left.
    + unfold loadConversations, bind, read, call. simpl.
      destruct (select_conversations b2) as [b3 r3].
      destruct (error r3), (data r2); simpl;
        rewrite ?in_app_iff; simpl; auto.
Qed.

End MessagesPage.

Section MessagesPageRuns.
Import Js Ui Messages.

Lemma backend_error_toasts_once_witness :
  @handleSendMessage unit failing (investor_session (Some "100"%string) "" " hi ")
  = (tt, mkWorld (ui (investor_session (Some "100"%string) "" " hi "))
           [mkToast "Error sending message" "permission denied" destructive]
           [InsertMessage "100" "2" "hi"]
           None tt).
Proof.
  apply (proj1 (proj2 (@backend_error_toasts_once unit failing
                         (investor_session (Some "100"%string) "" " hi ")))
           tt (mkResponse None (Some (mkError "permission denied")))
           (mkError "permission denied"));
    reflexivity.
Defined.

(** C7 fails for [handleCreateConversation]: with the conversation with
    institution "10" already in the loaded list, picking institution "10"
    sends a second insert for the same pair; the existing conversation is
    not opened, and the page shows the error of the unique constraint. *)
Theorem existing_partner_is_inserted_again :
  conversations (ui loaded_session)
  = [ [ ("id", VStr "100"); ("other_party_name", VStr "Hillside School");
        ("other_party_type", VStr "institution");
        ("updated_at", VStr "2025-11-07T14:17:02Z");
        ("is_online", VBool false) ]%string ]
  /\ let w := snd (@handleCreateConversation unit one_conversation
                     loaded_session) in
     requests w = [ SelectConversations; SelectInvestorOf "2";
                    InsertConversation "20" "10" ]
     /\ selectedConversationId (ui w) = None
     /\ toasts w = [ mkToast "Error"
                       "duplicate key value violates unique constraint"
                       destructive ].
Proof. vm_compute. repeat split. Qed.

End MessagesPageRuns.

(** ** The institutions list: first contact *)

Section InstitutionsListPage.
Import Js Ui InstitutionsList.
Context {B : Type} `{Backend B}.

(** When the lookup finds a conversation for the pair, the handler opens
    it and sends no insert. *)
Lemma handleContactInstitution_opens_existing
    (w : world unit request B) (institutionId u investor c : string)
    (b1 b2 b3 : B) (r : response string) (e : response string) :
  get_user (backend w) = (b1, Some u) ->
  select_investor_of u b1 = (b2, r) ->
  error r = None -> data r = Some investor ->
  select_conversation investor institutionId b2 = (b3, e) ->
  data e = Some c ->
  handleContactInstitution institutionId w
  = (tt, mkWorld (ui w) (toasts w)
           (requests w ++ [GetUser] ++ [SelectInvestorOf u]
              ++ [SelectConversation investor institutionId])
           (Some ("/messages?conversation=" ++ c)%string) b3).
Proof.
  intros Hu Hi He Hd Hc Hx.
  unfold handleContactInstitution, bind, call. rewrite Hu. simpl.
  rewrite Hi. simpl. rewrite He, Hd. simpl. rewrite Hc. simpl. rewrite Hx.
  unfold open_conversation, navigate. simpl.
  now rewrite <- !app_assoc.
Qed.

End InstitutionsListPage.

(** ** Dashboard figures *)

Section DashboardFigures.
Import Js.

Lemma of_nat_nonzero (n : nat) :
  n <> 0%nat -> is_zero (inject_Z (Z.of_nat n)) = false.
Proof.
  intros Hn. unfold is_zero.
  destruct (Qeq_bool (inject_Z (Z.of_nat n)) 0) eqn:E; [| reflexivity].
  apply Qeq_bool_iff in E. unfold Qeq in E. simpl in E. lia.
Qed.

Lemma of_nat_zero_test (n : nat) :
  is_zero (inject_Z (Z.of_nat n)) = true -> n = 0%nat.
Proof.
  intros E. destruct n; [reflexivity |].
  rewrite of_nat_nonzero in E; [discriminate | discriminate].
Qed.

Lemma Qle_bool_inject (a b : Z) :
  Qle_bool (inject_Z a) (inject_Z b) = true <-> (a <= b)%Z.
Proof. rewrite Qle_bool_iff, <- Zle_Qle. reflexivity. Qed.

(** Rounding, then the two clamps, lands in 0..100 whatever the blend. *)
Lemma clamp_round (q : Q) :
  exists z : Z,
    max (Fin 0) (min (Fin (100 # 1)) (round (Fin q))) = Fin (inject_Z z)
    /\ (0 <= z <= 100)%Z.
Proof.
  unfold round. set (k := Qfloor (q + (1 # 2))).
  unfold min.
  destruct (Qle_bool (100 # 1)%Q (inject_Z k)) eqn:E1.
  - exists 100%Z. split; [reflexivity | lia].
  - unfold max.
    destruct (Qle_bool 0 (inject_Z k)) eqn:E2.
    + exists k. split; [reflexivity |].
      apply (Qle_bool_inject 0 k) in E2.
      assert (~ (100 <= k)%Z).
      { intros L. apply (Qle_bool_inject 100 k) in L.
        change (inject_Z 100) with (100 # 1)%Q in L. congruence. }
      lia.
    + exists 0%Z. split; [reflexivity | lia].
Qed.

(** C9. Whatever conversations and messages the analytics are given, the
    engagement score is a whole number from 0 to 100. *)
Theorem engagementScore_bounded
    (conversations : list InstitutionAnalytics.Conversation)
    (messages : list InstitutionAnalytics.Message) :
  exists z : Z,
    InstitutionAnalytics.engagementScore
      (InstitutionAnalytics.metrics conversations messages)
    = Fin (inject_Z z)
    /\ (0 <= z <= 100)%Z.
Proof.
  unfold InstitutionAnalytics.metrics.
  cbn [InstitutionAnalytics.engagementScore].
  unfold of_nat, truthy_number.
  destruct (is_zero (inject_Z (Z.of_nat (List.length conversations)))) eqn:E;
    cbn [negb div mul add sub neg]; [| rewrite E]; apply clamp_round.
Qed.

(** Three unread messages and no conversation: the blend is -3, the score 0. *)
Example engagementScore_negative_blend :
  InstitutionAnalytics.engagementScore
    (InstitutionAnalytics.metrics []
       [ InstitutionAnalytics.mkMessage "m1" "c1" "2025-11-01" false;
         InstitutionAnalytics.mkMessage "m2" "c1" "2025-11-02" false;
         InstitutionAnalytics.mkMessage "m3" "c1" "2025-11-03" false ])
  = Fin 0.
Proof. reflexivity. Qed.

(** C10. [processReportData] divides only by a count it has found to be
    positive: with no donations the average is 0, with no conversations
    the conversion rate is 0, and otherwise they are the total amount over
    the number of donations, and the number of donations over the number
    of conversations times 100, the divisor being non-zero each time. *)
Theorem processReportData_guards_division {C M : Type}
    (donations : list InstitutionReports.donation_row)
    (conversations : list C) (messages : list M) :
  let r := InstitutionReports.processReportData donations conversations
                                                messages in
  (donations = [] -> InstitutionReports.averageDonation r = Fin 0)
  /\ (conversations = [] -> InstitutionReports.conversionRate r = Fin 0)
  /\ (donations <> [] ->
      InstitutionReports.averageDonation r
      = div (InstitutionReports.totalAmount r)
            (of_nat (InstitutionReports.totalDonations r))
      /\ InstitutionReports.totalDonations r = List.length donations
      /\ truthy_number (of_nat (List.length donations)) = true)
  /\ (conversations <> [] ->
      InstitutionReports.conversionRate r
      = mul (div (of_nat (InstitutionReports.totalDonations r))
                 (of_nat (List.length conversations)))
            (Fin (100 # 1))
      /\ truthy_number (of_nat (List.length conversations)) = true)
  /\ (exists q, InstitutionReports.conversionRate r = Fin q)
  /\ (forall a, InstitutionReports.totalAmount r = Fin a ->
                exists q, InstitutionReports.averageDonation r = Fin q).
Proof.
  unfold InstitutionReports.processReportData. simpl.
  split; [| split; [| split; [| split; [| split]]]].
  - intros ->. reflexivity.
  - intros ->. reflexivity.
  - intros Hne. destruct donations as [|d ds]; [contradiction |].
    split; [reflexivity |]. split; [reflexivity |].
    unfold truthy_number, of_nat. now rewrite of_nat_nonzero.
  - intros Hne. destruct conversations as [|c cs]; [contradiction |].
    split; [reflexivity |].
    unfold truthy_number, of_nat. now rewrite of_nat_nonzero.
  - destruct conversations as [|c cs]; [now exists 0%Q |].
    cbn [List.length Nat.ltb Nat.leb]. unfold of_nat, div.
    rewrite of_nat_nonzero by discriminate. cbn [mul]. eauto.
  - intros a Ha. destruct donations as [|d ds]; [now exists 0%Q |].
    cbn [List.length Nat.ltb Nat.leb]. rewrite Ha. unfold of_nat, div.
    rewrite of_nat_nonzero by discriminate. eauto.
Qed.

Lemma processReportData_guards_division_witness :
  InstitutionReports.averageDonation
    (InstitutionReports.processReportData
       [ InstitutionReports.mkDonationRow (Fin (30 # 1)) "2025-11-01";
         InstitutionReports.mkDonationRow (Fin (50 # 1)) "2025-11-02" ]
       [tt; tt; tt; tt] ([] : list unit))
  = div (Fin (0 + (30 # 1) + (50 # 1))) (Fin (2 # 1))
  /\ InstitutionReports.conversionRate
       (InstitutionReports.processReportData
          ([] : list InstitutionReports.donation_row) ([] : list unit)
          ([] : list unit))
     = Fin 0.
Proof.
  split.
  - apply (proj1 (proj2 (proj2 (processReportData_guards_division
       [ InstitutionReports.mkDonationRow (Fin (30 # 1)) "2025-11-01";
         InstitutionReports.mkDonationRow (Fin (50 # 1)) "2025-11-02" ]
       [tt; tt; tt; tt] ([] : list unit))))).
    discriminate.
  - apply (proj1 (proj2 (processReportData_guards_division
       ([] : list InstitutionReports.donation_row) ([] : list unit)
       ([] : list unit)))).
    reflexivity.
Defined.

End DashboardFigures.

(** ** Ownership, message references and checked columns *)

Section OwnershipInvariants.
Import Sql.

Lemma exists_same_keys {A} (key : A -> N) (l l' : list A) (x : N) :
  map key l' = map key l ->
  existsb (fun r => N.eqb (key r) x) l = true ->
  existsb (fun r => N.eqb (key r) x) l' = true.
Proof.
  intros E H. apply existsb_key. rewrite E. now apply existsb_key.
Qed.

Lemma owned_empty : owned empty_db.
Proof.
  constructor; simpl; try (intros ? []); constructor.
Qed.

Lemma insert_profile_owned (p : profile) (d d' : db) :
  owned d -> insert_profile p d = Some d' -> owned d'.
Proof.
  intros [O1 O2 O3 O4 O5 O6 O7 O8]. unfold insert_profile.
  destruct (_ && _) eqn:E; [| discriminate].
  intros X; inversion X; subst; clear X.
  apply andb_true_iff in E. destruct E as [E Cs].
  apply andb_true_iff in E. destruct E as [_ Ct].
  constructor; unfold profile_exists, conversation_exists in *; simpl; auto.
  - intros i Hi. apply exists_snoc. now apply O1.
  - intros v Hv. apply exists_snoc. now apply O3.
  - intros m Hm. apply exists_snoc. now apply O6.
  - intros q Hq. apply in_app_iff in Hq.
    destruct Hq as [Hq | [<- | []]]; auto.
Qed.

Lemma insert_institution_owned (i : institution) (d d' : db) :
  owned d -> insert_institution i d = Some d' -> owned d'.
Proof.
  intros [O1 O2 O3 O4 O5 O6 O7 O8]. unfold insert_institution.
  destruct (_ && _) eqn:E; [| discriminate].
  intros X; inversion X; subst; clear X.
  apply andb_true_iff in E. destruct E as [E Hu].
  apply andb_true_iff in E. destruct E as [_ Hp].
  constructor; unfold profile_exists, conversation_exists in *; simpl; auto.
  - intros j Hj. apply in_app_iff in Hj.
    destruct Hj as [Hj | [<- | []]]; auto.
  - apply NoDup_snoc; [assumption |].
    apply existsb_key_false. now apply negb_true_iff.
Qed.

Lemma insert_investor_owned (v : investor) (d d' : db) :
  owned d -> insert_investor v d = Some d' -> owned d'.
Proof.
  intros [O1 O2 O3 O4 O5 O6 O7 O8]. unfold insert_investor.
  destruct (_ && _) eqn:E; [| discriminate].
  intros X; inversion X; subst; clear X.
  apply andb_true_iff in E. destruct E as [E Hu].
  apply andb_true_iff in E. destruct E as [E Hc].
  apply andb_true_iff in E. destruct E as [_ Hp].
  constructor; unfold profile_exists, conversation_exists in *; simpl; auto.
  - intros w Hw. apply in_app_iff in Hw.
    destruct Hw as [Hw | [<- | []]]; auto.
  - apply NoDup_snoc; [assumption |].
    apply existsb_key_false. now apply negb_true_iff.
  - intros w Hw. apply in_app_iff in Hw.
    destruct Hw as [Hw | [<- | []]]; auto.
Qed.

Lemma insert_conversation_owned (c : conversation) (d d' : db) :
  owned d -> insert_conversation c d = Some d' -> owned d'.
Proof.
  intros [O1 O2 O3 O4 O5 O6 O7 O8]. unfold insert_conversation.
  destruct (_ && _); [| discriminate].
  intros X; inversion X; subst; clear X.
  constructor; unfold profile_exists, conversation_exists in *; simpl; auto.
  intros m Hm. apply exists_snoc. now apply O5.
Qed.

Lemma insert_message_owned now (m : message) (d d' : db) :
  owned d -> insert_message now m d = Some d' -> owned d'.
Proof.
  intros [O1 O2 O3 O4 O5 O6 O7 O8]. unfold insert_message.
  destruct (_ && _) eqn:E; [| discriminate].
  intros X; inversion X; subst; clear X.
  apply andb_true_iff in E. destruct E as [E Hp].
  apply andb_true_iff in E. destruct E as [_ Hc].
  assert (K : forall x, conversation_exists d x = true ->
                existsb (fun r => N.eqb (c_id r) x)
                  (map (fun c => if N.eqb (c_id c) (m_conversation_id m)
                                 then touch now c else c) (conversations d))
                = true).
  { intros x. apply exists_same_keys. apply map_key_stable.
    intros c. destruct (N.eqb (c_id c) (m_conversation_id m)); reflexivity. }
  constructor; unfold profile_exists, conversation_exists in *; simpl; auto.
  - intros x Hx. apply K. apply in_app_iff in Hx.
    destruct Hx as [Hx | [<- | []]]; auto.
  - intros x Hx. apply in_app_iff in Hx.
    destruct Hx as [Hx | [<- | []]]; auto.
Qed.

Lemma insert_user_role_owned (r : user_role) (d d' : db) :
  owned d -> insert_user_role r d = Some d' -> owned d'.
Proof.
  intros [O1 O2 O3 O4 O5 O6 O7 O8]. unfold insert_user_role.
  destruct (negb _); [| discriminate].
  intros X; inversion X; subst; clear X.
  constructor; unfold profile_exists, conversation_exists in *; simpl; auto.
Qed.

Lemma insert_donation_owned (r : donation) (d d' : db) :
  owned d -> insert_donation r d = Some d' -> owned d'.
Proof.
  intros [O1 O2 O3 O4 O5 O6 O7 O8]. unfold insert_donation.
  destruct (_ && _); [| discriminate].
  intros X; inversion X; subst; clear X.
  constructor; unfold profile_exists, conversation_exists in *; simpl; auto.
Qed.

Lemma update_profile_owned now (id : uuid) (p : profile) (d d' : db) :
  owned d -> update_profile now id p d = Some d' -> owned d'.
Proof.
  intros O. unfold update_profile.
  destruct (negb _); [intros X; inversion X; subst; exact O |].
  destruct (_ && _) eqn:E; [| discriminate].
  intros X; inversion X; subst; clear X.
  apply andb_true_iff in E. destruct E as [Ct Cs].
  destruct O as [O1 O2 O3 O4 O5 O6 O7 O8].
  assert (K : forall x, profile_exists d x = true ->
                existsb (fun r => N.eqb (p_id r) x)
                  (map (fun x0 => if N.eqb (p_id x0) id
                                  then stamp_profile now (rekey_profile id p)
                                  else x0) (profiles d)) = true).
  { intros x. apply exists_same_keys. apply map_key_stable.
    intros q. destruct (N.eqb (p_id q) id) eqn:E; [| reflexivity].
    apply N.eqb_eq in E. simpl. congruence. }
  constructor; unfold profile_exists, conversation_exists in *; simpl; auto.
  intros q Hq. apply In_map_cases in Hq.
  destruct Hq as [x [Hx [-> | [_ ->]]]]; auto.
Qed.

Lemma update_conversation_owned id inst inv (d d' : db) :
  owned d -> update_conversation id inst inv d = Some d' -> owned d'.
Proof.
  intros O. unfold update_conversation.
  destruct (negb _); [intros X; inversion X; subst; exact O |].
  destruct (conversation_row_ok _ _ _ _); [| discriminate].
  intros X; inversion X; subst; clear X.
  destruct O as [O1 O2 O3 O4 O5 O6 O7 O8].
  constructor; unfold profile_exists, conversation_exists in *; simpl; auto.
  intros m Hm. apply (exists_same_keys c_id (conversations d)); auto.
  apply map_key_stable. intros c. unfold repoint.
  destruct (N.eqb (c_id c) id); reflexivity.
Qed.

Lemma update_donation_owned now id (r : donation) (d d' : db) :
  owned d -> update_donation now id r d = Some d' -> owned d'.
Proof.
  intros O. unfold update_donation.
  destruct (negb _); [intros X; inversion X; subst; exact O |].
  destruct (donation_row_ok _ _); [| discriminate].
  intros X; inversion X; subst; clear X.
  destruct O as [O1 O2 O3 O4 O5 O6 O7 O8].
  constructor; unfold profile_exists, conversation_exists in *; simpl; auto.
Qed.

Lemma in_dead (l : list uuid) (x : uuid) :
  existsb (N.eqb x) l = true <-> In x l.
Proof. exact (mem_id_spec l x). Qed.

Lemma cascade_owned (dead_prof dead_inst dead_inv : list uuid)
    (gp : profile -> bool) (gi : institution -> bool) (gv : investor -> bool)
    (d : db) :
  owned d ->
  (forall p, In p (profiles d) -> gp p = false -> In (p_id p) dead_prof) ->
  (forall i p, In i (institutions d) -> gi i = true ->
               In p (profiles d) -> p_id p = i_user_id i -> gp p = true) ->
  (forall v p, In v (investors d) -> gv v = true ->
               In p (profiles d) -> p_id p = inv_user_id v -> gp p = true) ->
  let d1 := cascade dead_prof dead_inst dead_inv d in
  owned (mkDb (filter gp (profiles d1)) (filter gi (institutions d1))
              (filter gv (investors d1)) (conversations d1)
              (messages d1) (user_roles d1) (donations d1)).
Proof.
  intros [O1 O2 O3 O4 O5 O6 O7 O8] Hp Hi Hv d1. subst d1.
  constructor; unfold profile_exists, conversation_exists in *; simpl.
  - intros i Hin. apply filter_In in Hin. destruct Hin as [Hin G].
    apply exists_filter; [| now apply O1].
    intros p Hpin E. now apply (Hi i p).
  - now apply NoDup_map_filter.
  - intros v Hin. apply filter_In in Hin. destruct Hin as [Hin G].
    apply exists_filter; [| now apply O3].
    intros p Hpin E. now apply (Hv v p).
  - now apply NoDup_map_filter.
  - intros m Hin. apply filter_In in Hin. destruct Hin as [Hin G].
    apply negb_true_iff, orb_false_iff in G. destruct G as [G _].
    apply exists_filter; [| now apply O5].
    intros c Hc E.
    destruct (negb (mem_id dead_inst (c_institution_id c)
                    || mem_id dead_inv (c_investor_id c))) eqn:K;
      [reflexivity | exfalso].
    apply negb_false_iff in K.
    assert (X : existsb (N.eqb (m_conversation_id m))
                  (map c_id (filter (fun c => mem_id dead_inst (c_institution_id c)
                                || mem_id dead_inv (c_investor_id c))
                                    (conversations d))) = true).
    { apply in_dead. rewrite <- E. apply in_map. apply filter_In. auto. }
    congruence.
  - intros m Hin. apply filter_In in Hin. destruct Hin as [Hin G].
    apply negb_true_iff, orb_false_iff in G. destruct G as [_ G].
    apply exists_filter; [| now apply O6].
    intros p Hpin E. destruct (gp p) eqn:K; [reflexivity | exfalso].
    assert (X : existsb (N.eqb (m_sender_id m)) dead_prof = true).
    { apply in_dead. rewrite <- E. now apply Hp. }
    congruence.
  - intros p Hin. apply filter_In in Hin. now apply O7.
  - intros v Hin. apply filter_In in Hin. now apply O8.
Qed.

Lemma delete_profile_owned (id : uuid) (d : db) :
  owned d -> owned (delete_profile id d).
Proof.
  intros O. unfold delete_profile. apply cascade_owned; [exact O | | |].
  - intros p _ G. apply negb_false_iff, N.eqb_eq in G. now left.
  - intros i p _ G _ E. rewrite E. exact G.
  - intros v p _ G _ E. rewrite E. exact G.
Qed.

Lemma delete_institution_owned (id : uuid) (d : db) :
  owned d -> owned (delete_institution id d).
Proof.
  intros O.
  pose proof (cascade_owned [] [id] [] (fun _ => true)
                (fun i => negb (N.eqb (i_id i) id)) (fun _ => true) d O) as K.
  simpl in K. rewrite !filter_all in K. apply K; auto; discriminate.
Qed.

Lemma delete_investor_owned (id : uuid) (d : db) :
  owned d -> owned (delete_investor id d).
Proof.
  intros O.
  pose proof (cascade_owned [] [] [id] (fun _ => true) (fun _ => true)
                (fun v => negb (N.eqb (inv_id v) id)) d O) as K.
  simpl in K. rewrite !filter_all in K. apply K; auto; discriminate.
Qed.

Lemma delete_conversation_owned (id : uuid) (d : db) :
  owned d -> owned (delete_conversation id d).
Proof.
  intros [O1 O2 O3 O4 O5 O6 O7 O8].
  constructor; unfold profile_exists, conversation_exists in *; simpl; auto.
  - intros m Hin. apply filter_In in Hin. destruct Hin as [Hin G].
    apply exists_filter; [| now apply O5].
    intros c _ E. now rewrite E.
  - intros m Hin. apply filter_In in Hin. now apply O6.
Qed.

Lemma delete_message_owned (id : uuid) (d : db) :
  owned d -> owned (delete_message id d).
Proof.
  intros [O1 O2 O3 O4 O5 O6 O7 O8].
  constructor; unfold profile_exists, conversation_exists in *; simpl; auto.
  - intros m Hin. apply filter_In in Hin. now apply O5.
  - intros m Hin. apply filter_In in Hin. now apply O6.
Qed.

Lemma delete_donation_owned (id : uuid) (d : db) :
  owned d -> owned (delete_donation id d).
Proof.
  intros [O1 O2 O3 O4 O5 O6 O7 O8].
  constructor; unfold profile_exists, conversation_exists in *; simpl; auto.
Qed.

Lemma execute_owned (s : statement) (d d' : db) :
  owned d -> execute s d = Some d' -> owned d'.
Proof.
  intros O. destruct s; simpl; intros E;
    try (inversion E; subst; clear E).
  - eapply insert_profile_owned; eauto.
  - eapply insert_institution_owned; eauto.
  - eapply insert_investor_owned; eauto.
  - eapply insert_conversation_owned; eauto.
  - eapply insert_message_owned; eauto.
  - eapply insert_user_role_owned; eauto.
  - eapply insert_donation_owned; eauto.
  - eapply update_profile_owned; eauto.
  - eapply update_conversation_owned; eauto.
  - eapply update_donation_owned; eauto.
  - now apply delete_profile_owned.
  - now apply delete_institution_owned.
  - now apply delete_investor_owned.
  - now apply delete_conversation_owned.
  - now apply delete_message_owned.
  - now apply delete_donation_owned.
Qed.

Lemma reachable_owned (d : db) : reachable d -> owned d.
Proof.
  induction 1 as [| s d d' _ IH E].
  - apply owned_empty.
  - exact (execute_owned s d d' IH E).
Qed.

End OwnershipInvariants.

(** ** Further guarantees of the schema *)

Section SchemaExtras.
Import Sql.

(** In every reachable state each institution row and each investor row
    belongs to exactly one existing profile, and no profile owns two
    institution rows or two investor rows. *)
Theorem one_extension_row_per_profile (d : db) :
  reachable d ->
  (forall i, In i (institutions d) ->
     exists p, In p (profiles d) /\ p_id p = i_user_id i
               /\ forall q, In q (profiles d) -> p_id q = i_user_id i -> q = p)
  /\ (forall i1 i2, In i1 (institutions d) -> In i2 (institutions d) ->
        i_user_id i1 = i_user_id i2 -> i1 = i2)
  /\ (forall v, In v (investors d) ->
        exists p, In p (profiles d) /\ p_id p = inv_user_id v
                  /\ forall q, In q (profiles d) -> p_id q = inv_user_id v -> q = p)
  /\ (forall v1 v2, In v1 (investors d) -> In v2 (investors d) ->
        inv_user_id v1 = inv_user_id v2 -> v1 = v2).
Proof.
  intros Hr. pose proof (reachable_consistent d Hr) as C.
  pose proof (reachable_owned d Hr) as O.
  destruct C as [Hp _ _ _ _ _ _]. destruct O as [O1 O2 O3 O4 _ _ _ _].
  split; [| split; [| split]].
  - intros i Hi. destruct (exists_row p_id _ _ (O1 i Hi)) as [p [Hin E]].
    exists p. repeat split; auto.
    intros q Hq Eq. apply (key_unique p_id (profiles d)); auto. congruence.
  - intros i1 i2 H1 H2 E. exact (key_unique i_user_id _ i1 i2 O2 H1 H2 E).
  - intros v Hv. destruct (exists_row p_id _ _ (O3 v Hv)) as [p [Hin E]].
    exists p. repeat split; auto.
    intros q Hq Eq. apply (key_unique p_id (profiles d)); auto. congruence.
  - intros v1 v2 H1 H2 E. exact (key_unique inv_user_id _ v1 v2 O4 H1 H2 E).
Qed.

Lemma one_extension_row_per_profile_witness :
  reachable demo_db
  /\ forall i1 i2, In i1 (institutions demo_db) -> In i2 (institutions demo_db) ->
                   i_user_id i1 = i_user_id i2 -> i1 = i2.
Proof.
  split; [exact demo_reachable |].
  exact (proj1 (proj2 (one_extension_row_per_profile demo_db demo_reachable))).
Defined.

(** In every reachable state each message belongs to exactly one existing
    conversation and was sent by exactly one existing profile: the cascades
    leave no message behind. *)
Theorem messages_keep_their_references (d : db) :
  reachable d ->
  forall m, In m (messages d) ->
    (exists c, In c (conversations d) /\ c_id c = m_conversation_id m
               /\ forall c0, In c0 (conversations d) ->
                             c_id c0 = m_conversation_id m -> c0 = c)
    /\ (exists p, In p (profiles d) /\ p_id p = m_sender_id m
                  /\ forall q, In q (profiles d) ->
                               p_id q = m_sender_id m -> q = p).
Proof.
  intros Hr m Hm. pose proof (reachable_consistent d Hr) as C.
  pose proof (reachable_owned d Hr) as O.
  destruct C as [Hp _ _ Hc _ _ _]. destruct O as [_ _ _ _ O5 O6 _ _].
  split.
  - destruct (exists_row c_id _ _ (O5 m Hm)) as [c [Hin E]].
    exists c. repeat split; auto.
    intros c0 H0 E0. apply (key_unique c_id (conversations d)); auto. congruence.
  - destruct (exists_row p_id _ _ (O6 m Hm)) as [p [Hin E]].
    exists p. repeat split; auto.
    intros q Hq Eq. apply (key_unique p_id (profiles d)); auto. congruence.
Qed.

Lemma messages_keep_their_references_witness :
  exists c, In c (conversations demo_db) /\ c_id c = 100%N.
Proof.
  destruct (messages_keep_their_references demo_db demo_reachable
              (mkMessage 1000 100 2 "hello" false 9)) as [[c [H1 [H2 _]]] _].
  - simpl. auto.
  - exists c. split; assumption.
Defined.

Lemma user_type_listed (s : string) :
  check_user_type s = true <->
  (s = "institution" \/ s = "investor" \/ s = "admin")%string.
Proof.
  unfold check_user_type. rewrite !orb_true_iff, !String.eqb_eq. tauto.
Qed.

Lemma verification_status_listed (s : string) :
  check_verification_status s = true <->
  (s = "pending" \/ s = "verified" \/ s = "rejected")%string.
Proof.
  unfold check_verification_status. rewrite !orb_true_iff, !String.eqb_eq. tauto.
Qed.

(** In every reachable state each profile has a user_type among
    'institution', 'investor' and 'admin' and a verification_status among
    'pending', 'verified' and 'rejected'; an insert of a profile outside
    these, and an update that would put an existing profile outside them, is
    refused. *)
Theorem profiles_keep_their_checks (d : db) :
  reachable d ->
  (forall p, In p (profiles d) ->
     (p_user_type p = "institution" \/ p_user_type p = "investor"
      \/ p_user_type p = "admin")%string
     /\ (p_verification_status p = "pending"
         \/ p_verification_status p = "verified"
         \/ p_verification_status p = "rejected")%string)
  /\ (forall p, check_user_type (p_user_type p) = false
                \/ check_verification_status (p_verification_status p) = false ->
        insert_profile p d = None
        /\ forall now id, In id (map p_id (profiles d)) ->
                          update_profile now id p d = None).
Proof.
  intros Hr. pose proof (reachable_owned d Hr) as O. split.
  - intros p Hp. destruct (profiles_checked d O p Hp) as [T S].
    split; [now apply user_type_listed | now apply verification_status_listed].
  - intros p Hbad. split.
    + unfold insert_profile.
      destruct Hbad as [-> | ->]; now rewrite ?andb_false_r.
    + intros now id Hid. unfold update_profile.
      apply existsb_key in Hid. unfold profile_exists. rewrite Hid. simpl.
      destruct Hbad as [-> | ->]; now rewrite ?andb_false_r.
Qed.

Lemma profiles_keep_their_checks_witness :
  insert_profile (mkProfile 9 "x@example.org" None "investor" "approved" 0)
                 demo_db = None.
Proof.
  apply (proj2 (profiles_keep_their_checks demo_db demo_reachable)).
  right. reflexivity.
Defined.

End SchemaExtras.

(** ** Deleting and re-creating rows *)

Section Cascades.
Import Sql.

Lemma filter_keeps_all {A} (g : A -> bool) (l : list A) :
  (forall x, In x l -> g x = true) -> filter g l = l.
Proof.
  induction l as [|a l IH]; simpl; intros H; [reflexivity |].
  rewrite (H a (or_introl eq_refl)). f_equal. apply IH. auto.
Qed.

(** Deleting a profile removes exactly the profile, the institution and
    investor rows it owns, the conversations and donations of those rows,
    the messages of those conversations and the messages the profile sent.
    Every other row stays, in its place, and the roles are untouched. *)
Theorem delete_profile_removes_exactly_its_cascade (d : db) (id : uuid) :
  reachable d ->
  let d' := delete_profile id d in
  profiles d' = filter (fun p => negb (N.eqb (p_id p) id)) (profiles d)
  /\ institutions d'
     = filter (fun i => negb (N.eqb (i_user_id i) id)) (institutions d)
  /\ investors d'
     = filter (fun v => negb (N.eqb (inv_user_id v) id)) (investors d)
  /\ user_roles d' = user_roles d
  /\ (exists g, conversations d' = filter g (conversations d))
  /\ (forall c, In c (conversations d') <->
        In c (conversations d)
        /\ forall i v,
             In i (institutions d) -> c_institution_id c = Some (i_id i) ->
             In v (investors d) -> c_investor_id c = Some (inv_id v) ->
             i_user_id i <> id /\ inv_user_id v <> id)
  /\ (exists g, messages d' = filter g (messages d))
  /\ (forall m, In m (messages d') <->
        In m (messages d)
        /\ m_sender_id m <> id
        /\ forall c, In c (conversations d) -> c_id c = m_conversation_id m ->
                     In c (conversations d'))
  /\ (exists g, donations d' = filter g (donations d))
  /\ (forall r, In r (donations d') <->
        In r (donations d)
        /\ forall i v,
             In i (institutions d) -> d_institution_id r = Some (i_id i) ->
             In v (investors d) -> d_investor_id r = Some (inv_id v) ->
             i_user_id i <> id /\ inv_user_id v <> id).
Proof.
  intros Hr d'. pose proof (reachable_consistent d Hr) as C.
  destruct C as [_ Hi Hv _ Hfk _ Hd]. subst d'. unfold delete_profile.
  set (dead_inst := map i_id (filter (fun i => N.eqb (i_user_id i) id)
                                     (institutions d))).
  set (dead_inv := map inv_id (filter (fun v => N.eqb (inv_user_id v) id)
                                      (investors d))).
  assert (Di : forall i, In i (institutions d) ->
                 (mem_id dead_inst (Some (i_id i)) = true <-> i_user_id i = id)).
  { intros i Ii. rewrite mem_id_spec. unfold dead_inst. rewrite in_map_iff.
    split.
    - intros [j [Ej Hj]]. apply filter_In in Hj. destruct Hj as [Hj G].
      apply N.eqb_eq in G.
      assert (j = i) by (apply (key_unique i_id (institutions d)); auto).
      now subst j.
    - intros E. exists i. split; [reflexivity |]. apply filter_In.
      split; [assumption | now apply N.eqb_eq]. }
  assert (Dv : forall v, In v (investors d) ->
                 (mem_id dead_inv (Some (inv_id v)) = true <-> inv_user_id v = id)).
  { intros v Iv. rewrite mem_id_spec. unfold dead_inv. rewrite in_map_iff.
    split.
    - intros [w [Ew Hw]]. apply filter_In in Hw. destruct Hw as [Hw G].
      apply N.eqb_eq in G.
      assert (w = v) by (apply (key_unique inv_id (investors d)); auto).
      now subst w.
    - intros E. exists v. split; [reflexivity |]. apply filter_In.
      split; [assumption | now apply N.eqb_eq]. }
  assert (Alive : forall a b,
            (exists i, In i (institutions d) /\ a = Some (i_id i)) ->
            (exists v, In v (investors d) /\ b = Some (inv_id v)) ->
            (negb (mem_id dead_inst a || mem_id dead_inv b) = true <->
             forall i v, In i (institutions d) -> a = Some (i_id i) ->
                         In v (investors d) -> b = Some (inv_id v) ->
                         i_user_id i <> id /\ inv_user_id v <> id)).
  { intros a b [i0 [Ii0 Ea]] [v0 [Iv0 Eb]].
    rewrite negb_true_iff, orb_false_iff. split.
    - intros [Ka Kb] i v Ii Ei Iv Ev. subst a b. split; intros E.
      + apply (Di i Ii) in E. congruence.
      + apply (Dv v Iv) in E. congruence.
    - intros H. destruct (H i0 v0 Ii0 Ea Iv0 Eb) as [Ni Nv]. subst a b. split.
      + destruct (mem_id dead_inst (Some (i_id i0))) eqn:K; [| reflexivity].
        apply (Di i0 Ii0) in K. contradiction.
      + destruct (mem_id dead_inv (Some (inv_id v0))) eqn:K; [| reflexivity].
        apply (Dv v0 Iv0) in K. contradiction. }
  assert (Conv : forall c, In c (conversations d) ->
            (negb (mem_id dead_inst (c_institution_id c)
                   || mem_id dead_inv (c_investor_id c)) = true <->
             forall i v, In i (institutions d) -> c_institution_id c = Some (i_id i) ->
                         In v (investors d) -> c_investor_id c = Some (inv_id v) ->
                         i_user_id i <> id /\ inv_user_id v <> id)).
  { intros c Ic. destruct (Hfk c Ic) as [i [v [Ei [Ev [Xi Xv]]]]].
    apply exists_row in Xi. destruct Xi as [ri [Iri Eri]].
    apply exists_row in Xv. destruct Xv as [rv [Irv Erv]].
    apply Alive; [exists ri | exists rv]; split; auto; congruence. }
  simpl.
  split; [reflexivity |]. split; [reflexivity |]. split; [reflexivity |].
  split; [reflexivity |]. split; [eexists; reflexivity |].
  split; [| split; [eexists; reflexivity |]];
    [| split; [| split; [eexists; reflexivity |]]].
  - intros c. rewrite filter_In. split.
    + intros [Ic K]. split; [assumption |]. now apply (Conv c Ic).
    + intros [Ic K]. split; [assumption |]. now apply (Conv c Ic).
  - intros m. rewrite filter_In, negb_true_iff, orb_false_iff. split.
    + intros [Im [Kc Ks]]. split; [assumption |]. split.
      * simpl in Ks. rewrite orb_false_r in Ks. apply N.eqb_neq in Ks. congruence.
      * intros c Ic Ec. apply filter_In. split; [assumption |].
        destruct (negb (mem_id dead_inst (c_institution_id c)
                        || mem_id dead_inv (c_investor_id c))) eqn:K;
          [reflexivity | exfalso].
        apply negb_false_iff in K.
        assert (X : existsb (N.eqb (m_conversation_id m))
                      (map c_id (filter (fun c => mem_id dead_inst (c_institution_id c)
                                    || mem_id dead_inv (c_investor_id c))
                                        (conversations d))) = true).
        { apply in_dead. rewrite <- Ec. apply in_map. apply filter_In. auto. }
        congruence.
    + intros [Im [Ns Hc]]. split; [assumption |]. split.
      * destruct (existsb (N.eqb (m_conversation_id m)) _) eqn:K;
          [exfalso | reflexivity].
        apply in_dead, in_map_iff in K. destruct K as [c [Ec Hin]].
        apply filter_In in Hin. destruct Hin as [Ic Dead].
        pose proof (Hc c Ic Ec) as Keep. apply filter_In in Keep.
        destruct Keep as [_ Keep]. rewrite Dead in Keep. discriminate.
      * simpl. rewrite orb_false_r. apply N.eqb_neq. congruence.
  - intros r. rewrite filter_In.
    assert (Don : In r (donations d) ->
              (negb (mem_id dead_inst (d_institution_id r)
                     || mem_id dead_inv (d_investor_id r)) = true <->
               forall i v, In i (institutions d) -> d_institution_id r = Some (i_id i) ->
                           In v (investors d) -> d_investor_id r = Some (inv_id v) ->
                           i_user_id i <> id /\ inv_user_id v <> id)).
    { intros Ir. pose proof (Hd r Ir) as Ok. apply donation_row_ok_valid in Ok.
      destruct Ok as [a [s [v [i [_ [_ [_ [_ [Ev [[w [Iw Ew]] [Ei [j [Ij Ej]]]]]]]]]]]]].
      apply Alive; [exists j | exists w]; split; auto; congruence. }
    split.
    + intros [Ir K]. split; [assumption |]. now apply Don.
    + intros [Ir K]. split; [assumption |]. now apply Don.
Qed.

Lemma delete_profile_removes_exactly_its_cascade_witness :
  reachable demo_db
  /\ messages (delete_profile 1 demo_db) = []
  /\ (forall m, In m (messages (delete_profile 1 demo_db)) <->
        In m (messages demo_db)
        /\ m_sender_id m <> 1%N
        /\ forall c, In c (conversations demo_db) ->
                     c_id c = m_conversation_id m ->
                     In c (conversations (delete_profile 1 demo_db))).
Proof.
  split; [exact demo_reachable |]. split; [reflexivity |].
  pose proof (delete_profile_removes_exactly_its_cascade demo_db 1
                demo_reachable) as K.
  exact (proj1 (proj2 (proj2 (proj2 (proj2 (proj2 (proj2 (proj2 K)))))))).
Defined.

(** Deleting a conversation right after it was created gives back the state
    before the insert: no message can already hang on the new id. *)
Theorem delete_undoes_insert_conversation (d d' : db) (c : conversation) :
  reachable d ->
  insert_conversation c d = Some d' ->
  delete_conversation (c_id c) d' = d.
Proof.
  intros Hr. pose proof (reachable_owned d Hr) as O.
  unfold insert_conversation.
  destruct (negb (conversation_exists d (c_id c))) eqn:Epk; simpl; [| discriminate].
  destruct (conversation_row_ok _ _ _ _); [| discriminate].
  intros X; inversion X; subst; clear X.
  apply negb_true_iff in Epk.
  unfold delete_conversation. simpl.
  rewrite filter_app. simpl. rewrite N.eqb_refl. simpl. rewrite app_nil_r.
  rewrite (filter_keeps_all _ (conversations d)).
  - rewrite (filter_keeps_all _ (messages d)); [destruct d; reflexivity |].
    intros m Hm. apply negb_true_iff, N.eqb_neq. intros E.
    pose proof (messages_conversation d O m Hm) as K. congruence.
  - intros x Hx. apply negb_true_iff, N.eqb_neq. intros E.
    assert (K : conversation_exists d (c_id c) = true).
    { rewrite <- E. apply (row_exists c_id). exact Hx. }
    congruence.
Qed.

Lemma delete_undoes_insert_conversation_witness :
  exists d',
    insert_conversation (mkConversation 101 (Some 10%N) (Some 21%N) 6 6) demo_db
    = Some d'
    /\ delete_conversation 101 d' = demo_db.
Proof.
  eexists. split; [vm_compute; reflexivity |].
  apply (delete_undoes_insert_conversation demo_db _
           (mkConversation 101 (Some 10%N) (Some 21%N) 6 6) demo_reachable).
  vm_compute. reflexivity.
Defined.

End Cascades.

(** ** Row-level security: how the policies compose *)

Section PolicyComposition.
Import Sql Rls.

(** A conversation that a caller is allowed to create is one the caller can
    read afterwards and send messages in under its own id. *)
Theorem creator_can_use_new_conversation (d d' : db) (u : uuid)
    (c : conversation) :
  rls_insert_conversation (Some u) c d = Some d' ->
  conversations_select_policy d' (Some u) c = true
  /\ forall m, m_sender_id m = u -> m_conversation_id m = c_id c ->
               messages_insert_policy d' (Some u) m = true.
Proof.
  unfold rls_insert_conversation.
  destruct (conversations_insert_policy d (Some u) _ _) eqn:P; [| discriminate].
  unfold insert_conversation. destruct (_ && _); [| discriminate].
  intros X; inversion X; subst; clear X.
  apply conversations_insert_policy_rows in P.
  destruct P as [p1 [i [p2 [v [[J1 _] [[Ji _] [[J2 _] [[Jv _]
                  [E1 [E2 [E3 [E4 [V1 [V2 U]]]]]]]]]]]]]].
  assert (Last : In c (conversations d ++ [c])).
  { apply in_or_app. right. now left. }
  assert (Side : forall conv_id, c_id c = conv_id ->
            is_institution_in_conversation
              (set_conversations d (conversations d ++ [c])) (Some u) conv_id
            || is_investor_in_conversation
                 (set_conversations d (conversations d ++ [c])) (Some u) conv_id
            = true).
  { intros conv_id Ec. apply orb_true_iff. destruct U as [U | U].
    - left. apply is_institution_in_conversation_rows.
      exists c, i, p1. simpl. repeat split; auto.
    - right. apply is_investor_in_conversation_rows.
      exists c, v, p2. simpl. repeat split; auto. }
  split.
  - unfold conversations_select_policy. now apply Side.
  - intros m Hs Hc. unfold messages_insert_policy.
    rewrite (Side (m_conversation_id m)) by congruence.
    rewrite andb_true_r. apply col_is_spec. congruence.
Qed.

Lemma creator_can_use_new_conversation_witness :
  has_role (set_user_roles strangers_db [mkUserRole 1 admin]) (Some 1%N) admin
  = true
  /\ exists d',
       rls_insert_conversation (Some 1%N)
         (mkConversation 102 (Some 10%N) (Some 20%N) 6 6)
         (set_user_roles strangers_db [mkUserRole 1 admin]) = Some d'
       /\ conversations_select_policy d' (Some 1%N)
            (mkConversation 102 (Some 10%N) (Some 20%N) 6 6) = true.
Proof.
  split; [reflexivity |].
  eexists. split; [vm_compute; reflexivity |].
  apply (creator_can_use_new_conversation
           (set_user_roles strangers_db [mkUserRole 1 admin]) _ 1
           (mkConversation 102 (Some 10%N) (Some 20%N) 6 6)).
  vm_compute. reflexivity.
Defined.

(** [has_role], for a caller with a profile: a row in [user_roles], or the
    profile's own [user_type]. *)
Lemma has_role_of_profile (d : db) (p : profile) (r : app_role) :
  NoDup (map p_id (profiles d)) -> In p (profiles d) ->
  (has_role d (Some (p_id p)) r = true <->
   (exists x, In x (user_roles d) /\ ur_user_id x = p_id p /\ ur_role x = r)
   \/ p_user_type p = app_role_text r).
Proof.
  intros Hn Hp. unfold has_role. rewrite orb_true_iff, !existsb_exists.
  split.
  - intros [[x [Hx E]] | [q [Hq E]]]; apply andb_true_iff in E;
      destruct E as [E1 E2].
    + left. exists x. apply col_is_spec in E1. inversion E1.
      destruct (ur_role x), r; try discriminate; auto.
    + right. apply col_is_spec in E1. inversion E1 as [K].
      assert (q = p) by (apply (key_unique p_id (profiles d)); auto).
      subst q. now apply String.eqb_eq.
  - intros [[x [Hx [E1 E2]]] | E].
    + left. exists x. split; [assumption |]. apply andb_true_iff. split.
      * apply col_is_spec. congruence.
      * subst r. destruct (ur_role x); reflexivity.
    + right. exists p. split; [assumption |]. apply andb_true_iff. split.
      * now apply col_is_spec.
      * now apply String.eqb_eq.
Qed.

Lemma verified_as_of_profile (d : db) (p : profile) (t : string) :
  NoDup (map p_id (profiles d)) -> In p (profiles d) ->
  (verified_as d (Some (p_id p)) t = true <->
   p_user_type p = t /\ p_verification_status p = "verified"%string).
Proof.
  intros Hn Hp. unfold verified_as. rewrite existsb_exists. split.
  - intros [q [Hq E]]. apply andb_true_iff in E. destruct E as [E V].
    apply andb_true_iff in E. destruct E as [E T].
    apply col_is_spec in E. inversion E as [K].
    assert (q = p) by (apply (key_unique p_id (profiles d)); auto).
    subst q. split; [now apply String.eqb_eq |].
    unfold verified in V. now apply String.eqb_eq.
  - intros [T V]. exists p. split; [assumption |].
    unfold verified. rewrite V, T, !String.eqb_refl. simpl.
    now rewrite N.eqb_refl.
Qed.

(** Who sees the directory: in a reachable state a caller with a profile
    passes the SELECT policy of an institution row exactly when it owns the
    row, or is a verified investor, or holds the admin role; and that of an
    investor row exactly when it owns the row, or is a verified institution,
    or holds the admin role. A pending or rejected caller without the admin
    role therefore sees no row but its own. *)
Theorem directory_is_for_verified_counterparts (d : db) (p : profile) :
  reachable d -> In p (profiles d) ->
  (forall row,
      institutions_select_policy d (Some (p_id p)) row = true
      <-> i_user_id row = p_id p
          \/ (p_user_type p = "investor"
              /\ p_verification_status p = "verified")%string
          \/ has_role d (Some (p_id p)) admin = true)
  /\ (forall row,
        investors_select_policy d (Some (p_id p)) row = true
        <-> inv_user_id row = p_id p
            \/ (p_user_type p = "institution"
                /\ p_verification_status p = "verified")%string
            \/ has_role d (Some (p_id p)) admin = true)
  /\ (p_verification_status p <> "verified"%string ->
      has_role d (Some (p_id p)) admin = false ->
      (forall row, institutions_select_policy d (Some (p_id p)) row = true ->
                   i_user_id row = p_id p)
      /\ (forall row, investors_select_policy d (Some (p_id p)) row = true ->
                      inv_user_id row = p_id p)).
Proof.
  intros Hr Hp. pose proof (reachable_consistent d Hr) as C.
  destruct C as [Hn _ _ _ _ _ _].
  assert (A : forall row,
      institutions_select_policy d (Some (p_id p)) row = true
      <-> i_user_id row = p_id p
          \/ (p_user_type p = "investor"
              /\ p_verification_status p = "verified")%string
          \/ has_role d (Some (p_id p)) admin = true).
  { intros row. unfold institutions_select_policy.
    rewrite !orb_true_iff, (verified_as_of_profile d p _ Hn Hp). simpl.
    rewrite N.eqb_eq. split; intros H; intuition congruence. }
  assert (B : forall row,
      investors_select_policy d (Some (p_id p)) row = true
      <-> inv_user_id row = p_id p
          \/ (p_user_type p = "institution"
              /\ p_verification_status p = "verified")%string
          \/ has_role d (Some (p_id p)) admin = true).
  { intros row. unfold investors_select_policy.
    rewrite !orb_true_iff, (verified_as_of_profile d p _ Hn Hp). simpl.
    rewrite N.eqb_eq. split; intros H; intuition congruence. }
  split; [exact A |]. split; [exact B |].
  intros Hv Ha. split; intros row H.
  - apply A in H. destruct H as [H | [[_ H] | H]]; congruence.
  - apply B in H. destruct H as [H | [[_ H] | H]]; congruence.
Qed.

Lemma directory_is_for_verified_counterparts_witness :
  reachable demo_db
  /\ forall row,
       institutions_select_policy demo_db (Some 3%N) row = true ->
       i_user_id row = 3%N.
Proof.
  split; [exact demo_reachable |].
  apply (proj2 (proj2 (directory_is_for_verified_counterparts demo_db
           (mkProfile 3 "new@example.org" None "investor" "pending" 0)
           demo_reachable (or_intror (or_intror (or_introl eq_refl)))))).
  - discriminate.
  - reflexivity.
Defined.

End PolicyComposition.

(** ** Row-level security: donations and the admin role *)

Section DonationsAndAdmins.
Import Sql Rls.

Lemma own_investor_donation_rows d uid row :
  own_investor_donation d uid row = true <->
  exists v, In v (investors d) /\ d_investor_id row = Some (inv_id v)
            /\ uid = Some (inv_user_id v).
Proof.
  unfold own_investor_donation. rewrite existsb_exists.
  split; intros [v [Hv E]]; exists v.
  - apply andb_true_iff in E. rewrite !col_is_spec in E. tauto.
  - split; [assumption |]. apply andb_true_iff. rewrite !col_is_spec. tauto.
Qed.

Lemma own_institution_donation_rows d uid row :
  own_institution_donation d uid row = true <->
  exists i, In i (institutions d) /\ d_institution_id row = Some (i_id i)
            /\ uid = Some (i_user_id i).
Proof.
  unfold own_institution_donation. rewrite existsb_exists.
  split; intros [i [Hi E]]; exists i.
  - apply andb_true_iff in E. rewrite !col_is_spec in E. tauto.
  - split; [assumption |]. apply andb_true_iff. rewrite !col_is_spec. tauto.
Qed.

(** A caller without the admin role may record a donation exactly when the
    donation names an investor row the caller owns, whatever the caller's
    verification status; any other donation of such a caller is refused. *)
Theorem donations_are_created_by_their_investor (d : db) (uid : caller)
    (r : donation) :
  reachable d ->
  has_role d uid admin = false ->
  (forall v, In v (investors d) -> d_investor_id r = Some (inv_id v) ->
     (donations_insert_policy d uid r = true <-> uid = Some (inv_user_id v)))
  /\ ((forall v, In v (investors d) -> d_investor_id r <> Some (inv_id v)) ->
      donations_insert_policy d uid r = false)
  /\ (donations_insert_policy d uid r = false ->
      rls_insert_donation uid r d = None).
Proof.
  intros Hr Ha. pose proof (reachable_consistent d Hr) as C.
  destruct C as [_ _ Hv _ _ _ _].
  unfold donations_insert_policy. rewrite Ha. simpl.
  split; [| split].
  - intros v Iv Ev. rewrite own_investor_donation_rows. split.
    + intros [w [Iw [Ew U]]]. rewrite Ev in Ew. inversion Ew as [K].
      assert (w = v) by (apply (key_unique inv_id (investors d)); auto).
      now subst w.
    + intros U. exists v. auto.
  - intros Hnone. destruct (own_investor_donation d uid r) eqn:E; [| reflexivity].
    apply own_investor_donation_rows in E. destruct E as [v [Iv [Ev _]]].
    exfalso. exact (Hnone v Iv Ev).
  - intros P. unfold rls_insert_donation, donations_insert_policy.
    now rewrite Ha, P.
Qed.

Lemma donations_are_created_by_their_investor_witness :
  donations_insert_policy demo_db (Some 3%N)
    (mkDonation 501 (Some 21%N) (Some 10%N) (Some (Num (5 # 1))) "USD"
                (Some "pending"%string) None 0) = true
  <-> Some 3%N = Some 3%N.
Proof.
  apply (proj1 (donations_are_created_by_their_investor demo_db (Some 3%N)
           (mkDonation 501 (Some 21%N) (Some 10%N) (Some (Num (5 # 1))) "USD"
                       (Some "pending"%string) None 0)
           demo_reachable eq_refl)
         (mkInvestor 21 3 "corporate" (Some "Acme"%string))).
  - simpl. auto.
  - reflexivity.
Defined.

(** A donation that went in under the investor's own policy can be read back
    by that investor and by the owner of the institution it goes to. *)
Theorem donation_is_visible_to_both_sides (d d' : db) (uid : caller)
    (r : donation) :
  reachable d ->
  has_role d uid admin = false ->
  rls_insert_donation uid r d = Some d' ->
  In r (donations d')
  /\ donations_select_policy d' uid r = true
  /\ exists i, In i (institutions d')
               /\ d_institution_id r = Some (i_id i)
               /\ donations_select_policy d' (Some (i_user_id i)) r = true.
Proof.
  intros Hr Ha. unfold rls_insert_donation, donations_insert_policy.
  rewrite Ha. simpl.
  destruct (own_investor_donation d uid r) eqn:P; [| discriminate].
  unfold insert_donation.
  destruct (negb _); simpl; [| discriminate].
  destruct (donation_row_ok d r) eqn:Ok; [| discriminate].
  intros X; inversion X; subst; clear X.
  apply donation_row_ok_valid in Ok.
  destruct Ok as [a [s [v [i [_ [_ [_ [_ [_ [_ [Ei [j [Hj Ej]]]]]]]]]]]]].
  split; [simpl; apply in_or_app; right; now left |].
  unfold donations_select_policy. split.
  - assert (Q : own_investor_donation
                  (set_donations d (donations d ++ [r])) uid r = true)
      by exact P.
    rewrite Q. now rewrite orb_true_r.
  - exists j. simpl. split; [assumption |]. split; [congruence |].
    assert (Q : own_institution_donation
                  (set_donations d (donations d ++ [r]))
                  (Some (i_user_id j)) r = true).
    { apply own_institution_donation_rows. exists j. simpl.
      repeat split; auto. congruence. }
    rewrite Q. now rewrite !orb_true_r.
Qed.

Lemma donation_is_visible_to_both_sides_witness :
  exists d',
    rls_insert_donation (Some 3%N)
      (mkDonation 501 (Some 21%N) (Some 10%N) (Some (Num (5 # 1))) "USD"
                  (Some "pending"%string) None 0) demo_db = Some d'
    /\ donations_select_policy d' (Some 3%N)
         (mkDonation 501 (Some 21%N) (Some 10%N) (Some (Num (5 # 1))) "USD"
                     (Some "pending"%string) None 0) = true.
Proof.
  eexists. split; [vm_compute; reflexivity |].
  apply (donation_is_visible_to_both_sides demo_db _ (Some 3%N)
           (mkDonation 501 (Some 21%N) (Some 10%N) (Some (Num (5 # 1))) "USD"
                       (Some "pending"%string) None 0)
           demo_reachable eq_refl).
  vm_compute. reflexivity.
Defined.

(** Since [has_role] also reads [profiles.user_type], and a caller may
    rewrite every column of its own profile, any caller with a profile can
    give itself the admin role: the update of its own row to user_type
    'admin' is accepted and [has_role] holds afterwards. *)
Theorem own_user_type_grants_admin (d : db) (u : uuid) (now : timestamptz)
    (p : profile) :
  In u (map p_id (profiles d)) ->
  p_user_type p = "admin"%string ->
  check_verification_status (p_verification_status p) = true ->
  exists d',
    rls_update_profile (Some u) now u p d = Some d'
    /\ has_role d' (Some u) admin = true
    /\ user_roles d' = user_roles d.
Proof.
  intros Hin Ht Hs. unfold rls_update_profile.
  assert (Own : forall x, N.eqb (p_id x) u = true ->
                          profiles_update_policy d (Some u) x = true).
  { intros x E. unfold profiles_update_policy,
      users_can_update_their_own_profile. simpl.
    rewrite N.eqb_sym, E. reflexivity. }
  match goal with
  | |- context [forallb ?f (profiles d)] =>
      assert (Hall : forallb f (profiles d) = true)
  end.
  { apply forallb_forall. intros x Hx.
    destruct (N.eqb (p_id x) u) eqn:E; simpl; [| reflexivity].
    rewrite (Own x E). simpl.
    unfold profiles_update_policy, users_can_update_their_own_profile. simpl.
    rewrite N.eqb_sym, E, Ht, Hs. reflexivity. }
  rewrite Hall. eexists. split; [reflexivity |]. split; [| reflexivity].
  unfold has_role. apply orb_true_iff. right. simpl.
  apply in_map_iff in Hin. destruct Hin as [x [Ex Hx]].
  apply existsb_exists.
  exists (stamp_profile now (rekey_profile (p_id x) p)). split.
  - apply in_map_iff. exists x. split; [| assumption].
    assert (E : N.eqb (p_id x) u = true) by now apply N.eqb_eq.
    now rewrite E, (Own x E).
  - simpl. rewrite Ex, N.eqb_refl, Ht. reflexivity.
Qed.

Lemma own_user_type_grants_admin_witness :
  has_role demo_db (Some 3%N) admin = false
  /\ exists d',
       rls_update_profile (Some 3%N) 11 3
         (mkProfile 3 "new@example.org" None "admin" "pending" 0) demo_db
       = Some d'
       /\ has_role d' (Some 3%N) admin = true
       /\ user_roles d' = user_roles demo_db.
Proof.
  split; [reflexivity |].
  apply (own_user_type_grants_admin demo_db 3 11
           (mkProfile 3 "new@example.org" None "admin" "pending" 0)).
  - simpl. auto.
  - reflexivity.
  - reflexivity.
Defined.

(** The admin path of [handleVerification]: a caller with the admin role
    sets the status of any profile to any allowed value, and no other
    profile row changes. *)
Theorem admin_sets_any_verification_status (d : db) (uid : caller)
    (now : timestamptz) (target : uuid) (status : string) :
  reachable d ->
  has_role d uid admin = true ->
  check_verification_status status = true ->
  exists d',
    rls_update_verification_status uid now target status d = Some d'
    /\ (forall p', In p' (profiles d') -> p_id p' = target ->
                   p_verification_status p' = status
                   /\ p_updated_at p' = now)
    /\ (forall p, In p (profiles d) -> p_id p <> target -> In p (profiles d'))
    /\ map p_id (profiles d') = map p_id (profiles d).
Proof.
  intros Hr Ha Hs. pose proof (reachable_owned d Hr) as O.
  unfold rls_update_verification_status.
  assert (Pol : forall x, profiles_update_policy d uid x = true).
  { intros x. unfold profiles_update_policy, admins_can_update_all_profiles.
    rewrite Ha. apply orb_true_r. }
  match goal with
  | |- context [forallb ?f (profiles d)] =>
      assert (Hall : forallb f (profiles d) = true)
  end.
  { apply forallb_forall. intros x Hx. rewrite !Pol, Hs. simpl.
    rewrite (proj1 (profiles_checked d O x Hx)).
    now rewrite andb_true_r, orb_true_r. }
  rewrite Hall. eexists. split; [reflexivity |]. simpl.
  split; [| split].
  - intros p' Hin Hid. apply in_map_iff in Hin. destruct Hin as [x [Hx Hin]].
    rewrite Pol, andb_true_r in Hx.
    destruct (N.eqb (p_id x) target) eqn:E; subst p'; simpl; [auto |].
    apply N.eqb_neq in E. contradiction.
  - intros p Hp Hne. apply in_map_iff. exists p. split; [| assumption].
    apply N.eqb_neq in Hne. now rewrite Hne.
  - apply map_key_stable. intros x.
    destruct (_ && _); reflexivity.
Qed.

Lemma admin_sets_any_verification_status_witness :
  exists d',
    rls_update_verification_status (Some 4%N) 12 3 "verified"
      (set_user_roles demo_db [mkUserRole 4 admin]) = Some d'
    /\ status_of d' 3 = Some "verified"%string.
Proof.
  assert (R : reachable (set_user_roles demo_db [mkUserRole 4 admin])).
  { apply (reachable_step (InsertUserRole (mkUserRole 4 admin)) demo_db);
      [exact demo_reachable | reflexivity]. }
  destruct (admin_sets_any_verification_status
              (set_user_roles demo_db [mkUserRole 4 admin]) (Some 4%N) 12 3
              "verified" R eq_refl eq_refl) as [d' [E _]].
  exists d'. split; [exact E |].
  vm_compute in E. inversion E. reflexivity.
Defined.

Lemma own_profile_update_goes_through_witness :
  exists d',
    rls_update_verification_status (Some 3%N) 11 3 "rejected" demo_db
    = Some d'
    /\ forall p', In p' (profiles d') -> p_id p' = 3%N ->
                  p_verification_status p' = "rejected"%string.
Proof.
  apply own_profile_update_goes_through; [reflexivity |].
  intros p Hp. simpl in Hp.
  destruct Hp as [<- | [<- | [<- | []]]]; reflexivity.
Defined.

End DonationsAndAdmins.

(** ** Text and time in the views *)

Section ViewText.
Import Js Text.

Lemma prefix_refl (s : string) : String.prefix s s = true.
Proof.
  induction s as [|c s IH]; simpl; [reflexivity |].
  destruct (ascii_dec c c); [exact IH | contradiction].
Qed.

Lemma includes_empty (s : string) : includes s "" = true.
Proof. destruct s; reflexivity. Qed.

Lemma includes_refl (s : string) : includes s s = true.
Proof.
  destruct s as [|c s]; [reflexivity |].
  unfold includes; fold includes. now rewrite prefix_refl.
Qed.

Lemma floor_of_quotient (x : Q) (d : Z) (k : positive) :
  (x == inject_Z d)%Q ->
  Qfloor (x / (Zpos k # 1)) = (d / Zpos k)%Z.
Proof.
  intros E.
  assert (E' : (x / (Zpos k # 1) == inject_Z d / (Zpos k # 1))%Q)
    by now rewrite E.
  rewrite (Qfloor_comp _ _ E').
  unfold Qdiv, Qmult, Qinv, inject_Z, Qfloor. simpl.
  now rewrite Z.mul_1_r.
Qed.

Lemma lt_whole (a b : Z) :
  lt (Fin (inject_Z a)) (Fin (inject_Z b)) = (a <? b)%Z.
Proof.
  simpl. destruct (Qle_bool (inject_Z b) (inject_Z a)) eqn:E.
  - apply Qle_bool_inject in E. symmetry. apply Z.ltb_ge. exact E.
  - simpl. symmetry. apply Z.ltb_lt.
    destruct (Z_lt_le_dec a b) as [L | L]; [exact L |].
    apply Qle_bool_inject in L. congruence.
Qed.

(** [getTimeAgo] by the elapsed milliseconds [d] between two valid time
    values: "Just now" below one minute (also for a timestamp in the
    future), whole minutes below one hour, whole hours below one day, whole
    days from then on, each count being [d] divided by the length of the
    unit; a timestamp that does not parse reads "NaNd ago". *)
Theorem getTimeAgo_by_elapsed (n t : Z) :
  let d := (n - t)%Z in
  MessagesView.getTimeAgo (Fin (inject_Z n)) (Fin (inject_Z t))
  = (if (d <? 60000)%Z then "Just now"
     else if (d <? 3600000)%Z then show_integer (d / 60000) ++ "m ago"
     else if (d <? 86400000)%Z then show_integer (d / 3600000) ++ "h ago"
     else show_integer (d / 86400000) ++ "d ago")%string
  /\ MessagesView.getTimeAgo (Fin (inject_Z n)) NaN = "NaNd ago"%string
  /\ ((60000 <= d < 3600000)%Z -> (1 <= d / 60000 <= 59)%Z)
  /\ ((3600000 <= d < 86400000)%Z -> (1 <= d / 3600000 <= 23)%Z)
  /\ ((86400000 <= d)%Z -> (1 <= d / 86400000)%Z).
Proof.
  intros d. split; [| split; [reflexivity | split; [| split]]].
  - unfold MessagesView.getTimeAgo.
    assert (E : (inject_Z n + - inject_Z t == inject_Z d)%Q).
    { unfold d, Z.sub. rewrite inject_Z_plus, inject_Z_opp. reflexivity. }
    cbn [sub neg add div floor].
    change (is_zero (60000 # 1)) with false.
    cbn [floor]. rewrite (floor_of_quotient _ d 60000 E).
    cbn [div]. change (is_zero (60 # 1)) with false.
    cbn [floor]. rewrite (floor_of_quotient _ (d / 60000) 60 (Qeq_refl _)).
    cbn [div]. change (is_zero (24 # 1)) with false.
    cbn [floor]. rewrite (floor_of_quotient _ (d / 60000 / 60) 24 (Qeq_refl _)).
    change (Fin 1) with (Fin (inject_Z 1)).
    change (Fin (60 # 1)) with (Fin (inject_Z 60)).
    change (Fin (24 # 1)) with (Fin (inject_Z 24)).
    rewrite !lt_whole. unfold template. rewrite !Qfloor_Z.
    rewrite !Z.div_div by lia. change (60000 * 60)%Z with 3600000%Z.
    change (3600000 * 24)%Z with 86400000%Z.
    pose proof (Z.div_mod d 60000 ltac:(lia)) as D1.
    pose proof (Z.mod_pos_bound d 60000 ltac:(lia)) as M1.
    pose proof (Z.div_mod d 3600000 ltac:(lia)) as D2.
    pose proof (Z.mod_pos_bound d 3600000 ltac:(lia)) as M2.
    pose proof (Z.div_mod d 86400000 ltac:(lia)) as D3.
    pose proof (Z.mod_pos_bound d 86400000 ltac:(lia)) as M3.
    destruct (d / 60000 <? 1)%Z eqn:A;
      [apply Z.ltb_lt in A | apply Z.ltb_ge in A];
      destruct (d <? 60000)%Z eqn:A';
      try (apply Z.ltb_lt in A'); try (apply Z.ltb_ge in A');
      try reflexivity; try lia.
    destruct (d / 60000 <? 60)%Z eqn:Bm;
      [apply Z.ltb_lt in Bm | apply Z.ltb_ge in Bm];
      destruct (d <? 3600000)%Z eqn:Bm';
      try (apply Z.ltb_lt in Bm'); try (apply Z.ltb_ge in Bm');
      try reflexivity; try lia.
    destruct (d / 3600000 <? 24)%Z eqn:Ch;
      [apply Z.ltb_lt in Ch | apply Z.ltb_ge in Ch];
      destruct (d <? 86400000)%Z eqn:Ch';
      try (apply Z.ltb_lt in Ch'); try (apply Z.ltb_ge in Ch');
      try reflexivity; try lia.
  - intros [L U].
    pose proof (Z.div_mod d 60000 ltac:(lia)) as D1.
    pose proof (Z.mod_pos_bound d 60000 ltac:(lia)) as M1. lia.
  - intros [L U].
    pose proof (Z.div_mod d 3600000 ltac:(lia)) as D2.
    pose proof (Z.mod_pos_bound d 3600000 ltac:(lia)) as M2. lia.
  - intros L.
    pose proof (Z.div_mod d 86400000 ltac:(lia)) as D3.
    pose proof (Z.mod_pos_bound d 86400000 ltac:(lia)) as M3. lia.
Qed.

Lemma getTimeAgo_by_elapsed_witness :
  MessagesView.getTimeAgo (Fin (inject_Z 10000000)) (Fin (inject_Z 2500000))
  = "2h ago"%string
  /\ (1 <= 7500000 / 3600000 <= 23)%Z.
Proof.
  split.
  - exact (proj1 (getTimeAgo_by_elapsed 10000000 2500000)).
  - apply (proj1 (proj2 (proj2 (proj2 (getTimeAgo_by_elapsed 10000000 2500000))))).
    simpl. lia.
Defined.

End ViewText.

(** ** The Messages page: search, sending and the message list *)

Section MessagesViews.
Import Js Text Ui Messages.

(** The conversation search never fails on a loaded list and keeps its
    order; an empty query shows every conversation, and typing the name a
    conversation is shown under, in any letter case, keeps that
    conversation. *)
Theorem filteredConversations_on_loaded_list (user : option string)
    (rows : list conversation_row) (q : string) :
  exists kept,
    MessagesView.filteredConversations q (map (format user) rows) = Some kept
    /\ kept = filter (fun conv =>
                match MessagesView.matches_search q conv with
                | Some b => b
                | None => false
                end) (map (format user) rows)
    /\ (q = ""%string -> kept = map (format user) rows)
    /\ (forall conv name, In conv (map (format user) rows) ->
          get conv "other_party_name" = VStr name ->
          toLowerCase q = toLowerCase name -> In conv kept).
Proof.
  assert (Str : forall r, exists name,
            get (format user r) "other_party_name" = VStr name).
  { intros r. unfold format. simpl. eauto. }
  assert (Run : MessagesView.filteredConversations q (map (format user) rows)
                = Some (filter (fun conv =>
                    match MessagesView.matches_search q conv with
                    | Some b => b
                    | None => false
                    end) (map (format user) rows))).
  { induction rows as [|r rows IH]; [reflexivity |].
    cbn [map MessagesView.filteredConversations filter].
    destruct (Str r) as [name E].
    assert (Eb : MessagesView.matches_search q (format user r)
                 = Some (includes (toLowerCase name) (toLowerCase q))).
    { unfold MessagesView.matches_search. now rewrite E. }
    rewrite Eb, IH. reflexivity. }
  eexists. split; [exact Run |]. split; [reflexivity |]. split.
  - intros ->. apply filter_keeps_all. intros conv Hin.
    apply in_map_iff in Hin. destruct Hin as [r [<- _]].
    unfold MessagesView.matches_search. destruct (Str r) as [name E].
    rewrite E. apply includes_empty.
  - intros conv name Hin E L. apply filter_In. split; [assumption |].
    unfold MessagesView.matches_search. rewrite E, L. apply includes_refl.
Qed.

Lemma filteredConversations_on_loaded_list_witness :
  MessagesView.filteredConversations "HILLSIDE school"
    (conversations (ui loaded_session))
  = Some (conversations (ui loaded_session)).
Proof.
  destruct (filteredConversations_on_loaded_list (Some "2"%string)
              [ mkConversationRow "100" "2025-11-07T14:17:02Z"
                  (mkInstitutionRef "10" "Hillside School" "1")
                  (mkInvestorRef "20" None "individual" "2") ]
              "HILLSIDE school") as [kept [Run [Hk _]]].
  rewrite Hk in Run. exact Run.
Defined.






Section Sending.
Context {B : Type} `{Backend B}.

End Sending.


End MessagesViews.

(** ** The message list *)

Section MessageList.
Import Js Text Ui Messages.
Context {B : Type} `{MessagesView.Feed B}.

(** [loadMessages] on an error raises one destructive toast and keeps the
    messages that were shown; on success it replaces the list, whatever it
    held, by one object per row in the order of the rows, each with a
    boolean [read]; and a row pushed by the subscription is appended at the
    end. *)
Theorem loadMessages_replaces_or_keeps
    (w : world state MessagesView.request B) (conversationId : string) :
  (forall b' r e,
      MessagesView.select_messages conversationId (backend w) = (b', r) ->
      error r = Some e ->
      MessagesView.loadMessages conversationId w
      = (tt, mkWorld (ui w)
               (toasts w ++ [mkToast "Error loading messages" (message e)
                                     destructive])
               (requests w ++ [MessagesView.SelectMessages conversationId])
               (location w) b'))
  /\ (forall b' r rows,
        MessagesView.select_messages conversationId (backend w) = (b', r) ->
        error r = None -> data r = Some rows ->
        let w' := snd (MessagesView.loadMessages conversationId w) in
        messages (ui w') = map MessagesView.format_message rows
        /\ List.length (messages (ui w')) = List.length rows
        /\ (forall o, In o (messages (ui w')) ->
                      exists b, get o "read" = VBool b)
        /\ toasts w' = toasts w
        /\ conversations (ui w') = conversations (ui w)
        /\ newMessage (ui w') = newMessage (ui w))
  /\ (forall id b' r row,
        MessagesView.select_message id (backend w) = (b', r) ->
        data r = Some row ->
        messages (ui (snd (MessagesView.on_insert id w)))
        = messages (ui w) ++ [MessagesView.format_message row]).
Proof.
  split; [| split].
  - intros b' r e Hs He. unfold MessagesView.loadMessages, bind, call.
    rewrite Hs, He. reflexivity.
  - intros b' r rows Hs He Hd. unfold MessagesView.loadMessages, bind, call.
    rewrite Hs, He, Hd. simpl.
    split; [reflexivity |]. split; [apply length_map |].
    split; [| auto].
    intros o Hin. apply in_map_iff in Hin. destruct Hin as [row [<- _]].
    simpl. eauto.
  - intros id b' r row Hs Hd. unfold MessagesView.on_insert, bind, call.
    rewrite Hs, Hd. reflexivity.
Qed.

End MessageList.

Section MessageListRuns.
Import Js Ui Messages.

Lemma loadMessages_replaces_or_keeps_witness :
  messages (ui (snd (@MessagesView.loadMessages unit MessagesView.two_messages
                       "100" (MessagesView.chat_session (Some "100"%string)))))
  = map MessagesView.format_message
      [ MessagesView.mkMessageRow "m1" "hello" "2" "2025-11-07T14:17:02Z"
          (Some true) (Some (MessagesView.mkSenderRef (Some "Dana"%string)));
        MessagesView.mkMessageRow "m2" "welcome" "1" "2025-11-07T14:18:30Z"
          None None ].
Proof.
  apply (proj1 (proj2 (@loadMessages_replaces_or_keeps unit
                         MessagesView.two_messages
                         (MessagesView.chat_session (Some "100"%string)) "100"))
           tt _ _ eq_refl eq_refl eq_refl).
Defined.

Lemma handleCreateConversation_always_inserts_witness :
  exists v i,
    In (InsertConversation v i)
       (requests (snd (@handleCreateConversation unit one_conversation
                         loaded_session))).
Proof.
  apply (@handleCreateConversation_always_inserts unit one_conversation
           loaded_session investor
           [ mkConversationRow "100" "2025-11-07T14:17:02Z"
               (mkInstitutionRef "10" "Hillside School" "1")
               (mkInvestorRef "20" None "individual" "2") ]);
    reflexivity.
Defined.

Lemma handleContactInstitution_opens_existing_witness :
  @InstitutionsList.handleContactInstitution unit InstitutionsList.known_pair
    "10" (mkWorld tt [] [] None tt)
  = (tt, mkWorld tt []
           [ InstitutionsList.GetUser; InstitutionsList.SelectInvestorOf "2";
             InstitutionsList.SelectConversation "20" "10" ]
           (Some "/messages?conversation=100"%string) tt).
Proof.
  apply (@handleContactInstitution_opens_existing unit
           InstitutionsList.known_pair (mkWorld tt [] [] None tt)
           "10" "2" "20" "100" tt tt tt
           (mkResponse (Some "20"%string) None)
           (mkResponse (Some "100"%string) None));
    reflexivity.
Defined.

End MessageListRuns.

(** ** The admin table of investors *)

Section AdminTable.
Import Js Text Ui InvestorsManagement.

Lemma filter_none {A} (g : A -> bool) (l : list A) :
  (forall x, In x l -> g x = false) -> filter g l = [].
Proof.
  induction l as [|a l IH]; simpl; intros Hg; [reflexivity |].
  rewrite (Hg a (or_introl eq_refl)). apply IH. auto.
Qed.

(** With "pending only" switched on every investor shown is pending, the
    'verified' and 'rejected' filters then show nobody, and the 'pending'
    filter shows the same list with the switch on or off; with no search
    text, filter 'all' and the switch off, every investor is shown. *)
Theorem filteredInvestors_by_status (l : list InvestorWithProfile)
    (q : string) (f : status_filter) :
  (forall inv, In inv (filteredInvestors l q f true) ->
               status_of inv = "pending"%string)
  /\ (f = verified \/ f = rejected -> filteredInvestors l q f true = [])
  /\ filteredInvestors l q pending true = filteredInvestors l q pending false
  /\ filteredInvestors l "" all false = l
  /\ (forall b inv, In inv (filteredInvestors l q f b) -> In inv l).
Proof.
  unfold filteredInvestors. split; [| split; [| split; [| split]]].
  - intros inv Hin. apply filter_In in Hin. destruct Hin as [_ S].
    unfold shown in S. apply andb_true_iff in S. destruct S as [_ S].
    simpl in S. now apply String.eqb_eq.
  - intros Hf. apply filter_none. intros inv _. unfold shown. simpl.
    destruct (String.eqb (status_of inv) "pending") eqn:P;
      [| now rewrite andb_false_r].
    apply String.eqb_eq in P. rewrite P.
    destruct Hf as [-> | ->]; simpl; now rewrite andb_false_r.
  - apply filter_ext. intros inv. unfold shown. simpl.
    destruct (matchesSearch q inv), (String.eqb (status_of inv) "pending");
      reflexivity.
  - apply filter_keeps_all. intros inv _. unfold shown, matchesSearch. simpl.
    rewrite includes_empty. now rewrite !orb_true_r.
  - intros b inv Hin. apply filter_In in Hin. tauto.
Qed.

Lemma filteredInvestors_by_status_witness :
  filteredInvestors
    [ mkInvestor "20" "individual" None None "2025-11-01" "2"
        (Some (mkProfileRef "donor@example.org" None None "verified"));
      mkInvestor "21" "corporate" (Some "Acme"%string) None "2025-11-02" "3"
        (Some (mkProfileRef "new@example.org" None None "Pending")) ]
    "acme" verified true = [].
Proof.
  apply (proj1 (proj2 (filteredInvestors_by_status _ "acme" verified))).
  now left.
Defined.

(** [handleVerification] against the hosted database: when the signed-in
    caller holds no admin role and the target is another user's profile,
    the update matches no row and returns no error, so the screen raises
    the success toast and reloads the list while the database is exactly as
    before. *)
Theorem handleVerification_reports_success_without_a_change
    (d : Sql.db) (uid : Rls.caller) (now : Sql.timestamptz)
    (uuid_of : string -> Sql.uuid)
    (listing : Sql.db -> list InvestorWithProfile)
    (userId : string) (status : decision)
    (w : world state request Sql.db) :
  backend w = d ->
  Rls.has_role d uid Sql.admin = false ->
  uid <> Some (uuid_of userId) ->
  @handleVerification Sql.db (hosted uid now uuid_of listing) userId status w
  = (tt, mkWorld (setInvestors (listing d) (ui w))
           (toasts w ++ [mkToast "Success"
                           ("Investor " ++ decision_text status
                            ++ " successfully") None])
           (requests w ++ [UpdateVerificationStatus userId (decision_text status)]
              ++ [SelectInvestors])
           (location w) d).
Proof.
  intros Hb Ha Hother.
  unfold handleVerification, fetchInvestors, bind, call. simpl.
  rewrite Hb.
  rewrite (non_admin_update_of_other_profile_hits_nothing d uid now
             (uuid_of userId) (decision_text status) Ha Hother).
  simpl. now rewrite <- app_assoc.
Qed.

Lemma handleVerification_reports_success_without_a_change_witness :
  toasts (snd (@handleVerification Sql.db
                 (hosted (Some 3%N) 11%Z demo_uuid_of (fun _ => []))
                 "2" reject
                 (mkWorld (mkState [] "" all false) [] [] None Sql.demo_db)))
  = [mkToast "Success" "Investor rejected successfully" None]
  /\ Rls.status_of Sql.demo_db 2%N = Some "verified"%string.
Proof.
  split; [| reflexivity].
  rewrite (handleVerification_reports_success_without_a_change Sql.demo_db
             (Some 3%N) 11%Z demo_uuid_of (fun _ => []) "2" reject
             (mkWorld (mkState [] "" all false) [] [] None Sql.demo_db)
             eq_refl eq_refl).
  - reflexivity.
  - discriminate.
Defined.

End AdminTable.

(** ** Counts and shares on the dashboards *)

Section DashboardCounts.
Import Js.

Lemma filter_length_le {A} (g : A -> bool) (l : list A) :
  (List.length (filter g l) <= List.length l)%nat.
Proof.
  induction l as [|a l IH]; simpl; [lia |].
  destruct (g a); simpl; lia.
Qed.

Lemma disjoint_filters {A} (g h : A -> bool) (l : list A) :
  (forall x, g x = true -> h x = false) ->
  (List.length (filter g l) + List.length (filter h l) <= List.length l)%nat.
Proof.
  intros D. induction l as [|a l IH]; simpl; [lia |].
  destruct (g a) eqn:G; [rewrite (D a G) |]; destruct (h a); simpl; lia.
Qed.

(** The donation figures of the institution screen: pending and completed
    donations together never outnumber the total, a missing result counts
    as no donation, and the pad total is never [NaN]. *)
Theorem donation_stats_are_consistent
    (donationsData : option (list InstitutionDonations.DbDonation)) :
  let s := InstitutionDonations.stats_of donationsData in
  (InstitutionDonations.pending s + InstitutionDonations.completed s
   <= InstitutionDonations.total s)%nat
  /\ InstitutionDonations.totalPads s <> NaN
  /\ (donationsData = None \/ donationsData = Some [] ->
      s = InstitutionDonations.mkDonationStats 0 0 0 (Fin 0)).
Proof.
  destruct donationsData as [rows|]; simpl.
  - split; [| split].
    + apply disjoint_filters. intros x P. apply String.eqb_eq in P.
      rewrite P. reflexivity.
    + unfold InstitutionDonations.number_or_zero.
      destruct (fold_left _ rows (Fin 0)) eqn:E; simpl;
        try discriminate.
      destruct (negb (is_zero q)); discriminate.
    + intros [X | X]; [discriminate |]. inversion X. reflexivity.
  - split; [lia |]. split; [discriminate | reflexivity].
Qed.

Lemma donation_stats_are_consistent_witness :
  InstitutionDonations.stats_of (Some [])
  = InstitutionDonations.mkDonationStats 0 0 0 (Fin 0).
Proof.
  apply (proj2 (proj2 (donation_stats_are_consistent (Some [])))).
  now right.
Defined.

Lemma counted_all {C} (conversations : list C) (k : nat) :
  fold_left (fun n _ => (if Nat.eqb n 0 then 0 else n) + 1)%nat conversations k
  = (k + List.length conversations)%nat.
Proof.
  revert k. induction conversations as [|c l IH]; intros k; simpl; [lia |].
  rewrite IH. destruct (Nat.eqb k 0) eqn:E; [apply Nat.eqb_eq in E |]; lia.
Qed.

(** The donor split never divides by zero: with no conversation it is
    empty, and otherwise it is the single share 'Individual Investor' with
    every conversation counted and a percentage equal to 100. *)
Theorem generateDonorAnalytics_single_share {C} (conversations : list C) :
  (conversations = [] -> DonorAnalytics.generateDonorAnalytics conversations = [])
  /\ (conversations <> [] ->
      exists q,
        DonorAnalytics.generateDonorAnalytics conversations
        = [ DonorAnalytics.mkShare "Individual Investor"
              (List.length conversations) (Fin q) ]
        /\ (q == 100)%Q).
Proof.
  split; [intros ->; reflexivity |].
  intros Hne. destruct conversations as [|c l]; [contradiction |].
  unfold DonorAnalytics.generateDonorAnalytics, DonorAnalytics.counted.
  rewrite counted_all. cbn [Nat.add List.length Nat.eqb].
  cbn [filter snd fst Nat.ltb Nat.leb map].
  unfold of_nat, div. rewrite of_nat_nonzero by discriminate. cbn [mul].
  eexists. split; [reflexivity |].
  set (n := inject_Z (Z.of_nat (S (List.length l)))).
  assert (Hn : ~ (n == 0)%Q).
  { intros E. apply Qeq_bool_iff in E.
    pose proof (of_nat_nonzero (S (List.length l)) ltac:(discriminate)) as K.
    unfold is_zero in K. fold n in K. congruence. }
  field. exact Hn.
Qed.

Lemma generateDonorAnalytics_single_share_witness :
  exists q,
    DonorAnalytics.generateDonorAnalytics [tt; tt; tt]
    = [ DonorAnalytics.mkShare "Individual Investor" 3 (Fin q) ]
    /\ (q == 100)%Q.
Proof.
  apply (proj2 (generateDonorAnalytics_single_share [tt; tt; tt])).
  discriminate.
Defined.

Lemma present_length (xs : list (option string)) :
  (List.length (InstitutionAnalytics.present xs) <= List.length xs)%nat.
Proof.
  induction xs as [|[x|] xs IH]; simpl; [lia | | lia].
  destruct (truthy x); simpl; lia.
Qed.

Lemma nodup_length_le (xs : list string) :
  (List.length (nodup string_dec xs) <= List.length xs)%nat.
Proof.
  induction xs as [|x xs IH]; simpl; [lia |].
  destruct (in_dec string_dec x xs); simpl; lia.
Qed.

Lemma present_all (xs : list (option string)) (ys : list string) :
  xs = map Some ys -> (forall y, In y ys -> truthy y = true) ->
  InstitutionAnalytics.present xs = ys.
Proof.
  intros ->. induction ys as [|y ys IH]; simpl; intros T; [reflexivity |].
  rewrite (T y (or_introl eq_refl)). f_equal. apply IH. auto.
Qed.

(** The counts of the analytics: the active investors never exceed the
    conversations nor the unread messages the messages, and when every
    conversation names its own, different investor, as the unique pairing
    of the schema gives for one institution, the two counts agree. *)
Theorem metrics_counts_are_consistent
    (conversations : list InstitutionAnalytics.Conversation)
    (messages : list InstitutionAnalytics.Message) :
  let m := InstitutionAnalytics.metrics conversations messages in
  (InstitutionAnalytics.activeInvestors m
   <= InstitutionAnalytics.totalConversations m)%nat
  /\ (InstitutionAnalytics.unreadMessages m
      <= InstitutionAnalytics.totalMessages m)%nat
  /\ InstitutionAnalytics.totalConversations m = List.length conversations
  /\ (forall ids,
        map InstitutionAnalytics.investor_id conversations = map Some ids ->
        NoDup ids -> (forall y, In y ids -> truthy y = true) ->
        InstitutionAnalytics.activeInvestors m
        = InstitutionAnalytics.totalConversations m).
Proof.
  unfold InstitutionAnalytics.metrics. simpl.
  split; [| split; [| split]].
  - unfold InstitutionAnalytics.set_size.
    etransitivity; [apply nodup_length_le |].
    etransitivity; [apply present_length |]. now rewrite length_map.
  - apply filter_length_le.
  - reflexivity.
  - intros ids E Hn T. unfold InstitutionAnalytics.set_size.
    rewrite (present_all _ ids E T), (nodup_fixed_point string_dec Hn).
    rewrite <- (length_map InstitutionAnalytics.investor_id), E.
    now rewrite length_map.
Qed.

Lemma metrics_counts_are_consistent_witness :
  InstitutionAnalytics.activeInvestors
    (InstitutionAnalytics.metrics
       [ InstitutionAnalytics.mkConversation "c1" (Some "20"%string) "10" "2025-11-01";
         InstitutionAnalytics.mkConversation "c2" (Some "21"%string) "10" "2025-11-02" ]
       [])
  = 2%nat.
Proof.
  apply (proj2 (proj2 (proj2 (metrics_counts_are_consistent
           [ InstitutionAnalytics.mkConversation "c1" (Some "20"%string) "10" "2025-11-01";
             InstitutionAnalytics.mkConversation "c2" (Some "21"%string) "10" "2025-11-02" ]
           [])))
         ["20"; "21"]%string).
  - reflexivity.
  - repeat constructor; simpl; intuition discriminate.
  - intros y [<- | [<- | []]]; reflexivity.
Defined.

End DashboardCounts.
